(** * SentryVision: camera workers and the alert dispatcher

    A shallow embedding of [config.py], [camera_processor.py] and the alert
    dispatcher of [main.py], followed by the properties of the capture
    pipeline and of the dispatch engine.

    Conventions.
    - Python floats are IEEE binary64 numbers: [float] with [PrimFloat.sub],
      [PrimFloat.ltb] and [PrimFloat.leb].  [a >= b] is [PrimFloat.leb b a].
    - Python dicts with string keys are [gmap string pyval]; the throttle
      dicts keyed by [(camera_id, class)] are [gmap (Z * string) float].
    - Calls into the outside world (clock, capture device, YOLO model, image
      writer, MQTT client, SMTP server) are read from explicit oracle values,
      one per call, so that every function below is total and executable.
    - [print] is a message appended to a log. *)

From Stdlib Require Import ZArith Floats Lia.
From stdpp Require Import gmap strings list pretty.

Open Scope Z_scope.

(** ** Python values and helpers *)

Inductive pyval : Type :=
  | PNone
  | PBool (b : bool)
  | PInt (z : Z)
  | PFloat (f : float)
  | PStr (s : string)
  | PList (l : list float).

(** [d.get(k, 0)] on a dict of timestamps. *)
Definition get_or_zero (d : gmap (Z * string) float) (k : Z * string) : float :=
  default 0%float (d !! k).

(** [l[:n]] for a Python int [n]: a negative bound counts from the end. *)
Definition py_slice_to {A} (n : Z) (l : list A) : list A :=
  if 0 <=? n then take (Z.to_nat n) l
  else take (length l - Z.to_nat (- n))%nat l.

(** [x if x is not None else None] for optional strings stored in a dict. *)
Definition pyval_of_opt_str (o : option string) : pyval :=
  match o with Some s => PStr s | None => PNone end.

(** Truthiness of an optional string ([None] and the empty string are falsy). *)
Definition truthy_opt_str (o : option string) : bool :=
  match o with Some s => negb (String.eqb s "") | None => false end.

(** ** config.py *)

Record Config : Type := {
  MQTT_BROKER : option string;
  PRIMARY_THREAT_CLASSES : list string;
  PERSON_CLASS_NAME : string;
  ALERT_INTERVAL_SECONDS : float;
  MAX_ALERT_HISTORY : Z;
  MAIL_ENABLED : bool;
  MAIL_USE_TLS : bool;
  MAIL_USERNAME : option string;
  MAIL_PASSWORD : option string;
  MAIL_ALERT_INTERVAL_SECONDS : float
}.

(** The values of [class Config] when no environment variable is set. *)
Definition default_config : Config := {|
  MQTT_BROKER := None;
  PRIMARY_THREAT_CLASSES :=
    ["bottle"; "gun"; "knife"; "weapon"; "explosive"; "bomb"; "bat";
     "machete"; "sword"; "axe"; "spear"; "wood"; "stick"; "bludgeon";
     "club"; "brass knuckles"; "nunchaku"; "katana"; "scimitar";
     "swordfish"; "machete"; "crossbow"; "slingshot"; "boomerang";
     "scimitar"];
  PERSON_CLASS_NAME := "person";
  ALERT_INTERVAL_SECONDS := 2.0%float;
  MAX_ALERT_HISTORY := 50;
  MAIL_ENABLED := false;
  MAIL_USE_TLS := true;
  MAIL_USERNAME := None;
  MAIL_PASSWORD := None;
  MAIL_ALERT_INTERVAL_SECONDS := 60%float
|}.

(** ** queue.Queue(maxsize) *)

Module PyQueue.

Record t (A : Type) : Type := mk { maxsize : Z; items : list A }.
Arguments mk {A} _ _.
Arguments maxsize {A} _.
Arguments items {A} _.

Definition qsize {A} (q : t A) : Z := Z.of_nat (length (items q)).

(** [Queue._full]: a queue with [maxsize <= 0] is unbounded. *)
Definition full {A} (q : t A) : bool :=
  (0 <? maxsize q) && (maxsize q <=? qsize q).

(** [put(x, block=False)]: [None] stands for raising [queue.Full]. *)
Definition put_nowait {A} (x : A) (q : t A) : option (t A) :=
  if full q then None else Some (mk (maxsize q) (items q ++ [x])).

(** [get(timeout=...)] once the wait is over: [None] stands for raising
    [queue.Empty]. *)
Definition get {A} (q : t A) : option (A * t A) :=
  match items q with
  | [] => None
  | x :: rest => Some (x, mk (maxsize q) rest)
  end.

End PyQueue.

(** ** The event a camera worker puts on the alert queue

    The dict built in [CameraProcessor.run]: the detector's four keys plus
    [camera_id], [timestamp] and [snapshot_file]. *)

Record DetectionData : Type := {
  dd_class : string;
  dd_confidence : float;
  dd_is_primary_threat : bool;
  dd_bbox : list float;
  dd_camera_id : Z;
  dd_timestamp : float;
  dd_snapshot_file : option string
}.

(** ** main.py: module state, email delivery and the alert dispatcher *)

Module Main.

(** The dict [alert_data] built for every alert that fires; the history
    list holds these dicts. *)
Definition AlertData : Type := gmap string pyval.

(** What the module needs to know of the [paho] client: the answer of
    [is_connected()] and whether the next [publish] call (or the
    [json.dumps] that feeds it) raises. *)
Record MqttClient : Type := {
  is_connected : bool;
  publish_raises : bool
}.

(** The exception classes the four handlers of [send_alert_email] tell
    apart. *)
Inductive SmtpError : Type :=
  | AuthenticationError
  | ServerDisconnected
  | OtherSmtpException
  | OtherException.

(** How the SMTP conversation of one delivery ends: every call returns; or
    a call up to and including [send_message] raises, and no message has been
    handed over; or [send_message] has returned and [quit()] raises. *)
Inductive SmtpOutcome : Type :=
  | SmtpDelivered
  | SmtpAuthenticationError
  | SmtpServerDisconnected
  | SmtpException
  | SmtpOtherException
  | SmtpQuitRaises (e : SmtpError).

Inductive LogLine : Type :=
  | LogProcessingAlert (alert_type det_class : string) (cam_id : Z) (conf : float)
  | LogMqttPublishError
  | LogEmailNotConfigured
  | LogEmailAttempt (recipient : string)
  | LogEmailSent (recipient : string)
  | LogEmailAuthFailed
  | LogEmailDisconnected
  | LogEmailError
  | LogEmailUnexpected.

(** Everything observable that the dispatcher and the delivery threads do
    besides updating the module state, oldest first. *)
Inductive Effect : Type :=
  | Print (l : LogLine)
  | MqttPublish (topic : string) (payload : gmap string pyval)
  | StartEmailThread (alert_data : AlertData)
  | SmtpSend (recipient : string) (alert_data : AlertData)
  | TaskDone.

(** The module-level globals, the dispatcher thread's local throttle dict
    and the effects so far. *)
Record State : Type := mkState {
  alert_queue : PyQueue.t DetectionData;
  alert_history : list AlertData;
  is_full_security_mode : bool;
  last_email_sent_time : gmap (Z * string) float;
  alert_recipient_email : option string;
  mqtt_client : option MqttClient;
  last_alert_time_local : gmap (Z * string) float;
  effects : list Effect
}.

(** State at the start of [alert_processor_thread]. *)
Definition initial_state (mqtt : option MqttClient) : State :=
  mkState (PyQueue.mk 100 []) [] false ∅ None mqtt ∅ [].

Definition emit (e : Effect) (s : State) : State :=
  mkState (alert_queue s) (alert_history s) (is_full_security_mode s)
          (last_email_sent_time s) (alert_recipient_email s) (mqtt_client s)
          (last_alert_time_local s) (effects s ++ [e]).

Definition set_alert_queue (q : PyQueue.t DetectionData) (s : State) : State :=
  mkState q (alert_history s) (is_full_security_mode s)
          (last_email_sent_time s) (alert_recipient_email s) (mqtt_client s)
          (last_alert_time_local s) (effects s).

Definition set_alert_history (h : list AlertData) (s : State) : State :=
  mkState (alert_queue s) h (is_full_security_mode s)
          (last_email_sent_time s) (alert_recipient_email s) (mqtt_client s)
          (last_alert_time_local s) (effects s).

Definition set_is_full_security_mode (b : bool) (s : State) : State :=
  mkState (alert_queue s) (alert_history s) b
          (last_email_sent_time s) (alert_recipient_email s) (mqtt_client s)
          (last_alert_time_local s) (effects s).

Definition set_last_email_sent_time (m : gmap (Z * string) float) (s : State) : State :=
  mkState (alert_queue s) (alert_history s) (is_full_security_mode s)
          m (alert_recipient_email s) (mqtt_client s)
          (last_alert_time_local s) (effects s).

Definition set_alert_recipient_email (r : option string) (s : State) : State :=
  mkState (alert_queue s) (alert_history s) (is_full_security_mode s)
          (last_email_sent_time s) r (mqtt_client s)
          (last_alert_time_local s) (effects s).

Definition set_mqtt_client (c : option MqttClient) (s : State) : State :=
  mkState (alert_queue s) (alert_history s) (is_full_security_mode s)
          (last_email_sent_time s) (alert_recipient_email s) c
          (last_alert_time_local s) (effects s).

Definition set_last_alert_time_local (m : gmap (Z * string) float) (s : State) : State :=
  mkState (alert_queue s) (alert_history s) (is_full_security_mode s)
          (last_email_sent_time s) (alert_recipient_email s) (mqtt_client s)
          m (effects s).

(** The line the handler of an exception class prints. *)
Definition smtp_error_log (e : SmtpError) : LogLine :=
  match e with
  | AuthenticationError => LogEmailAuthFailed
  | ServerDisconnected => LogEmailDisconnected
  | OtherSmtpException => LogEmailError
  | OtherException => LogEmailUnexpected
  end.

(** Whether [f"{v:.2f}"] returns: numbers format, [None], strings and lists
    raise. *)
Definition formats_as_fixed (v : pyval) : bool :=
  match v with
  | PFloat _ | PInt _ | PBool _ => true
  | PNone | PStr _ | PList _ => false
  end.

(** Whether the two f-strings for subject and body can be evaluated: they
    subscript [alert_data] with five keys and format the confidence with
    [.2f]. *)
Definition message_formats (alert_data : AlertData) : bool :=
  match alert_data !! "alert_type", alert_data !! "class",
        alert_data !! "timestamp_str", alert_data !! "camera_id",
        alert_data !! "confidence" with
  | Some _, Some _, Some _, Some _, Some confidence =>
      formats_as_fixed confidence
  | _, _, _, _, _ => false
  end.

(** [send_alert_email(alert_data)], the body of a delivery thread.  It
    reads the recipient global and the mail settings, builds the message,
    talks to the SMTP server and prints.  The result is its return value, or
    [None] when the exception of a message that cannot be built (a missing
    key, a confidence that does not format) leaves the function: subject and
    body are built outside the [try]. *)
Definition send_alert_email (cfg : Config) (smtp : SmtpOutcome)
    (alert_data : AlertData) (s : State) : State * option bool :=
  let recipient := alert_recipient_email s in
  if negb (MAIL_ENABLED cfg) || negb (truthy_opt_str recipient)
  then (s, Some false)
  else if negb (truthy_opt_str (MAIL_USERNAME cfg))
          || negb (truthy_opt_str (MAIL_PASSWORD cfg))
  then (emit (Print LogEmailNotConfigured) s, Some false)
  else
    let rcpt := default "" recipient in
    let s := emit (Print (LogEmailAttempt rcpt)) s in
    if negb (message_formats alert_data) then (s, None)
    else
      match smtp with
      | SmtpDelivered =>
          let s := emit (SmtpSend rcpt alert_data) s in
          (emit (Print (LogEmailSent rcpt)) s, Some true)
      | SmtpAuthenticationError =>
          (emit (Print LogEmailAuthFailed) s, Some false)
      | SmtpServerDisconnected =>
          (emit (Print LogEmailDisconnected) s, Some false)
      | SmtpException => (emit (Print LogEmailError) s, Some false)
      | SmtpOtherException => (emit (Print LogEmailUnexpected) s, Some false)
      | SmtpQuitRaises e =>
          let s := emit (SmtpSend rcpt alert_data) s in
          (emit (Print (smtp_error_log e)) s, Some false)
      end.

(** The alert condition of the dispatcher: the alert type, or [None] when
    [is_alert_condition_met] stays false. *)
Definition alert_condition (cfg : Config) (current_mode_is_full : bool)
    (detection_data : DetectionData) : option string :=
  if dd_is_primary_threat detection_data then Some "Threat Detected"
  else if current_mode_is_full
          && String.eqb (dd_class detection_data) (PERSON_CLASS_NAME cfg)
  then Some "Motion Detected (Person)"
  else None.

(** The dict literal [alert_data = {...}]. *)
Definition make_alert_data (alert_type timestamp_str : string)
    (detection_data : DetectionData) : AlertData :=
  <["snapshot_file" := pyval_of_opt_str (dd_snapshot_file detection_data)]>
  (<["bbox" := PList (dd_bbox detection_data)]>
  (<["camera_id" := PInt (dd_camera_id detection_data)]>
  (<["timestamp_str" := PStr timestamp_str]>
  (<["timestamp" := PFloat (dd_timestamp detection_data)]>
  (<["confidence" := PFloat (dd_confidence detection_data)]>
  (<["class" := PStr (dd_class detection_data)]>
  (<["alert_type" := PStr alert_type]> ∅))))))).

(** The MQTT block: [alert_data.copy()] without its ["timestamp"] key is
    published on ["iot/alerts"]; an exception is printed and dropped. *)
Definition mqtt_publish_step (alert_data : AlertData) (s : State) : State :=
  match mqtt_client s with
  | Some c =>
      if is_connected c then
        let mqtt_payload := delete "timestamp" alert_data in
        if publish_raises c then emit (Print LogMqttPublishError) s
        else emit (MqttPublish "iot/alerts" mqtt_payload) s
      else s
  | None => s
  end.

(** The email block: the throttle test under [email_lock], then the start
    of the delivery thread. *)
Definition email_step (cfg : Config) (alert_key : Z * string)
    (current_time : float) (alert_data : AlertData) (s : State) : State :=
  let last_email_time := get_or_zero (last_email_sent_time s) alert_key in
  if PrimFloat.leb (MAIL_ALERT_INTERVAL_SECONDS cfg)
                   (PrimFloat.sub current_time last_email_time)
  then
    let s := set_last_email_sent_time
               (<[alert_key := current_time]> (last_email_sent_time s)) s in
    emit (StartEmailThread alert_data) s
  else s.

(** One dequeued event, from the line after [alert_queue.get] to
    [alert_queue.task_done()].  [strftime fmt t] stands for
    [time.strftime(fmt, time.localtime(t))]. *)
Definition process_detection (cfg : Config)
    (strftime : string -> float -> string)
    (detection_data : DetectionData) (s : State) : State :=
  let current_time := dd_timestamp detection_data in
  let cam_id := dd_camera_id detection_data in
  let det_class := dd_class detection_data in
  let alert_key := (cam_id, det_class) in
  let current_mode_is_full := is_full_security_mode s in
  match alert_condition cfg current_mode_is_full detection_data with
  | None => emit TaskDone s
  | Some alert_type =>
    let last_occurrence := get_or_zero (last_alert_time_local s) alert_key in
    if PrimFloat.ltb (PrimFloat.sub current_time last_occurrence)
                     (ALERT_INTERVAL_SECONDS cfg)
    then emit TaskDone s
    else
      let s := emit (Print (LogProcessingAlert alert_type det_class cam_id
                              (dd_confidence detection_data))) s in
      let s := set_last_alert_time_local
                 (<[alert_key := current_time]> (last_alert_time_local s)) s in
      let timestamp_str := strftime "%Y-%m-%d %H:%M:%S" current_time in
      let alert_data := make_alert_data alert_type timestamp_str detection_data in
      let s := set_alert_history
                 (py_slice_to (MAX_ALERT_HISTORY cfg)
                              (alert_data :: alert_history s)) s in
      let s := mqtt_publish_step alert_data s in
      let s := email_step cfg alert_key current_time alert_data s in
      emit TaskDone s
  end.

(** One turn of the [while] loop of [alert_processor_thread]: an empty queue
    ends the bounded wait with [queue.Empty] and the loop continues. *)
Definition alert_processor_iteration (cfg : Config)
    (strftime : string -> float -> string) (s : State) : State :=
  match PyQueue.get (alert_queue s) with
  | None => s
  | Some (detection_data, q) =>
      process_detection cfg strftime detection_data (set_alert_queue q s)
  end.

(** What the threads around the dispatcher do to the module state. *)
Inductive Action : Type :=
  | DispatcherTurn
  | CameraPut (detection_data : DetectionData)
  | SetSecurityMode (enable : bool)
  | SetRecipient (r : option string)
  | SetMqtt (c : option MqttClient)
  | EmailThreadRuns (smtp : SmtpOutcome) (alert_data : AlertData).

(** A camera worker's [put(detection_data, block=False)] with its
    [except queue.Full: pass]. *)
Definition offer (detection_data : DetectionData) (q : PyQueue.t DetectionData)
    : PyQueue.t DetectionData :=
  match PyQueue.put_nowait detection_data q with
  | Some q' => q'
  | None => q
  end.

Definition step (cfg : Config) (strftime : string -> float -> string)
    (a : Action) (s : State) : State :=
  match a with
  | DispatcherTurn => alert_processor_iteration cfg strftime s
  | CameraPut d => set_alert_queue (offer d (alert_queue s)) s
  | SetSecurityMode b => set_is_full_security_mode b s
  | SetRecipient r => set_alert_recipient_email r s
  | SetMqtt c => set_mqtt_client c s
  | EmailThreadRuns smtp alert_data => fst (send_alert_email cfg smtp alert_data s)
  end.

(** An interleaving of the threads, first action first. *)
Definition run (cfg : Config) (strftime : string -> float -> string)
    (acts : list Action) (s : State) : State :=
  foldl (fun s a => step cfg strftime a s) s acts.

(** The dispatcher fed the events [ds] one after the other. *)
Definition dispatch_all (cfg : Config) (strftime : string -> float -> string)
    (ds : list DetectionData) (s : State) : State :=
  foldl (fun s d => process_detection cfg strftime d s) s ds.

(** Readers of the effect list. *)
Definition is_publish (e : Effect) : bool :=
  match e with MqttPublish _ _ => true | _ => false end.
Definition is_email_start (e : Effect) : bool :=
  match e with StartEmailThread _ => true | _ => false end.
Definition published (s : State) : list Effect := List.filter is_publish (effects s).
Definition emails_started (s : State) : list Effect :=
  List.filter is_email_start (effects s).

End Main.

(** ** camera_processor.py *)

Module CameraProcessor.

(** Images.  The worker never looks inside one; it only passes them on. *)
Inductive Frame : Type :=
  | Captured (n : Z)
  | Resized (w h : Z) (f : Frame)
  | Plotted (f : Frame).

(** *** ThreatDetector *)

(** One element of [results[0].boxes]. *)
Record Box : Type := {
  box_cls : Z;
  box_conf : float;
  box_xyxy : list float
}.

(** One element of the list the model call returns. *)
Record YoloResult : Type := {
  boxes : list Box;
  plot : Frame
}.

(** The call [self.model(frame, conf=..., verbose=False)]. *)
Inductive YoloOutcome : Type :=
  | YoloRaises
  | YoloReturns (results : list YoloResult).

Record ThreatDetector : Type := {
  confidence_threshold : float;
  primary_threat_classes : gset string;
  person_class_name : string;
  all_class_names : gmap Z string
}.

(** The dict appended to [detections]. *)
Record Detection : Type := {
  d_class : string;
  d_confidence : float;
  d_is_primary_threat : bool;
  d_bbox : list float
}.

(** [ThreatDetector.__init__] after the model has loaded, [names] being
    [self.model.names]. *)
Definition make_detector (cfg : Config) (threshold : float)
    (names : gmap Z string) : ThreatDetector := {|
  confidence_threshold := threshold;
  primary_threat_classes := list_to_set (PRIMARY_THREAT_CLASSES cfg);
  person_class_name := PERSON_CLASS_NAME cfg;
  all_class_names := names
|}.

(** The body of the [for box in results[0].boxes] loop: a class id the
    model does not name raises, and the box is skipped. *)
Definition detection_of_box (det : ThreatDetector) (box : Box) : option Detection :=
  match all_class_names det !! box_cls box with
  | None => None
  | Some class_name =>
      Some {| d_class := class_name;
              d_confidence := box_conf box;
              d_is_primary_threat :=
                bool_decide (class_name ∈ primary_threat_classes det);
              d_bbox := box_xyxy box |}
  end.

(** [ThreatDetector.detect(frame)]. *)
Definition detect (det : ThreatDetector) (yolo : YoloOutcome) (frame : Frame)
    : list Detection * Frame :=
  match yolo with
  | YoloRaises => ([], frame)
  | YoloReturns [] => ([], frame)
  | YoloReturns (r :: _) =>
      match boxes r with
      | [] => ([], frame)
      | _ :: _ => (omap (detection_of_box det) (boxes r), plot r)
      end
  end.

(** *** CameraProcessor *)

(** The fields set once in [__init__]. *)
Record Settings : Type := {
  camera_id : Z;
  snapshot_dir : string;
  enable_resizing : bool;
  detect_w : Z;
  detect_h : Z;
  enable_frame_skipping : bool;
  detect_every_n_frames : Z;
  detector : ThreatDetector
}.

(** [CameraProcessor.__init__] for camera [id]. *)
Definition make_settings (cfg : Config) (id : Z) (dir : string)
    (threshold : float) (names : gmap Z string) : Settings := {|
  camera_id := id;
  snapshot_dir := dir;
  enable_resizing := true;
  detect_w := 640;
  detect_h := 480;
  enable_frame_skipping := true;
  detect_every_n_frames := 3;
  detector := make_detector cfg threshold names
|}.

(** A [cv2.VideoCapture] handle: all the worker asks of it is [isOpened()]. *)
Record Capture : Type := { isOpened : bool }.

Inductive Exn : Type := PyException | PyKeyboardInterrupt.

(** What the outside world does during one turn of the loop. *)
Inductive OpenOutcome : Type := OpenRaises (e : Exn) | OpenFails | OpenSucceeds.
Inductive ReadOutcome : Type :=
  | ReadRaises (e : Exn)
  | ReadFails
  | ReadReturns (frame : Frame).

Record Oracle : Type := {
  o_stop : bool;                 (* [stop()] was called before the loop test *)
  o_open : OpenOutcome;          (* [cv2.VideoCapture(source)] and [isOpened()] *)
  o_read : ReadOutcome;          (* [self.cap.read()] *)
  o_copy_raises : option Exn;    (* [frame.copy()] *)
  o_resize_raises : bool;        (* [cv2.resize] *)
  o_yolo : YoloOutcome;          (* the model call inside [detect] *)
  o_time : float;                (* [time.time()] *)
  o_imwrite_raises : nat -> bool (* [cv2.imwrite] for the i-th detection *)
}.

Inductive LogLine : Type :=
  | LogStarting
  | LogCameraOpened
  | LogCaptureFailed
  | LogResizeError
  | LogSnapshotError (snapshot_filename : string)
  | LogKeyboardInterrupt
  | LogCriticalError
  | LogStopped.

Inductive Effect : Type :=
  | Print (l : LogLine)
  | OpenCapture
  | Release
  | Sleep (seconds : pyval)
  | RunDetection (frame_to_detect : Frame)
  | Imwrite (path : string) (image : Frame)
  | StreamWrite (cam : Z) (image : Frame).

(** The worker's mutable fields, the two shared objects it was handed and
    the effects so far (oldest first). *)
Record State : Type := mkState {
  cap : option Capture;
  running : bool;
  frame_count : Z;
  alert_queue : PyQueue.t DetectionData;
  frame_dict : gmap Z Frame;
  effects : list Effect
}.

(** The fields after [__init__], with the shared queue and frame table. *)
Definition initial_state (q : PyQueue.t DetectionData) (frames : gmap Z Frame)
    : State :=
  mkState None false 0 q frames [].

Definition emit (e : Effect) (s : State) : State :=
  mkState (cap s) (running s) (frame_count s) (alert_queue s) (frame_dict s)
          (effects s ++ [e]).
Definition set_cap (c : option Capture) (s : State) : State :=
  mkState c (running s) (frame_count s) (alert_queue s) (frame_dict s) (effects s).
Definition set_running (b : bool) (s : State) : State :=
  mkState (cap s) b (frame_count s) (alert_queue s) (frame_dict s) (effects s).
Definition set_frame_count (n : Z) (s : State) : State :=
  mkState (cap s) (running s) n (alert_queue s) (frame_dict s) (effects s).
Definition set_alert_queue (q : PyQueue.t DetectionData) (s : State) : State :=
  mkState (cap s) (running s) (frame_count s) q (frame_dict s) (effects s).
Definition set_frame_dict (d : gmap Z Frame) (s : State) : State :=
  mkState (cap s) (running s) (frame_count s) (alert_queue s) d (effects s).

(** [retry_delay = 5] and the yield at the end of a turn, [0.01]. *)
Definition retry_delay : Z := 5.
Definition yield_delay : float := 0x1.47ae147ae147bp-7%float.

(** How one turn of the [try] body ends: it completes (falls through or
    reaches a [continue]), or an exception leaves it. *)
Inductive Result : Type :=
  | Completed (s : State)
  | Raised (e : Exn) (s : State).

(** Whether a path ends with the separator. *)
Fixpoint ends_with_sep (path : string) : bool :=
  match path with
  | EmptyString => false
  | String c EmptyString => String.eqb (String c EmptyString) "/"
  | String _ rest => ends_with_sep rest
  end.

(** [os.path.join(self.snapshot_dir, snapshot_filename)] of [posixpath]: a
    second part that starts with the separator replaces the first; an empty
    first part, or one that ends with the separator, gets no separator. *)
Definition path_join (dir name : string) : string :=
  if String.prefix "/" name then name
  else if String.eqb dir "" || ends_with_sep dir then dir +:+ name
  else dir +:+ "/" +:+ name.

(** The f-string [cam{id}_{timestamp_str}_{class}.jpg]. *)
Definition snapshot_name (id : Z) (timestamp_str class : string) : string :=
  "cam" +:+ pretty id +:+ "_" +:+ timestamp_str +:+ "_" +:+ class +:+ ".jpg".

Definition is_interesting (cfg : Config) (detection : Detection) : bool :=
  d_is_primary_threat detection
  || String.eqb (d_class detection) (PERSON_CLASS_NAME cfg).

(** [detection.copy()] with the three added keys. *)
Definition make_detection_data (st : Settings) (current_detection_time : float)
    (snapshot_filename_for_queue : option string) (detection : Detection)
    : DetectionData := {|
  dd_class := d_class detection;
  dd_confidence := d_confidence detection;
  dd_is_primary_threat := d_is_primary_threat detection;
  dd_bbox := d_bbox detection;
  dd_camera_id := camera_id st;
  dd_timestamp := current_detection_time;
  dd_snapshot_file := snapshot_filename_for_queue
|}.

(** [self.alert_queue.put(detection_data, block=False)] inside its
    [try ... except queue.Full: pass]. *)
Definition offer (detection_data : DetectionData) (s : State) : State :=
  match PyQueue.put_nowait detection_data (alert_queue s) with
  | Some q => set_alert_queue q s
  | None => s
  end.

(** The snapshot block for one detection: the name handed to the queue
    and the state after the save attempt.  [cv2.imwrite] either raises or
    returns; its return value is not looked at. *)
Definition snapshot_step (cfg : Config) (st : Settings)
    (strftime : string -> float -> string) (current_detection_time : float)
    (annotated_detection_frame : Frame) (imwrite_raises : bool)
    (detection : Detection) (s : State) : option string * State :=
  if is_interesting cfg detection then
    let timestamp_str := strftime "%Y%m%d_%H%M%S" current_detection_time in
    let snapshot_filename :=
      snapshot_name (camera_id st) timestamp_str (d_class detection) in
    let snapshot_save_path := path_join (snapshot_dir st) snapshot_filename in
    let s := emit (Imwrite snapshot_save_path annotated_detection_frame) s in
    if imwrite_raises
    then (None, emit (Print (LogSnapshotError snapshot_filename)) s)
    else (Some snapshot_filename, s)
  else (None, s).

(** The body of [for detection in detected_objects_this_frame]. *)
Definition process_detection (cfg : Config) (st : Settings)
    (strftime : string -> float -> string) (current_detection_time : float)
    (annotated_detection_frame : Frame) (imwrite_raises : bool)
    (detection : Detection) (s : State) : State :=
  let '(snapshot_filename_for_queue, s) :=
    snapshot_step cfg st strftime current_detection_time
                  annotated_detection_frame imwrite_raises detection s in
  offer (make_detection_data st current_detection_time
                             snapshot_filename_for_queue detection) s.

(** The whole [for] loop; [i] is the position of the first detection of
    [detections] in the detector's list. *)
Fixpoint process_detections (cfg : Config) (st : Settings)
    (strftime : string -> float -> string) (current_detection_time : float)
    (annotated_detection_frame : Frame) (imwrite_raises : nat -> bool)
    (i : nat) (detections : list Detection) (s : State) : State :=
  match detections with
  | [] => s
  | detection :: rest =>
      process_detections cfg st strftime current_detection_time
        annotated_detection_frame imwrite_raises (S i) rest
        (process_detection cfg st strftime current_detection_time
           annotated_detection_frame (imwrite_raises i) detection s)
  end.

(** The optional resize: the frame handed to the detector. *)
Definition resize_step (st : Settings) (o : Oracle) (frame : Frame) (s : State)
    : Frame * State :=
  if enable_resizing st then
    if o_resize_raises o then (frame, emit (Print LogResizeError) s)
    else (Resized (detect_w st) (detect_h st) frame, s)
  else (frame, s).

(** The [if run_detection_this_frame] block: the frame for the stream and
    the state after the detections were handled. *)
Definition detection_step (cfg : Config) (st : Settings)
    (strftime : string -> float -> string) (o : Oracle) (frame : Frame)
    (s : State) : Frame * State :=
  let '(frame_to_detect, s) := resize_step st o frame s in
  let s := emit (RunDetection frame_to_detect) s in
  let '(detections, annotated_detection_frame) :=
    detect (detector st) (o_yolo o) frame_to_detect in
  let current_detection_time := o_time o in
  (annotated_detection_frame,
   process_detections cfg st strftime current_detection_time
     annotated_detection_frame (o_imwrite_raises o) 0%nat detections s).

(** [not self.enable_frame_skipping or
     self.frame_count % self.detect_every_n_frames == 0]; [None] stands for
    the [ZeroDivisionError] of a zero factor. *)
Definition run_detection_this_frame (st : Settings) (count : Z) : option bool :=
  if negb (enable_frame_skipping st) then Some true
  else if detect_every_n_frames st =? 0 then None
  else Some (count `mod` detect_every_n_frames st =? 0).

(** From [self.frame_count += 1] to the end of the [try] body. *)
Definition frame_processing (cfg : Config) (st : Settings)
    (strftime : string -> float -> string) (o : Oracle) (frame : Frame)
    (s : State) : Result :=
  let s := set_frame_count (frame_count s + 1) s in
  match run_detection_this_frame st (frame_count s) with
  | None => Raised PyException s
  | Some run_detection =>
      match o_copy_raises o with
      | Some e => Raised e s
      | None =>
          let '(annotated_frame_for_stream, s) :=
            if run_detection then detection_step cfg st strftime o frame s
            else (frame, s) in
          let s := emit (StreamWrite (camera_id st) annotated_frame_for_stream) s in
          let s := set_frame_dict
                     (<[camera_id st := annotated_frame_for_stream]> (frame_dict s)) s in
          Completed (emit (Sleep (PFloat yield_delay)) s)
      end
  end.

(** From [ret, frame = self.cap.read()] on. *)
Definition frame_capture (cfg : Config) (st : Settings)
    (strftime : string -> float -> string) (o : Oracle) (s : State) : Result :=
  match o_read o with
  | ReadRaises e => Raised e s
  | ReadFails =>
      let s := emit (Print LogCaptureFailed) s in
      let s := match cap s with Some _ => emit Release s | None => s end in
      let s := set_cap None s in
      Completed (emit (Sleep (PInt retry_delay)) s)
  | ReadReturns frame => frame_processing cfg st strftime o frame s
  end.

Definition needs_open (s : State) : bool :=
  match cap s with None => true | Some c => negb (isOpened c) end.

(** The body of the [try] of one turn. *)
Definition loop_body (cfg : Config) (st : Settings)
    (strftime : string -> float -> string) (o : Oracle) (s : State) : Result :=
  if needs_open s then
    match o_open o with
    | OpenRaises e => Raised e s
    | OpenFails =>
        let s := emit OpenCapture s in
        let s := set_cap None s in
        Completed (emit (Sleep (PInt retry_delay)) s)
    | OpenSucceeds =>
        let s := emit OpenCapture s in
        let s := set_cap (Some {| isOpened := true |}) s in
        frame_capture cfg st strftime o (emit (Print LogCameraOpened) s)
    end
  else frame_capture cfg st strftime o s.

(** One turn of [while self.running]: the [try] body and its two
    handlers. *)
Definition iteration (cfg : Config) (st : Settings)
    (strftime : string -> float -> string) (o : Oracle) (s : State) : State :=
  match loop_body cfg st strftime o s with
  | Completed s' => s'
  | Raised PyKeyboardInterrupt s' =>
      set_running false (emit (Print LogKeyboardInterrupt) s')
  | Raised PyException s' =>
      let s' := emit (Print LogCriticalError) s' in
      let s' := match cap s' with Some _ => emit Release s' | None => s' end in
      let s' := set_cap None s' in
      emit (Sleep (PInt (retry_delay * 2))) s'
  end.

(** The [while] loop, one oracle per turn.  The loop has ended exactly when
    the state returned has [running = false]; a state with [running = true]
    is the state at the loop test after all the given turns. *)
Fixpoint run_loop (cfg : Config) (st : Settings)
    (strftime : string -> float -> string) (os : list Oracle) (s : State)
    : State :=
  match os with
  | [] => s
  | o :: rest =>
      let s := if o_stop o then set_running false s else s in
      if running s
      then run_loop cfg st strftime rest (iteration cfg st strftime o s)
      else s
  end.

(** The cleanup after the loop. *)
Definition cleanup (s : State) : State :=
  let s := match cap s with
           | Some c => if isOpened c then emit Release s else s
           | None => s
           end in
  emit (Print LogStopped) s.

(** [CameraProcessor.run()]. *)
Definition run (cfg : Config) (st : Settings)
    (strftime : string -> float -> string) (os : list Oracle) (s : State)
    : State :=
  let s := emit (Print LogStarting) s in
  let s := set_running true s in
  let s := run_loop cfg st strftime os s in
  if running s then s else cleanup s.

(** Readers of the effect list. *)
Definition is_run_detection (e : Effect) : bool :=
  match e with RunDetection _ => true | _ => false end.
Definition detections_run (s : State) : nat :=
  length (List.filter is_run_detection (effects s)).
Definition is_imwrite (e : Effect) : bool :=
  match e with Imwrite _ _ => true | _ => false end.
Definition snapshot_attempts (s : State) : list Effect :=
  List.filter is_imwrite (effects s).
Definition sleeps (s : State) : list pyval :=
  omap (fun e => match e with Sleep d => Some d | _ => None end) (effects s).

End CameraProcessor.

(** ** The process: the module state of main.py and one camera worker

    The worker was handed the module's [alert_queue] object, so both sides
    see one queue. *)

Module System.

Record t : Type := mk {
  main : Main.State;
  worker : CameraProcessor.State
}.

(** One turn of the camera worker's loop, on the shared queue. *)
Definition camera_turn (cfg : Config) (st : CameraProcessor.Settings)
    (strftime : string -> float -> string) (o : CameraProcessor.Oracle)
    (sys : t) : t :=
  let w := CameraProcessor.set_alert_queue
             (Main.alert_queue (main sys)) (worker sys) in
  let w' := CameraProcessor.iteration cfg st strftime o w in
  mk (Main.set_alert_queue (CameraProcessor.alert_queue w') (main sys)) w'.

(** The control surface switching the security mode. *)
Definition set_security_mode (enable : bool) (sys : t) : t :=
  mk (Main.set_is_full_security_mode enable (main sys)) (worker sys).

End System.

(** ** Which events fire, as the dispatcher decides it *)

(** The event is an alert and is outside the dispatch window of its key. *)
Definition fires (cfg : Config) (d : DetectionData) (s : Main.State) : bool :=
  match Main.alert_condition cfg (Main.is_full_security_mode s) d with
  | None => false
  | Some _ =>
      negb (PrimFloat.ltb
              (PrimFloat.sub (dd_timestamp d)
                 (get_or_zero (Main.last_alert_time_local s)
                              (dd_camera_id d, dd_class d)))
              (ALERT_INTERVAL_SECONDS cfg))
  end.

(** The [alert_data] dict the dispatcher builds for [d] in state [s]. *)
Definition record_of (cfg : Config) (strftime : string -> float -> string)
    (d : DetectionData) (s : Main.State) : Main.AlertData :=
  Main.make_alert_data
    (default "Unknown"
       (Main.alert_condition cfg (Main.is_full_security_mode s) d))
    (strftime "%Y-%m-%d %H:%M:%S" (dd_timestamp d)) d.

(** The records of the events of [ds] that fire, oldest first. *)
Fixpoint fired_records (cfg : Config) (strftime : string -> float -> string)
    (ds : list DetectionData) (s : Main.State) : list Main.AlertData :=
  match ds with
  | [] => []
  | d :: rest =>
      (if fires cfg d s then [record_of cfg strftime d s] else [])
      ++ fired_records cfg strftime rest (Main.process_detection cfg strftime d s)
  end.

(** Whether an action leaves the dispatcher out. *)
Definition not_dispatcher (a : Main.Action) : bool :=
  match a with Main.DispatcherTurn => false | _ => true end.

(** ** Sample inputs *)

(** A rendering of the local time for running the model on sample inputs;
    every theorem below holds for any rendering. *)
Definition sample_strftime : string -> float -> string :=
  fun fmt _ => fmt.

Definition knife_on (cam : Z) (t : float) : DetectionData := {|
  dd_class := "knife";
  dd_confidence := 0.875%float;
  dd_is_primary_threat := true;
  dd_bbox := [10%float; 20%float; 110%float; 220%float];
  dd_camera_id := cam;
  dd_timestamp := t;
  dd_snapshot_file := Some "cam0_20240101_000000_knife.jpg"
|}.

Definition person_on (cam : Z) (t : float) : DetectionData := {|
  dd_class := "person";
  dd_confidence := 0.75%float;
  dd_is_primary_threat := false;
  dd_bbox := [10%float; 20%float; 110%float; 220%float];
  dd_camera_id := cam;
  dd_timestamp := t;
  dd_snapshot_file := None
|}.

Definition connected_client : Main.MqttClient :=
  {| Main.is_connected := true; Main.publish_raises := false |}.

Definition failing_client : Main.MqttClient :=
  {| Main.is_connected := true; Main.publish_raises := true |}.

(** [n] knife events at one instant, one per camera [0 .. n-1]: each has a
    key of its own, so each fires. *)
Definition knife_burst (n : nat) : list DetectionData :=
  (fun i => knife_on (Z.of_nat i) 100%float) <$> seq 0 n.

(** Selector of the SMTP sends among the effects. *)
Definition is_smtp_send (e : Main.Effect) : bool :=
  match e with Main.SmtpSend _ _ => true | _ => false end.

(** ** Kinds of turns of the camera loop *)

(** A turn on a source that fails: no stop request, and the open fails or
    raises, or the read fails or raises, or the body raises on the frame. *)
Definition turn_fails (o : CameraProcessor.Oracle) : bool :=
  negb (CameraProcessor.o_stop o) &&
  match CameraProcessor.o_open o with
  | CameraProcessor.OpenFails => true
  | CameraProcessor.OpenRaises e =>
      match e with CameraProcessor.PyException => true | _ => false end
  | CameraProcessor.OpenSucceeds =>
      match CameraProcessor.o_read o with
      | CameraProcessor.ReadFails => true
      | CameraProcessor.ReadRaises e =>
          match e with CameraProcessor.PyException => true | _ => false end
      | CameraProcessor.ReadReturns _ =>
          match CameraProcessor.o_copy_raises o with
          | Some CameraProcessor.PyException => true
          | _ => false
          end
      end
  end.

(** What a worker without a capture handle is expected to do in a failing
    turn: after a failed open or read, drop the handle and sleep for the
    retry delay; after an exception, print it, release the handle if one is
    held and sleep twice as long. *)
Definition failing_turn_effects (o : CameraProcessor.Oracle)
    : list CameraProcessor.Effect :=
  match CameraProcessor.o_open o with
  | CameraProcessor.OpenFails =>
      [CameraProcessor.OpenCapture;
       CameraProcessor.Sleep (PInt 5)]
  | CameraProcessor.OpenRaises _ =>
      [CameraProcessor.Print CameraProcessor.LogCriticalError;
       CameraProcessor.Sleep (PInt 10)]
  | CameraProcessor.OpenSucceeds =>
      [CameraProcessor.OpenCapture;
       CameraProcessor.Print CameraProcessor.LogCameraOpened] ++
      match CameraProcessor.o_read o with
      | CameraProcessor.ReadFails =>
          [CameraProcessor.Print CameraProcessor.LogCaptureFailed;
           CameraProcessor.Release;
           CameraProcessor.Sleep (PInt 5)]
      | _ =>
          [CameraProcessor.Print CameraProcessor.LogCriticalError;
           CameraProcessor.Release;
           CameraProcessor.Sleep (PInt 10)]
      end
  end.

(** A turn that captures a frame: no stop request, the open (when one is
    needed) succeeds, the read returns a frame and the copy does not raise. *)
Definition good_capture (o : CameraProcessor.Oracle) : bool :=
  negb (CameraProcessor.o_stop o) &&
  match CameraProcessor.o_open o, CameraProcessor.o_read o,
        CameraProcessor.o_copy_raises o with
  | CameraProcessor.OpenSucceeds, CameraProcessor.ReadReturns _, None => true
  | _, _, _ => false
  end.

(** The frame read in a turn. *)
Definition captured_frame (o : CameraProcessor.Oracle) : CameraProcessor.Frame :=
  match CameraProcessor.o_read o with
  | CameraProcessor.ReadReturns frame => frame
  | _ => CameraProcessor.Captured 0
  end.

(** The frame the detector is given in a turn, and the annotated frame it
    returns. *)
Definition frame_to_detect (st : CameraProcessor.Settings)
    (o : CameraProcessor.Oracle) : CameraProcessor.Frame :=
  if CameraProcessor.enable_resizing st
     && negb (CameraProcessor.o_resize_raises o)
  then CameraProcessor.Resized (CameraProcessor.detect_w st)
         (CameraProcessor.detect_h st) (captured_frame o)
  else captured_frame o.

Definition annotated_frame (st : CameraProcessor.Settings)
    (o : CameraProcessor.Oracle) : CameraProcessor.Frame :=
  snd (CameraProcessor.detect (CameraProcessor.detector st)
         (CameraProcessor.o_yolo o) (frame_to_detect st o)).

(** With frame skipping on, the capture counts on which detection is
    expected to run, and the frame expected in the stream table after a turn
    with capture count [count]. *)
Definition runs_detection (st : CameraProcessor.Settings) (count : Z) : bool :=
  count `mod` CameraProcessor.detect_every_n_frames st =? 0.

Definition stream_frame (st : CameraProcessor.Settings)
    (o : CameraProcessor.Oracle) (count : Z) : CameraProcessor.Frame :=
  if runs_detection st count then annotated_frame st o else captured_frame o.

(** The snapshot reference an event is expected to carry: the file name for
    an interesting detection whose save did not raise, nothing otherwise. *)
Definition snapshot_ref (cfg : Config) (st : CameraProcessor.Settings)
    (strftime : string -> float -> string) (now : float) (raises : bool)
    (detection : CameraProcessor.Detection) : option string :=
  if CameraProcessor.is_interesting cfg detection && negb raises
  then Some (CameraProcessor.snapshot_name (CameraProcessor.camera_id st)
               (strftime "%Y%m%d_%H%M%S" now)
               (CameraProcessor.d_class detection))
  else None.

(** The events expected on the queue for the detections of one cycle: one
    per detection, in the detector's order. *)
Fixpoint events_offered (cfg : Config) (st : CameraProcessor.Settings)
    (strftime : string -> float -> string) (now : float)
    (raises : nat -> bool) (i : nat)
    (detections : list CameraProcessor.Detection) : list DetectionData :=
  match detections with
  | [] => []
  | detection :: rest =>
      CameraProcessor.make_detection_data st now
        (snapshot_ref cfg st strftime now (raises i) detection) detection
      :: events_offered cfg st strftime now raises (S i) rest
  end.

(** ** Sample inputs for the camera worker *)

(** Two of the model's class names. *)
Definition sample_names : gmap Z string := <[43 := "knife"]> (<[0 := "person"]> ∅).

Definition sample_settings : CameraProcessor.Settings :=
  CameraProcessor.make_settings default_config 0 "static/snapshots"
    0.5%float sample_names.

Definition sample_person : CameraProcessor.Detection := {|
  CameraProcessor.d_class := "person";
  CameraProcessor.d_confidence := 0.75%float;
  CameraProcessor.d_is_primary_threat := false;
  CameraProcessor.d_bbox := [10%float; 20%float; 110%float; 220%float]
|}.

(** A turn in which frame [n] is captured and the model finds one person. *)
Definition capture_turn (n : Z) : CameraProcessor.Oracle := {|
  CameraProcessor.o_stop := false;
  CameraProcessor.o_open := CameraProcessor.OpenSucceeds;
  CameraProcessor.o_read := CameraProcessor.ReadReturns (CameraProcessor.Captured n);
  CameraProcessor.o_copy_raises := None;
  CameraProcessor.o_resize_raises := false;
  CameraProcessor.o_yolo :=
    CameraProcessor.YoloReturns
      [{| CameraProcessor.boxes :=
            [{| CameraProcessor.box_cls := 0;
                CameraProcessor.box_conf := 0.75%float;
                CameraProcessor.box_xyxy :=
                  [10%float; 20%float; 110%float; 220%float] |}];
          CameraProcessor.plot :=
            CameraProcessor.Plotted (CameraProcessor.Captured n) |}];
  CameraProcessor.o_time := 100%float;
  CameraProcessor.o_imwrite_raises := fun _ => false
|}.

(** Turns on a dead source: the open fails, the read fails, the read raises. *)
Definition open_fails_turn : CameraProcessor.Oracle := {|
  CameraProcessor.o_stop := false;
  CameraProcessor.o_open := CameraProcessor.OpenFails;
  CameraProcessor.o_read := CameraProcessor.ReadFails;
  CameraProcessor.o_copy_raises := None;
  CameraProcessor.o_resize_raises := false;
  CameraProcessor.o_yolo := CameraProcessor.YoloRaises;
  CameraProcessor.o_time := 100%float;
  CameraProcessor.o_imwrite_raises := fun _ => false
|}.

Definition read_fails_turn : CameraProcessor.Oracle := {|
  CameraProcessor.o_stop := false;
  CameraProcessor.o_open := CameraProcessor.OpenSucceeds;
  CameraProcessor.o_read := CameraProcessor.ReadFails;
  CameraProcessor.o_copy_raises := None;
  CameraProcessor.o_resize_raises := false;
  CameraProcessor.o_yolo := CameraProcessor.YoloRaises;
  CameraProcessor.o_time := 100%float;
  CameraProcessor.o_imwrite_raises := fun _ => false
|}.

Definition read_raises_turn : CameraProcessor.Oracle := {|
  CameraProcessor.o_stop := false;
  CameraProcessor.o_open := CameraProcessor.OpenSucceeds;
  CameraProcessor.o_read := CameraProcessor.ReadRaises CameraProcessor.PyException;
  CameraProcessor.o_copy_raises := None;
  CameraProcessor.o_resize_raises := false;
  CameraProcessor.o_yolo := CameraProcessor.YoloRaises;
  CameraProcessor.o_time := 100%float;
  CameraProcessor.o_imwrite_raises := fun _ => false
|}.

(** A worker that has entered its loop, with an empty queue of capacity 100
    and an empty frame table. *)
Definition started_worker : CameraProcessor.State :=
  CameraProcessor.set_running true
    (CameraProcessor.initial_state (PyQueue.mk 100 []) ∅).

(** ** More of main.py: counters over the dispatcher's effects *)

Definition is_task_done (e : Main.Effect) : bool :=
  match e with Main.TaskDone => true | _ => false end.

Definition is_processing_alert (e : Main.Effect) : bool :=
  match e with
  | Main.Print (Main.LogProcessingAlert _ _ _ _) => true
  | _ => false
  end.

Definition count_effects (p : Main.Effect -> bool) (s : Main.State) : nat :=
  length (List.filter p (Main.effects s)).

(** Whether an action leaves the MQTT client alone. *)
Definition not_set_mqtt (a : Main.Action) : bool :=
  match a with Main.SetMqtt _ => false | _ => true end.

(** ** main.py: setup_mqtt *)

(** How [client.connect(...)] followed by [client.loop_start()] ends. *)
Inductive ConnectOutcome : Type :=
  | ConnectRaises
  | ConnectReturns (client : Main.MqttClient).

(** [setup_mqtt()]: the value assigned to the global [mqtt_client]. *)
Definition setup_mqtt (cfg : Config) (connect : ConnectOutcome)
    : option Main.MqttClient :=
  if negb (truthy_opt_str (MQTT_BROKER cfg)) then None
  else match connect with
       | ConnectRaises => None
       | ConnectReturns client => Some client
       end.

(** ** main.py: the /api/security_mode route *)

(** A value decoded from a JSON request body; an object is the list of the
    items of the dict it decodes to. *)
#[local] Unset Elimination Schemes.
Inductive json : Type :=
  | JNull
  | JBool (b : bool)
  | JInt (z : Z)
  | JFloat (f : float)
  | JStr (s : string)
  | JArr (l : list json)
  | JObj (items : list (string * json)).
#[local] Set Elimination Schemes.

(** [bool(x)]. *)
Definition py_bool (x : json) : bool :=
  match x with
  | JNull => false
  | JBool b => b
  | JInt z => negb (z =? 0)
  | JFloat f => negb (PrimFloat.eqb f 0%float)
  | JStr s => negb (String.eqb s "")
  | JArr l => match l with [] => false | _ => true end
  | JObj items => match items with [] => false | _ => true end
  end.

(** [d[k]] on the items of a dict. *)
Fixpoint dict_get (k : string) (items : list (string * json)) : option json :=
  match items with
  | [] => None
  | (k', v) :: rest => if String.eqb k k' then Some v else dict_get k rest
  end.

(** How [request.get_json()] ends: it raises on a body that is no JSON, and
    may return [None]. *)
Inductive GetJson : Type :=
  | GetJsonRaises
  | GetJsonReturns (data : option json).

Inductive Method : Type := GET | POST.

(** The responses of the route, and the redirect of [@login_required]. *)
Inductive ModeResponse : Type :=
  | ModeSuccess (mode_enabled : bool)
  | ModeMissingField
  | ModeInvalidRequest
  | ModeLoginRequired.

(** What the route prints. *)
Inductive ModeLog : Type :=
  | LogModeChanged (full : bool)
  | LogModeError.

(** [data is None or 'enable' not in data], then [data['enable']], for a
    decoded body: the value under the key; [inr false] when the body is
    [null] (which decodes to [None]) or the key is absent; [inr true] when
    the membership test holds and the subscript raises; [None] when the
    membership test itself raises. *)
Definition enable_field (data : json) : option (json + bool) :=
  match data with
  | JObj items =>
      match dict_get "enable" items with
      | Some v => Some (inl v)
      | None => Some (inr false)
      end
  | JArr l =>
      Some (inr (existsb (fun x => match x with
                                   | JStr s => String.eqb s "enable"
                                   | _ => false
                                   end) l))
  | JStr s =>
      Some (inr (match String.index 0 "enable" s with
                 | Some _ => true
                 | None => false
                 end))
  | JNull => Some (inr false)
  | JBool _ | JInt _ | JFloat _ => None
  end.

(** [security_mode_api()] behind [@login_required]. *)
Definition security_mode_api (authenticated : bool) (method : Method)
    (body : GetJson) (s : Main.State)
    : Main.State * ModeResponse * list ModeLog :=
  if negb authenticated then (s, ModeLoginRequired, [])
  else
    match method with
    | GET => (s, ModeSuccess (Main.is_full_security_mode s), [])
    | POST =>
        match body with
        | GetJsonRaises => (s, ModeInvalidRequest, [LogModeError])
        | GetJsonReturns None => (s, ModeMissingField, [])
        | GetJsonReturns (Some data) =>
            match enable_field data with
            | None => (s, ModeInvalidRequest, [LogModeError])
            | Some (inr false) => (s, ModeMissingField, [])
            | Some (inr true) => (s, ModeInvalidRequest, [LogModeError])
            | Some (inl v) =>
                let new_mode_state := py_bool v in
                let s := Main.set_is_full_security_mode new_mode_state s in
                (s, ModeSuccess (Main.is_full_security_mode s),
                 [LogModeChanged (Main.is_full_security_mode s)])
            end
        end
    end.

(** ** main.py: camera ids, the video feed and the frame generator *)

(** An element of [Config.CAMERA_SOURCES]: a device index or a locator. *)
Inductive Source : Type :=
  | SourceIndex (i : Z)
  | SourceUrl (url : string).

(** The [for idx, source in enumerate(...)] loop of [video_feed], from index
    [idx] on: the index whose [str] is the requested id. *)
Fixpoint find_camera (req_cam_id : string) (idx : nat) (sources : list Source)
    : option Z :=
  match sources with
  | [] => None
  | _ :: rest =>
      if String.eqb (pretty (Z.of_nat idx)) req_cam_id
      then Some (Z.of_nat idx)
      else find_camera req_cam_id (S idx) rest
  end.

Inductive VideoFeedResponse : Type :=
  | FeedLoginRequired
  | FeedNotFound
  | FeedStream (req_cam_id : Z).

(** [video_feed(camera_id)] behind [@login_required]. *)
Definition video_feed (authenticated : bool) (sources : list Source)
    (camera_id : string) : VideoFeedResponse :=
  if negb authenticated then FeedLoginRequired
  else match find_camera camera_id 0 sources with
       | Some req_cam_id => FeedStream req_cam_id
       | None => FeedNotFound
       end.

(** How [cv2.imencode('.jpg', frame, ...)] ends. *)
Inductive EncodeOutcome : Type := EncodeOk | EncodeFails | EncodeRaises.

(** What one turn of the generator's loop yields. *)
Inductive Chunk : Type :=
  | WaitingChunk
  | JpegChunk (frame : CameraProcessor.Frame).

(** The sleeps of the generator: 0.5, 0.1 and 0.03 seconds. *)
Definition half_second : float := 0.5%float.
Definition tenth_second : float := 0x1.999999999999ap-4%float.
Definition stream_delay : float := 0x1.eb851eb851eb8p-6%float.

(** One turn of [while True] in [generate_frames(camera_id)]: the chunk
    yielded, if any, and the sleeps of the turn. *)
Definition generate_frames_turn
    (latest_frames : gmap Z CameraProcessor.Frame) (camera_id : Z)
    (encode : EncodeOutcome) : option Chunk * list float :=
  match latest_frames !! camera_id with
  | None => (Some WaitingChunk, [half_second])
  | Some frame_to_yield =>
      match encode with
      | EncodeFails => (None, [tenth_second])
      | EncodeOk => (Some (JpegChunk frame_to_yield), [stream_delay])
      | EncodeRaises => (None, [half_second; stream_delay])
      end
  end.

(** ** main.py: start_camera_processors *)

(** How [CameraProcessor(...)] ends for one source: the model fails to load
    and the constructor raises, or the worker is built with the model's
    class names. *)
Inductive InitOutcome : Type :=
  | ModelLoadFails
  | ModelLoaded (names : gmap Z string).

(** [Config.CONFIDENCE_THRESHOLD]. *)
Definition CONFIDENCE_THRESHOLD : float := 0.5%float.

(** A thread object: the worker's settings and its state. *)
Definition CameraThread : Type :=
  (CameraProcessor.Settings * CameraProcessor.State)%type.

(** The [for i, source in enumerate(...)] loop from index [i] on.  The
    boolean tells whether a constructor raised, which ends the loop with the
    threads created so far. *)
Fixpoint start_from (cfg : Config) (snapshot_dir : string)
    (q : PyQueue.t DetectionData) (frames : gmap Z CameraProcessor.Frame)
    (init : nat -> InitOutcome) (i : nat) (sources : list Source)
    (camera_threads : gmap Z CameraThread) : gmap Z CameraThread * bool :=
  match sources with
  | [] => (camera_threads, false)
  | _ :: rest =>
      match init i with
      | ModelLoadFails => (camera_threads, true)
      | ModelLoaded names =>
          let camera_id := Z.of_nat i in
          let thread :=
            (CameraProcessor.make_settings cfg camera_id snapshot_dir
               CONFIDENCE_THRESHOLD names,
             CameraProcessor.initial_state q frames) in
          start_from cfg snapshot_dir q frames init (S i) rest
            (<[camera_id := thread]> camera_threads)
      end
  end.

(** [start_camera_processors()] on an empty [camera_threads]. *)
Definition start_camera_processors (cfg : Config) (snapshot_dir : string)
    (q : PyQueue.t DetectionData) (frames : gmap Z CameraProcessor.Frame)
    (init : nat -> InitOutcome) (sources : list Source)
    : gmap Z CameraThread * bool :=
  start_from cfg snapshot_dir q frames init 0 sources ∅.

(** ** camera_processor.py: stop, and counters over the worker's effects *)

(** [CameraProcessor.stop()]: the line printed and the state after. *)
Definition stop (st : CameraProcessor.Settings) (s : CameraProcessor.State)
    : string * CameraProcessor.State :=
  ("[Cam " +:+ pretty (CameraProcessor.camera_id st) +:+ "] Stop signal received.",
   CameraProcessor.set_running false s).

Definition is_release (e : CameraProcessor.Effect) : bool :=
  match e with CameraProcessor.Release => true | _ => false end.

Definition is_camera_opened (e : CameraProcessor.Effect) : bool :=
  match e with
  | CameraProcessor.Print CameraProcessor.LogCameraOpened => true
  | _ => false
  end.

(** Handles opened and handles released so far. *)
Definition opened_count (s : CameraProcessor.State) : nat :=
  length (List.filter is_camera_opened (CameraProcessor.effects s)).
Definition released_count (s : CameraProcessor.State) : nat :=
  length (List.filter is_release (CameraProcessor.effects s)).

(** The handle a worker holds is an open one, and it is the one handle
    opened and not yet released. *)
Definition handle_balanced (s : CameraProcessor.State) : Prop :=
  match CameraProcessor.cap s with
  | None => opened_count s = released_count s
  | Some c =>
      CameraProcessor.isOpened c = true
      /\ opened_count s = S (released_count s)
  end.

(** Whether a turn reads a frame: the open, if one is needed, succeeds and
    the read returns a frame. *)
Definition reads_frame (o : CameraProcessor.Oracle) (s : CameraProcessor.State)
    : bool :=
  (negb (CameraProcessor.needs_open s)
   || match CameraProcessor.o_open o with
      | CameraProcessor.OpenSucceeds => true
      | _ => false
      end)
  && match CameraProcessor.o_read o with
     | CameraProcessor.ReadReturns _ => true
     | _ => false
     end.

(** The frames read over the turns [os] of the loop. *)
Fixpoint frames_read (cfg : Config) (st : CameraProcessor.Settings)
    (strftime : string -> float -> string)
    (os : list CameraProcessor.Oracle) (s : CameraProcessor.State) : Z :=
  match os with
  | [] => 0
  | o :: rest =>
      let s := if CameraProcessor.o_stop o
               then CameraProcessor.set_running false s else s in
      if CameraProcessor.running s
      then (if reads_frame o s then 1 else 0)
           + frames_read cfg st strftime rest
               (CameraProcessor.iteration cfg st strftime o s)
      else 0
  end.

(** The state a turn's [try] body leaves behind, however it ends. *)
Definition result_state (r : CameraProcessor.Result) : CameraProcessor.State :=
  match r with
  | CameraProcessor.Completed s => s
  | CameraProcessor.Raised _ s => s
  end.

(** The stored events of a queue. *)
Definition queued (s : CameraProcessor.State) : list DetectionData :=
  PyQueue.items (CameraProcessor.alert_queue s).

(** A turn in which [stop()] was called before the loop test. *)
Definition stop_request : CameraProcessor.Oracle := {|
  CameraProcessor.o_stop := true;
  CameraProcessor.o_open := CameraProcessor.OpenFails;
  CameraProcessor.o_read := CameraProcessor.ReadFails;
  CameraProcessor.o_copy_raises := None;
  CameraProcessor.o_resize_raises := false;
  CameraProcessor.o_yolo := CameraProcessor.YoloRaises;
  CameraProcessor.o_time := 100%float;
  CameraProcessor.o_imwrite_raises := fun _ => false
|}.

(** A turn in which the read is interrupted from the keyboard. *)
Definition interrupt_turn : CameraProcessor.Oracle := {|
  CameraProcessor.o_stop := false;
  CameraProcessor.o_open := CameraProcessor.OpenSucceeds;
  CameraProcessor.o_read :=
    CameraProcessor.ReadRaises CameraProcessor.PyKeyboardInterrupt;
  CameraProcessor.o_copy_raises := None;
  CameraProcessor.o_resize_raises := false;
  CameraProcessor.o_yolo := CameraProcessor.YoloRaises;
  CameraProcessor.o_time := 100%float;
  CameraProcessor.o_imwrite_raises := fun _ => false
|}.

(** The queue of [s'] is the queue of [s] with events of camera [id] taken
    at time [now] put at its end. *)
Definition appends_own (id : Z) (now : float)
    (s s' : CameraProcessor.State) : Prop :=
  PyQueue.maxsize (CameraProcessor.alert_queue s')
  = PyQueue.maxsize (CameraProcessor.alert_queue s)
  /\ exists evs,
       queued s' = queued s ++ evs
       /\ Forall (fun e => dd_camera_id e = id /\ dd_timestamp e = now) evs.

(** A model that names knives only, and a turn in which it finds one. *)
Definition knife_only_names : gmap Z string := <[43 := "knife"]> ∅.

Definition knife_turn : CameraProcessor.Oracle := {|
  CameraProcessor.o_stop := false;
  CameraProcessor.o_open := CameraProcessor.OpenSucceeds;
  CameraProcessor.o_read :=
    CameraProcessor.ReadReturns (CameraProcessor.Captured 3);
  CameraProcessor.o_copy_raises := None;
  CameraProcessor.o_resize_raises := false;
  CameraProcessor.o_yolo :=
    CameraProcessor.YoloReturns
      [{| CameraProcessor.boxes :=
            [{| CameraProcessor.box_cls := 43;
                CameraProcessor.box_conf := 0.875%float;
                CameraProcessor.box_xyxy :=
                  [10%float; 20%float; 110%float; 220%float] |}];
          CameraProcessor.plot :=
            CameraProcessor.Plotted (CameraProcessor.Captured 3) |}];
  CameraProcessor.o_time := 100%float;
  CameraProcessor.o_imwrite_raises := fun _ => false
|}.

(** Whether [send_message] has returned in an SMTP conversation. *)
Definition message_handed_over (smtp : Main.SmtpOutcome) : bool :=
  match smtp with
  | Main.SmtpDelivered | Main.SmtpQuitRaises _ => true
  | _ => false
  end.

(** Whether [send_alert_email] gets as far as building the message: mail is
    enabled, a recipient is set, user name and password are configured. *)
Definition mail_ready (cfg : Config) (s : Main.State) : bool :=
  MAIL_ENABLED cfg
  && truthy_opt_str (Main.alert_recipient_email s)
  && truthy_opt_str (MAIL_USERNAME cfg)
  && truthy_opt_str (MAIL_PASSWORD cfg).

(** ** The events the dispatcher handles in an interleaving *)

(** The events the dispatcher takes off the queue [q] in the course of
    [acts], in the order it handles them: a dispatcher turn takes the head,
    a camera's put adds at the end unless the queue is full. *)
Fixpoint handled (acts : list Main.Action) (q : PyQueue.t DetectionData)
    : list DetectionData :=
  match acts with
  | [] => []
  | Main.DispatcherTurn :: rest =>
      match PyQueue.get q with
      | Some (d, q') => d :: handled rest q'
      | None => handled rest q
      end
  | Main.CameraPut d :: rest => handled rest (Main.offer d q)
  | _ :: rest => handled rest q
  end.

(** Whether two events have the same throttle key (camera id, class). *)
Definition same_key (d e : DetectionData) : bool :=
  (dd_camera_id d =? dd_camera_id e) && String.eqb (dd_class d) (dd_class e).

(** Whether [e] is of another key than [d], or less than the email interval
    after [d]. *)
Definition email_suppressed (cfg : Config) (d e : DetectionData) : bool :=
  negb (same_key d e)
  || negb (PrimFloat.leb (MAIL_ALERT_INTERVAL_SECONDS cfg)
             (PrimFloat.sub (dd_timestamp e) (dd_timestamp d))).

(** Selector of the delivery threads started for a record of the key of
    [d]. *)
Definition starts_email_for (d : DetectionData) (e : Main.Effect) : bool :=
  match e with
  | Main.StartEmailThread a =>
      match a !! "camera_id", a !! "class" with
      | Some (PInt cam_id), Some (PStr det_class) =>
          (dd_camera_id d =? cam_id) && String.eqb (dd_class d) det_class
      | _, _ => false
      end
  | _ => false
  end.

(** ** cv2.imwrite *)

(** How [cv2.imwrite(path, image)] ends: it raises, or it returns whether
    the file was written.  The worker calls it inside a [try] and does not
    look at what it returns, so all it sees of the outcome is whether the
    call raised. *)
Inductive ImwriteOutcome : Type :=
  | ImwriteRaises
  | ImwriteReturns (saved : bool).

Definition outcome_raises (out : ImwriteOutcome) : bool :=
  match out with ImwriteRaises => true | ImwriteReturns _ => false end.

Definition file_saved (out : ImwriteOutcome) : bool :=
  match out with ImwriteRaises => false | ImwriteReturns saved => saved end.

(** ** More sample inputs *)

(** The configuration with mail switched on and credentials set. *)
Definition mail_config : Config := {|
  MQTT_BROKER := None;
  PRIMARY_THREAT_CLASSES := PRIMARY_THREAT_CLASSES default_config;
  PERSON_CLASS_NAME := "person";
  ALERT_INTERVAL_SECONDS := 2.0%float;
  MAX_ALERT_HISTORY := 50;
  MAIL_ENABLED := true;
  MAIL_USE_TLS := true;
  MAIL_USERNAME := Some "sentry@example.org";
  MAIL_PASSWORD := Some "app-password";
  MAIL_ALERT_INTERVAL_SECONDS := 60%float
|}.

(** The default configuration with a history capacity of zero. *)
Definition no_history_config : Config := {|
  MQTT_BROKER := None;
  PRIMARY_THREAT_CLASSES := PRIMARY_THREAT_CLASSES default_config;
  PERSON_CLASS_NAME := "person";
  ALERT_INTERVAL_SECONDS := 2.0%float;
  MAX_ALERT_HISTORY := 0;
  MAIL_ENABLED := false;
  MAIL_USE_TLS := true;
  MAIL_USERNAME := None;
  MAIL_PASSWORD := None;
  MAIL_ALERT_INTERVAL_SECONDS := 60%float
|}.

(** * Properties *)

Import Main.

(** ** Projections of the dispatcher's steps *)

Lemma history_mqtt_publish_step a s :
  alert_history (mqtt_publish_step a s) = alert_history s.
Proof. unfold mqtt_publish_step. by repeat case_match. Qed.

Lemma history_email_step cfg k t a s :
  alert_history (email_step cfg k t a s) = alert_history s.
Proof. unfold email_step. by case_match. Qed.

Lemma local_mqtt_publish_step a s :
  last_alert_time_local (mqtt_publish_step a s) = last_alert_time_local s.
Proof. unfold mqtt_publish_step. by repeat case_match. Qed.

Lemma local_email_step cfg k t a s :
  last_alert_time_local (email_step cfg k t a s) = last_alert_time_local s.
Proof. unfold email_step. by case_match. Qed.

Lemma email_map_mqtt_publish_step a s :
  last_email_sent_time (mqtt_publish_step a s) = last_email_sent_time s.
Proof. unfold mqtt_publish_step. by repeat case_match. Qed.

Lemma mode_mqtt_publish_step a s :
  is_full_security_mode (mqtt_publish_step a s) = is_full_security_mode s.
Proof. unfold mqtt_publish_step. by repeat case_match. Qed.

Lemma mode_email_step cfg k t a s :
  is_full_security_mode (email_step cfg k t a s) = is_full_security_mode s.
Proof. unfold email_step. by case_match. Qed.

Lemma emails_started_emit e s :
  emails_started (emit e s) = emails_started s ++ (if is_email_start e then [e] else []).
Proof.
  unfold emails_started. simpl. rewrite List.filter_app. simpl.
  by destruct (is_email_start e).
Qed.

Lemma published_emit e s :
  published (emit e s) = published s ++ (if is_publish e then [e] else []).
Proof.
  unfold published. simpl. rewrite List.filter_app. simpl.
  by destruct (is_publish e).
Qed.

(** The state after an event that is no alert, or that falls inside the
    dispatch window: only [task_done()] happened. *)
Lemma process_detection_no_alert cfg strftime d s :
  alert_condition cfg (is_full_security_mode s) d = None ->
  process_detection cfg strftime d s = emit TaskDone s.
Proof. intros H. unfold process_detection. by rewrite H. Qed.

Lemma process_detection_throttled cfg strftime d s ty :
  alert_condition cfg (is_full_security_mode s) d = Some ty ->
  PrimFloat.ltb
    (PrimFloat.sub (dd_timestamp d)
       (get_or_zero (last_alert_time_local s) (dd_camera_id d, dd_class d)))
    (ALERT_INTERVAL_SECONDS cfg) = true ->
  process_detection cfg strftime d s = emit TaskDone s.
Proof. intros H1 H2. unfold process_detection. by rewrite H1, H2. Qed.

(** The state after an event that fires, step by step. *)
Lemma process_detection_fires cfg strftime d s ty :
  alert_condition cfg (is_full_security_mode s) d = Some ty ->
  PrimFloat.ltb
    (PrimFloat.sub (dd_timestamp d)
       (get_or_zero (last_alert_time_local s) (dd_camera_id d, dd_class d)))
    (ALERT_INTERVAL_SECONDS cfg) = false ->
  let key := (dd_camera_id d, dd_class d) in
  let a := make_alert_data ty (strftime "%Y-%m-%d %H:%M:%S" (dd_timestamp d)) d in
  process_detection cfg strftime d s =
    emit TaskDone
      (email_step cfg key (dd_timestamp d) a
         (mqtt_publish_step a
            (set_alert_history
               (py_slice_to (MAX_ALERT_HISTORY cfg) (a :: alert_history s))
               (set_last_alert_time_local
                  (<[key := dd_timestamp d]> (last_alert_time_local s))
                  (emit (Print (LogProcessingAlert ty (dd_class d)
                                  (dd_camera_id d) (dd_confidence d))) s))))).
Proof. intros H1 H2. unfold process_detection. by rewrite H1, H2. Qed.

(** Effects of an event that fires. *)
Lemma emails_started_mqtt_publish_step a s :
  emails_started (mqtt_publish_step a s) = emails_started s.
Proof.
  unfold mqtt_publish_step. repeat case_match; try done;
    rewrite emails_started_emit; simpl; by rewrite app_nil_r.
Qed.

Lemma published_email_step cfg k t a s :
  published (email_step cfg k t a s) = published s.
Proof.
  unfold email_step. case_match; [|done].
  rewrite published_emit. simpl. by rewrite app_nil_r.
Qed.

Lemma email_step_pass cfg k t a s :
  PrimFloat.leb (MAIL_ALERT_INTERVAL_SECONDS cfg)
    (PrimFloat.sub t (get_or_zero (last_email_sent_time s) k)) = true ->
  email_step cfg k t a s =
    emit (StartEmailThread a)
      (set_last_email_sent_time (<[k := t]> (last_email_sent_time s)) s).
Proof. intros H. unfold email_step. by rewrite H. Qed.

Lemma email_step_skip cfg k t a s :
  PrimFloat.leb (MAIL_ALERT_INTERVAL_SECONDS cfg)
    (PrimFloat.sub t (get_or_zero (last_email_sent_time s) k)) = false ->
  email_step cfg k t a s = s.
Proof. intros H. unfold email_step. by rewrite H. Qed.

(** Claim C1.  An event that passed classification is compared, by its own
    timestamp, with the last-fired time of its key [(camera_id, class)] in
    the dispatch-throttle dict.  Inside the dispatch interval it is dropped:
    history, both throttle dicts, the publishes and the email starts stay as
    they were, and only [task_done()] happens.  Otherwise its timestamp
    becomes the last-fired time of the key and its record is put at the head
    of the history.  With the default interval of 2.0 s, three knife events
    of one camera at 100.0, 101.0 and 103.0 leave the records of the third
    and the first in the history, the second is dropped. *)
Theorem dispatch_throttle_by_event_time cfg strftime d s ty :
  alert_condition cfg (is_full_security_mode s) d = Some ty ->
  let key := (dd_camera_id d, dd_class d) in
  let elapsed :=
    PrimFloat.sub (dd_timestamp d) (get_or_zero (last_alert_time_local s) key) in
  let s' := process_detection cfg strftime d s in
  (PrimFloat.ltb elapsed (ALERT_INTERVAL_SECONDS cfg) = true ->
     alert_history s' = alert_history s
     /\ last_alert_time_local s' = last_alert_time_local s
     /\ last_email_sent_time s' = last_email_sent_time s
     /\ effects s' = effects s ++ [TaskDone])
  /\ (PrimFloat.ltb elapsed (ALERT_INTERVAL_SECONDS cfg) = false ->
     last_alert_time_local s' = <[key := dd_timestamp d]> (last_alert_time_local s)
     /\ alert_history s' =
          py_slice_to (MAX_ALERT_HISTORY cfg)
            (make_alert_data ty (strftime "%Y-%m-%d %H:%M:%S" (dd_timestamp d)) d
               :: alert_history s))
  /\ (fun a : AlertData => a !! "timestamp") <$>
       alert_history
         (dispatch_all default_config strftime
            [knife_on 0 100%float; knife_on 0 101%float; knife_on 0 103%float]
            (initial_state None))
     = [Some (PFloat 103%float); Some (PFloat 100%float)].
Proof.
  intros Hty key elapsed s'. split; [|split].
  - intros Hlt. subst s'.
    rewrite (process_detection_throttled _ _ _ _ _ Hty Hlt). by simpl.
  - intros Hlt. subst s'.
    rewrite (process_detection_fires _ _ _ _ _ Hty Hlt). simpl.
    rewrite local_email_step, local_mqtt_publish_step.
    rewrite history_email_step, history_mqtt_publish_step. by simpl.
  - vm_compute. reflexivity.
Qed.

Lemma dispatch_throttle_by_event_time_witness :
  alert_condition default_config false (knife_on 0 100%float) = Some "Threat Detected"
  /\ last_alert_time_local
       (process_detection default_config sample_strftime (knife_on 0 100%float)
          (initial_state None)) !! (0, "knife") = Some 100%float.
Proof.
  split; [reflexivity|].
  destruct (dispatch_throttle_by_event_time default_config sample_strftime
              (knife_on 0 100%float) (initial_state None) "Threat Detected"
              eq_refl) as (_ & Hfire & _).
  destruct (Hfire eq_refl) as [-> _]. reflexivity.
Defined.

(** The alert condition, case by case. *)
Lemma alert_condition_primary cfg b d :
  dd_is_primary_threat d = true ->
  alert_condition cfg b d = Some "Threat Detected".
Proof. intros H. unfold alert_condition. by rewrite H. Qed.

Lemma alert_condition_person_full cfg d :
  dd_is_primary_threat d = false ->
  dd_class d = PERSON_CLASS_NAME cfg ->
  alert_condition cfg true d = Some "Motion Detected (Person)".
Proof.
  intros H1 H2. unfold alert_condition. rewrite H1, H2. simpl.
  by rewrite String.eqb_refl.
Qed.

Lemma alert_condition_none cfg b d :
  dd_is_primary_threat d = false ->
  b = false \/ dd_class d <> PERSON_CLASS_NAME cfg ->
  alert_condition cfg b d = None.
Proof.
  intros H1 H2. unfold alert_condition. rewrite H1.
  destruct b; simpl; [|done].
  destruct H2 as [H2|H2]; [done|].
  apply String.eqb_neq in H2. by rewrite H2.
Qed.

(** Claim C2.  A primary-threat event is a "Threat Detected" alert in either
    security mode.  An event that is no primary threat is a "Motion Detected
    (Person)" alert when the mode is Full and its class is the configured
    person class, and is otherwise dropped: history, throttle dicts,
    publishes and email starts stay as they were.  The alert type decided is
    the one stored in the record put at the head of the history.  A person
    event that is no primary threat leaves the history empty in Standard mode
    and yields one "Motion Detected (Person)" record in Full mode. *)
Theorem classification_by_mode cfg strftime d s :
  let s' := process_detection cfg strftime d s in
  (dd_is_primary_threat d = true ->
     forall b, alert_condition cfg b d = Some "Threat Detected")
  /\ (dd_is_primary_threat d = false ->
      is_full_security_mode s = true ->
      dd_class d = PERSON_CLASS_NAME cfg ->
      alert_condition cfg (is_full_security_mode s) d
        = Some "Motion Detected (Person)")
  /\ (dd_is_primary_threat d = false ->
      is_full_security_mode s = false \/ dd_class d <> PERSON_CLASS_NAME cfg ->
      alert_history s' = alert_history s
      /\ last_alert_time_local s' = last_alert_time_local s
      /\ last_email_sent_time s' = last_email_sent_time s
      /\ effects s' = effects s ++ [TaskDone])
  /\ (forall ty,
        alert_condition cfg (is_full_security_mode s) d = Some ty ->
        fires cfg d s = true ->
        alert_history s' =
          py_slice_to (MAX_ALERT_HISTORY cfg)
            (make_alert_data ty (strftime "%Y-%m-%d %H:%M:%S" (dd_timestamp d)) d
               :: alert_history s))
  /\ alert_history
       (process_detection default_config strftime (person_on 0 100%float)
          (set_is_full_security_mode false (initial_state None))) = []
  /\ (fun a : AlertData => a !! "alert_type") <$>
       alert_history
         (process_detection default_config strftime (person_on 0 100%float)
            (set_is_full_security_mode true (initial_state None)))
     = [Some (PStr "Motion Detected (Person)")].
Proof.
  intros s'. split; [|split; [|split; [|split; [|split]]]].
  - intros H b. by apply alert_condition_primary.
  - intros H1 H2 H3. rewrite H2. by apply alert_condition_person_full.
  - intros H1 H2. subst s'. rewrite process_detection_no_alert; [done|].
    by apply alert_condition_none.
  - intros ty Hty Hf. unfold fires in Hf. rewrite Hty in Hf.
    apply negb_true_iff in Hf. subst s'.
    rewrite (process_detection_fires _ _ _ _ _ Hty Hf). simpl.
    by rewrite history_email_step, history_mqtt_publish_step.
  - vm_compute. reflexivity.
  - vm_compute. reflexivity.
Qed.

Lemma classification_by_mode_witness :
  dd_is_primary_threat (person_on 0 100%float) = false
  /\ is_full_security_mode (initial_state None) = false
  /\ alert_history
       (process_detection default_config sample_strftime (person_on 0 100%float)
          (initial_state None)) = [].
Proof.
  split; [reflexivity|]. split; [reflexivity|].
  destruct (classification_by_mode default_config sample_strftime
              (person_on 0 100%float) (initial_state None))
    as (_ & _ & Hdrop & _).
  destruct (Hdrop eq_refl (or_introl eq_refl)) as [-> _]. reflexivity.
Defined.

(** The steps before the MQTT block start no delivery thread. *)
Lemma emails_started_recorded h m l s :
  emails_started
    (set_alert_history h (set_last_alert_time_local m (emit (Print l) s)))
  = emails_started s.
Proof.
  unfold emails_started. simpl. rewrite List.filter_app. simpl.
  by rewrite app_nil_r.
Qed.

(** Claim C3.  The email throttle is looked at only for an event that passed
    the dispatch throttle, and it reads its own dict.  When the event's
    timestamp is at least the email interval after the dict's last-fired time
    of the key, that time becomes the event's timestamp and one delivery
    thread is started; otherwise none is started and the dict stays as it
    was.  In both cases the record is in the history, and the dispatcher
    itself sends nothing over SMTP.  With the default intervals (2.0 s and
    60 s), knife events of one camera at 100.0 and 103.0 are both in the
    history and only the first starts a delivery thread. *)
Theorem email_throttle_after_dispatch cfg strftime d s ty :
  alert_condition cfg (is_full_security_mode s) d = Some ty ->
  let key := (dd_camera_id d, dd_class d) in
  let a := make_alert_data ty (strftime "%Y-%m-%d %H:%M:%S" (dd_timestamp d)) d in
  let since_email :=
    PrimFloat.sub (dd_timestamp d) (get_or_zero (last_email_sent_time s) key) in
  let s' := process_detection cfg strftime d s in
  (fires cfg d s = false ->
     emails_started s' = emails_started s
     /\ last_email_sent_time s' = last_email_sent_time s)
  /\ (fires cfg d s = true ->
      alert_history s' =
        py_slice_to (MAX_ALERT_HISTORY cfg) (a :: alert_history s)
      /\ (PrimFloat.leb (MAIL_ALERT_INTERVAL_SECONDS cfg) since_email = true ->
          emails_started s' = emails_started s ++ [StartEmailThread a]
          /\ last_email_sent_time s' = <[key := dd_timestamp d]> (last_email_sent_time s))
      /\ (PrimFloat.leb (MAIL_ALERT_INTERVAL_SECONDS cfg) since_email = false ->
          emails_started s' = emails_started s
          /\ last_email_sent_time s' = last_email_sent_time s))
  /\ List.filter is_smtp_send (effects s') = List.filter is_smtp_send (effects s)
  /\ (let s2 := dispatch_all default_config strftime
                  [knife_on 0 100%float; knife_on 0 103%float] (initial_state None) in
      (fun a : AlertData => a !! "timestamp") <$> alert_history s2
        = [Some (PFloat 103%float); Some (PFloat 100%float)]
      /\ emails_started s2
        = [StartEmailThread
             (make_alert_data "Threat Detected"
                (strftime "%Y-%m-%d %H:%M:%S" 100%float) (knife_on 0 100%float))]).
Proof.
  intros Hty key a since_email s'. split; [|split; [|split]].
  - intros Hf. unfold fires in Hf. rewrite Hty in Hf.
    apply negb_false_iff in Hf. subst s'.
    rewrite (process_detection_throttled _ _ _ _ _ Hty Hf).
    rewrite emails_started_emit. simpl. by rewrite app_nil_r.
  - intros Hf. unfold fires in Hf. rewrite Hty in Hf.
    apply negb_true_iff in Hf. subst s'.
    rewrite (process_detection_fires _ _ _ _ _ Hty Hf).
    fold key. fold a. split; [|split].
    + simpl. by rewrite history_email_step, history_mqtt_publish_step.
    + intros Hle. rewrite emails_started_emit. simpl. rewrite app_nil_r.
      rewrite email_step_pass by (by rewrite email_map_mqtt_publish_step).
      rewrite emails_started_emit. simpl.
      rewrite email_map_mqtt_publish_step. simpl. split; [|done].
      change (emails_started (set_last_email_sent_time ?m ?x))
        with (emails_started x).
      rewrite emails_started_mqtt_publish_step.
      by rewrite emails_started_recorded.
    + intros Hle. rewrite emails_started_emit. simpl. rewrite app_nil_r.
      rewrite email_step_skip by (by rewrite email_map_mqtt_publish_step).
      rewrite emails_started_mqtt_publish_step, email_map_mqtt_publish_step.
      simpl. split; [|done].
      by rewrite emails_started_recorded.
  - subst s'. unfold process_detection. rewrite Hty.
    unfold email_step, mqtt_publish_step.
    repeat case_match; simpl; rewrite ?List.filter_app; simpl;
      rewrite ?List.filter_app; simpl; rewrite ?List.filter_app; simpl;
      rewrite ?List.filter_app; simpl; by rewrite ?app_nil_r.
  - vm_compute. split; reflexivity.
Qed.

Lemma email_throttle_after_dispatch_witness :
  alert_condition default_config false (knife_on 0 100%float) = Some "Threat Detected"
  /\ length (emails_started
       (process_detection default_config sample_strftime (knife_on 0 100%float)
          (initial_state None))) = 1%nat.
Proof.
  split; [reflexivity|].
  destruct (email_throttle_after_dispatch default_config sample_strftime
              (knife_on 0 100%float) (initial_state None) "Threat Detected"
              eq_refl) as (_ & Hfire & _).
  destruct (Hfire eq_refl) as (_ & Hpass & _).
  destruct (Hpass eq_refl) as [-> _]. reflexivity.
Defined.

(** ** The history *)

Lemma history_process_detection cfg strftime d s :
  alert_history (process_detection cfg strftime d s) =
    if fires cfg d s
    then py_slice_to (MAX_ALERT_HISTORY cfg)
           (record_of cfg strftime d s :: alert_history s)
    else alert_history s.
Proof.
  unfold fires, record_of, process_detection.
  destruct (alert_condition _ _ _) as [ty|]; [|done].
  destruct (PrimFloat.ltb _ _); simpl; [done|].
  by rewrite history_email_step, history_mqtt_publish_step.
Qed.

Lemma py_slice_to_nonneg {A} n (l : list A) :
  0 <= n -> py_slice_to n l = take (Z.to_nat n) l.
Proof. intros H. unfold py_slice_to. by rewrite (proj2 (Z.leb_le 0 n) H). Qed.

Lemma take_app_take {A} n (l1 l2 : list A) :
  take n (l1 ++ take n l2) = take n (l1 ++ l2).
Proof.
  rewrite !take_app. f_equal. rewrite take_take. f_equal. lia.
Qed.

Lemma history_process_bounded cfg strftime d s :
  0 <= MAX_ALERT_HISTORY cfg ->
  Z.of_nat (length (alert_history s)) <= MAX_ALERT_HISTORY cfg ->
  Z.of_nat (length (alert_history (process_detection cfg strftime d s)))
    <= MAX_ALERT_HISTORY cfg.
Proof.
  intros Hcap Hlen. rewrite history_process_detection. case_match; [|done].
  rewrite py_slice_to_nonneg by done. rewrite length_take. lia.
Qed.

Lemma history_step_bounded cfg strftime a s :
  0 <= MAX_ALERT_HISTORY cfg ->
  Z.of_nat (length (alert_history s)) <= MAX_ALERT_HISTORY cfg ->
  Z.of_nat (length (alert_history (step cfg strftime a s)))
    <= MAX_ALERT_HISTORY cfg.
Proof.
  intros Hcap Hlen. destruct a; simpl; try done.
  - unfold alert_processor_iteration.
    destruct (PyQueue.get (alert_queue s)) as [[d q]|]; [|done].
    by apply history_process_bounded.
  - unfold send_alert_email. by repeat case_match.
Qed.

Lemma history_run_bounded cfg strftime acts s :
  0 <= MAX_ALERT_HISTORY cfg ->
  Z.of_nat (length (alert_history s)) <= MAX_ALERT_HISTORY cfg ->
  Z.of_nat (length (alert_history (run cfg strftime acts s)))
    <= MAX_ALERT_HISTORY cfg.
Proof.
  intros Hcap. revert s. unfold run.
  induction acts as [|a acts IH]; intros s Hlen; simpl; [done|].
  apply IH. by apply history_step_bounded.
Qed.

Lemma history_dispatch_all cfg strftime ds s :
  0 <= MAX_ALERT_HISTORY cfg ->
  Z.of_nat (length (alert_history s)) <= MAX_ALERT_HISTORY cfg ->
  alert_history (dispatch_all cfg strftime ds s) =
    take (Z.to_nat (MAX_ALERT_HISTORY cfg))
      (rev (fired_records cfg strftime ds s) ++ alert_history s).
Proof.
  intros Hcap. revert s. unfold dispatch_all.
  induction ds as [|d ds IH]; intros s Hlen; simpl.
  - rewrite take_ge; [done|lia].
  - rewrite IH by (by apply history_process_bounded).
    rewrite history_process_detection.
    destruct (fires cfg d s); simpl.
    + rewrite py_slice_to_nonneg by done.
      rewrite take_app_take. by rewrite <- app_assoc.
    + done.
Qed.

(** Claim C5.  With a capacity that is not negative and a history within it,
    the history stays within the capacity after any interleaving of
    dispatcher turns, camera puts, mode and recipient changes and delivery
    threads.  An alert that fires is put at position 0 and the list is cut to
    the capacity; after the events [ds] the history is the fired records,
    newest first, cut to the capacity.  From an empty history, capacity + 5
    fired alerts leave exactly capacity entries: all but the 5 oldest,
    newest first. *)
Theorem history_bounded_newest_first cfg strftime s :
  0 <= MAX_ALERT_HISTORY cfg ->
  Z.of_nat (length (alert_history s)) <= MAX_ALERT_HISTORY cfg ->
  (forall acts,
     Z.of_nat (length (alert_history (run cfg strftime acts s)))
       <= MAX_ALERT_HISTORY cfg)
  /\ (forall d, fires cfg d s = true ->
        alert_history (process_detection cfg strftime d s) =
          take (Z.to_nat (MAX_ALERT_HISTORY cfg))
            (record_of cfg strftime d s :: alert_history s))
  /\ (forall ds,
        alert_history (dispatch_all cfg strftime ds s) =
          take (Z.to_nat (MAX_ALERT_HISTORY cfg))
            (rev (fired_records cfg strftime ds s) ++ alert_history s))
  /\ (forall ds,
        alert_history s = [] ->
        length (fired_records cfg strftime ds s)
          = (Z.to_nat (MAX_ALERT_HISTORY cfg) + 5)%nat ->
        length (alert_history (dispatch_all cfg strftime ds s))
          = Z.to_nat (MAX_ALERT_HISTORY cfg)
        /\ alert_history (dispatch_all cfg strftime ds s)
          = rev (drop 5 (fired_records cfg strftime ds s))).
Proof.
  intros Hcap Hlen. split; [|split; [|split]].
  - intros acts. by apply history_run_bounded.
  - intros d Hf. rewrite history_process_detection, Hf.
    by apply py_slice_to_nonneg.
  - intros ds. by apply history_dispatch_all.
  - intros ds Hempty Hn.
    rewrite history_dispatch_all by done. rewrite Hempty, app_nil_r.
    set (F := fired_records cfg strftime ds s) in *.
    set (n := Z.to_nat (MAX_ALERT_HISTORY cfg)) in *.
    split.
    + rewrite length_take, length_rev. lia.
    + rewrite <- (take_drop 5 F) at 1. rewrite rev_app_distr.
      rewrite take_app_le by (rewrite length_rev, length_drop; lia).
      rewrite take_ge; [done|]. rewrite length_rev, length_drop. lia.
Qed.

Lemma history_bounded_newest_first_witness :
  0 <= MAX_ALERT_HISTORY default_config
  /\ length (fired_records default_config sample_strftime (knife_burst 55)
               (initial_state None)) = 55%nat
  /\ length (alert_history
       (dispatch_all default_config sample_strftime (knife_burst 55)
          (initial_state None))) = 50%nat.
Proof.
  assert (H0 : 0 <= MAX_ALERT_HISTORY default_config) by (simpl; lia).
  assert (H1 : Z.of_nat (length (alert_history (initial_state None)))
               <= MAX_ALERT_HISTORY default_config) by (simpl; lia).
  assert (H2 : length (fired_records default_config sample_strftime
                         (knife_burst 55) (initial_state None)) = 55%nat)
    by (vm_compute; reflexivity).
  split; [exact H0|]. split; [exact H2|].
  destruct (history_bounded_newest_first default_config sample_strftime
              (initial_state None) H0 H1) as (_ & _ & _ & Hburst).
  destruct (Hburst (knife_burst 55) eq_refl H2) as [Hlen _].
  exact Hlen.
Defined.

(** ** The MQTT block *)

Lemma published_recorded h m l s :
  published
    (set_alert_history h (set_last_alert_time_local m (emit (Print l) s)))
  = published s.
Proof.
  unfold published. simpl. rewrite List.filter_app. simpl.
  by rewrite app_nil_r.
Qed.

Lemma email_step_emails_started cfg k t a s :
  emails_started (email_step cfg k t a s) =
    emails_started s ++
    (if PrimFloat.leb (MAIL_ALERT_INTERVAL_SECONDS cfg)
          (PrimFloat.sub t (get_or_zero (last_email_sent_time s) k))
     then [StartEmailThread a] else []).
Proof.
  unfold email_step. case_match.
  - by rewrite emails_started_emit.
  - by rewrite app_nil_r.
Qed.

Lemma email_step_map cfg k t a s :
  last_email_sent_time (email_step cfg k t a s) =
    if PrimFloat.leb (MAIL_ALERT_INTERVAL_SECONDS cfg)
         (PrimFloat.sub t (get_or_zero (last_email_sent_time s) k))
    then <[k := t]> (last_email_sent_time s) else last_email_sent_time s.
Proof. unfold email_step. by case_match. Qed.

(** The payload is the record without its ["timestamp"] key. *)
Lemma mqtt_payload_fields ty ts d :
  let payload := delete "timestamp" (make_alert_data ty ts d) in
  payload !! "alert_type" = Some (PStr ty)
  /\ payload !! "class" = Some (PStr (dd_class d))
  /\ payload !! "confidence" = Some (PFloat (dd_confidence d))
  /\ payload !! "bbox" = Some (PList (dd_bbox d))
  /\ payload !! "camera_id" = Some (PInt (dd_camera_id d))
  /\ payload !! "timestamp_str" = Some (PStr ts)
  /\ payload !! "snapshot_file" = Some (pyval_of_opt_str (dd_snapshot_file d))
  /\ payload !! "timestamp" = None.
Proof. simpl. unfold make_alert_data. repeat split; by simplify_map_eq. Qed.

(** Claim C9, as the code has it.  For an event that fires, a configured and
    connected client is handed, on topic "iot/alerts", the record without
    its numeric ["timestamp"] key: alert type, class, confidence, bbox,
    camera id, snapshot reference and the formatted time ["timestamp_str"].
    With no client, or one that is not connected, nothing is published.  A
    publish that raises is printed and nothing more: the record is in the
    history all the same, and the email dict and the delivery threads
    started are the ones the email block yields on the state before. *)
Theorem mqtt_publish_best_effort cfg strftime d s ty :
  alert_condition cfg (is_full_security_mode s) d = Some ty ->
  fires cfg d s = true ->
  let key := (dd_camera_id d, dd_class d) in
  let ts := strftime "%Y-%m-%d %H:%M:%S" (dd_timestamp d) in
  let a := make_alert_data ty ts d in
  let payload := delete "timestamp" a in
  let s' := process_detection cfg strftime d s in
  (forall c, mqtt_client s = Some c -> is_connected c = true ->
     if publish_raises c
     then published s' = published s
          /\ In (Print LogMqttPublishError) (effects s')
     else published s' = published s ++ [MqttPublish "iot/alerts" payload])
  /\ (mqtt_client s = None
      \/ (exists c, mqtt_client s = Some c /\ is_connected c = false) ->
      published s' = published s)
  /\ alert_history s' = py_slice_to (MAX_ALERT_HISTORY cfg) (a :: alert_history s)
  /\ last_email_sent_time s'
       = last_email_sent_time (email_step cfg key (dd_timestamp d) a s)
  /\ emails_started s'
       = emails_started (email_step cfg key (dd_timestamp d) a s)
  /\ payload !! "alert_type" = Some (PStr ty)
  /\ payload !! "class" = Some (PStr (dd_class d))
  /\ payload !! "confidence" = Some (PFloat (dd_confidence d))
  /\ payload !! "bbox" = Some (PList (dd_bbox d))
  /\ payload !! "camera_id" = Some (PInt (dd_camera_id d))
  /\ payload !! "timestamp_str" = Some (PStr ts)
  /\ payload !! "snapshot_file" = Some (pyval_of_opt_str (dd_snapshot_file d))
  /\ payload !! "timestamp" = None.
Proof.
  intros Hty Hf key ts a payload s'.
  unfold fires in Hf. rewrite Hty in Hf. apply negb_true_iff in Hf.
  assert (Hs' : s' = _) by exact (process_detection_fires _ strftime _ _ _ Hty Hf).
  simpl in Hs'. fold key ts a in Hs'.
  split; [|split; [|split; [|split; [|split]]]].
  - intros c Hc Hconn. rewrite Hs'.
    rewrite published_emit, published_email_step. simpl. rewrite app_nil_r.
    unfold mqtt_publish_step. simpl. rewrite Hc, Hconn.
    destruct (publish_raises c).
    + split.
      * rewrite published_emit. simpl. rewrite app_nil_r.
        apply published_recorded.
      * simpl. apply in_or_app. left.
        unfold email_step. case_match; simpl.
        -- apply in_or_app. left. apply in_or_app. right. by left.
        -- apply in_or_app. right. by left.
    + rewrite published_emit. simpl. by rewrite published_recorded.
  - intros Hno. rewrite Hs'.
    rewrite published_emit, published_email_step. simpl. rewrite app_nil_r.
    unfold mqtt_publish_step. simpl.
    destruct Hno as [->|(c & -> & ->)]; apply published_recorded.
  - rewrite Hs'. simpl.
    by rewrite history_email_step, history_mqtt_publish_step.
  - rewrite Hs'. simpl. rewrite !email_step_map.
    by rewrite email_map_mqtt_publish_step.
  - rewrite Hs'. rewrite emails_started_emit. simpl. rewrite app_nil_r.
    rewrite !email_step_emails_started.
    rewrite email_map_mqtt_publish_step, emails_started_mqtt_publish_step.
    simpl. by rewrite emails_started_recorded.
  - apply mqtt_payload_fields.
Qed.

Lemma mqtt_publish_best_effort_witness :
  fires default_config (knife_on 0 100%float)
    (initial_state (Some failing_client)) = true
  /\ published
       (process_detection default_config sample_strftime (knife_on 0 100%float)
          (initial_state (Some failing_client))) = []
  /\ length (alert_history
       (process_detection default_config sample_strftime (knife_on 0 100%float)
          (initial_state (Some failing_client)))) = 1%nat.
Proof.
  split; [reflexivity|].
  destruct (mqtt_publish_best_effort default_config sample_strftime
              (knife_on 0 100%float) (initial_state (Some failing_client))
              "Threat Detected" eq_refl eq_refl)
    as (Hpub & _ & Hhist & _).
  destruct (Hpub failing_client eq_refl eq_refl) as [-> _].
  rewrite Hhist. split; reflexivity.
Defined.

(** The claim C9 as stated fails on the timestamp: the record of a knife
    event at 100.0 has its ["timestamp"] key, the payload published for it
    has none. *)
Lemma mqtt_payload_lacks_timestamp :
  exists a payload,
    alert_history
      (process_detection default_config sample_strftime (knife_on 0 100%float)
         (initial_state (Some connected_client))) = [a]
    /\ published
         (process_detection default_config sample_strftime (knife_on 0 100%float)
            (initial_state (Some connected_client)))
       = [MqttPublish "iot/alerts" payload]
    /\ a !! "timestamp" = Some (PFloat 100%float)
    /\ payload !! "timestamp" = None.
Proof.
  eexists. eexists. split; [reflexivity|]. split; [reflexivity|].
  split; vm_compute; reflexivity.
Qed.

(** ** The email dict outside the dispatcher *)

(** A delivery thread, whatever its outcome, leaves the email dict alone. *)
Lemma send_alert_email_map cfg smtp a s :
  last_email_sent_time (fst (send_alert_email cfg smtp a s))
    = last_email_sent_time s.
Proof. unfold send_alert_email. by repeat case_match. Qed.

Lemma step_email_map cfg strftime a s :
  not_dispatcher a = true ->
  last_email_sent_time (step cfg strftime a s) = last_email_sent_time s.
Proof.
  destruct a; simpl; try done. intros _. apply send_alert_email_map.
Qed.

Lemma run_email_map cfg strftime acts s :
  forallb not_dispatcher acts = true ->
  last_email_sent_time (run cfg strftime acts s) = last_email_sent_time s.
Proof.
  revert s. unfold run. induction acts as [|a acts IH]; intros s H; simpl in *.
  - done.
  - apply andb_true_iff in H as [Ha Hacts].
    rewrite IH by done. by apply step_email_map.
Qed.

Lemma emails_started_process_detection cfg strftime d s :
  emails_started (process_detection cfg strftime d s) =
    emails_started s ++
    (if fires cfg d s
        && PrimFloat.leb (MAIL_ALERT_INTERVAL_SECONDS cfg)
             (PrimFloat.sub (dd_timestamp d)
                (get_or_zero (last_email_sent_time s)
                             (dd_camera_id d, dd_class d)))
     then [StartEmailThread (record_of cfg strftime d s)] else []).
Proof.
  unfold fires, record_of.
  destruct (alert_condition cfg (is_full_security_mode s) d) as [ty|] eqn:Hty.
  - destruct (PrimFloat.ltb _ _) eqn:Hlt; simpl.
    + rewrite (process_detection_throttled _ _ _ _ _ Hty Hlt).
      by rewrite emails_started_emit.
    + rewrite (process_detection_fires _ _ _ _ _ Hty Hlt).
      rewrite emails_started_emit. simpl. rewrite app_nil_r.
      rewrite email_step_emails_started.
      rewrite email_map_mqtt_publish_step, emails_started_mqtt_publish_step.
      simpl. by rewrite emails_started_recorded.
  - rewrite (process_detection_no_alert _ _ _ _ Hty).
    by rewrite emails_started_emit.
Qed.

(** ** The camera worker *)

Import CameraProcessor.

(** A failing turn of a worker that holds no capture handle. *)
Lemma failing_iteration cfg st strftime o s :
  cap s = None ->
  turn_fails o = true ->
  let s' := iteration cfg st strftime o s in
  cap s' = None
  /\ running s' = running s
  /\ CameraProcessor.effects s' = CameraProcessor.effects s ++ failing_turn_effects o
  /\ CameraProcessor.alert_queue s' = CameraProcessor.alert_queue s
  /\ frame_dict s' = frame_dict s.
Proof.
  intros Hcap Hfail. unfold turn_fails in Hfail.
  apply andb_true_iff in Hfail as [_ Hfail].
  unfold iteration, loop_body, needs_open, failing_turn_effects.
  rewrite Hcap.
  destruct (o_open o) as [[]| |]; try done; simpl.
  - rewrite Hcap. simpl. by rewrite <- !app_assoc.
  - by rewrite <- !app_assoc.
  - unfold frame_capture.
    destruct (o_read o) as [[]| |frame]; try done; simpl.
    + by rewrite <- !app_assoc.
    + by rewrite <- !app_assoc.
    + unfold frame_processing.
      destruct (o_copy_raises o) as [[]|]; try done.
      destruct (run_detection_this_frame _ _); simpl;
        by rewrite <- !app_assoc.
Qed.

Lemma run_loop_stopped cfg st strftime os s :
  running s = false -> run_loop cfg st strftime os s = s.
Proof.
  intros H. destruct os as [|o os]; simpl; [done|].
  destruct s; simpl in *; subst. by destruct (o_stop o).
Qed.

Lemma run_loop_app cfg st strftime os1 os2 s :
  run_loop cfg st strftime (os1 ++ os2) s
    = run_loop cfg st strftime os2 (run_loop cfg st strftime os1 s).
Proof.
  revert s. induction os1 as [|o os1 IH]; intros s; simpl; [done|].
  destruct (o_stop o); simpl.
  - by rewrite run_loop_stopped.
  - destruct (running s) eqn:Hr; [apply IH|].
    by rewrite run_loop_stopped.
Qed.

(** The running flag is out of reach of the [try] body. *)
Lemma process_detections_running cfg st strftime now annotated raises ds :
  forall i s,
  running (process_detections cfg st strftime now annotated raises i ds s)
    = running s.
Proof.
  induction ds as [|d ds IH]; intros i s; simpl; [done|].
  rewrite IH. unfold CameraProcessor.process_detection, snapshot_step.
  unfold CameraProcessor.offer.
  destruct (is_interesting cfg d); [destruct (raises i)|];
    by destruct (PyQueue.put_nowait _ _).
Qed.

Lemma loop_body_running cfg st strftime o s :
  match loop_body cfg st strftime o s with
  | Completed s' | Raised _ s' => running s' = running s
  end.
Proof.
  assert (Hcapture : forall x,
            match frame_capture cfg st strftime o x with
            | Completed s' | Raised _ s' => running s' = running x
            end).
  { intros x. unfold frame_capture.
    destruct (o_read o) as [e| |frame]; simpl; try done.
    - by destruct (cap x).
    - unfold frame_processing.
      destruct (run_detection_this_frame _ _) as [[]|]; simpl; try done.
      + destruct (o_copy_raises o); simpl; [done|].
        unfold detection_step, resize_step.
        destruct (enable_resizing st); [destruct (o_resize_raises o)|];
          destruct (detect _ _ _); simpl;
          by rewrite process_detections_running.
      + by destruct (o_copy_raises o). }
  unfold loop_body. destruct (needs_open s); [|apply Hcapture].
  destruct (o_open o); simpl; try done.
  match goal with |- context [frame_capture _ _ _ _ ?x] =>
    specialize (Hcapture x) end.
  by destruct (frame_capture _ _ _ _ _).
Qed.

(** Claim C8.  On a source that fails in every turn (the open fails or
    raises, the read fails or raises, or the body raises on the frame), a
    running worker that holds no capture handle is, after any number of
    turns, still running and again without a handle; no exception leaves a
    turn.  Turn by turn it did what is expected of a failing turn: after a
    failed open or read it dropped the handle and slept 5 s, after an
    exception it printed it, released the handle it held and slept 10 s.
    The queue and the frame table are untouched.  In general a turn whose
    body does not end on a KeyboardInterrupt leaves the running flag as it
    was, and a turn whose body raises ends without a handle, having printed
    the error, released the handle it held and slept twice the retry
    delay. *)
Theorem failing_source_retries_forever cfg st strftime os s :
  running s = true ->
  cap s = None ->
  forallb turn_fails os = true ->
  let s' := run_loop cfg st strftime os s in
  running s' = true
  /\ cap s' = None
  /\ CameraProcessor.effects s'
       = CameraProcessor.effects s ++ concat (failing_turn_effects <$> os)
  /\ CameraProcessor.alert_queue s' = CameraProcessor.alert_queue s
  /\ frame_dict s' = frame_dict s
  /\ (forall o x,
        (forall x', loop_body cfg st strftime o x <> Raised PyKeyboardInterrupt x') ->
        running (iteration cfg st strftime o x) = running x
        /\ (forall y,
              loop_body cfg st strftime o x = Raised PyException y ->
              cap (iteration cfg st strftime o x) = None
              /\ CameraProcessor.effects (iteration cfg st strftime o x)
                 = CameraProcessor.effects y
                   ++ [Print LogCriticalError]
                   ++ match cap y with Some _ => [Release] | None => [] end
                   ++ [Sleep (PInt (retry_delay * 2))])).
Proof.
  intros Hrun Hcap Hall. simpl.
  split; [|split; [|split; [|split; [|split]]]].
  6:{ intros o x Hno. unfold iteration.
      pose proof (loop_body_running cfg st strftime o x) as Hr.
      destruct (loop_body cfg st strftime o x) as [y|[] y] eqn:Hb.
      - split; [done|]. by intros y' Hy.
      - split.
        + simpl. by destruct (cap y).
        + intros y' Hy. injection Hy as <-.
          destruct (cap y) eqn:Hc; simpl; rewrite ?Hc; simpl;
            by rewrite <- ?app_assoc.
      - by destruct (Hno y). }
  all: revert s Hrun Hcap Hall;
    induction os as [|o os IH]; intros s Hrun Hcap Hall; simpl in *;
    [by rewrite ?app_nil_r|];
    apply andb_true_iff in Hall as [Ho Hos];
    pose proof Ho as Hstop; unfold turn_fails in Hstop;
    apply andb_true_iff in Hstop as [Hstop _];
    apply negb_true_iff in Hstop; rewrite Hstop, Hrun;
    destruct (failing_iteration cfg st strftime o s Hcap Ho)
      as (Hc & Hr & He & Hq & Hf);
    rewrite Hrun in Hr.
  - by apply IH.
  - by apply IH.
  - rewrite IH by done. rewrite He. by rewrite <- app_assoc.
  - rewrite IH by done. exact Hq.
  - rewrite IH by done. exact Hf.
Qed.

Lemma failing_source_retries_forever_witness :
  forallb turn_fails [open_fails_turn; read_fails_turn; read_raises_turn] = true
  /\ running
       (run_loop default_config sample_settings sample_strftime
          [open_fails_turn; read_fails_turn; read_raises_turn] started_worker)
     = true
  /\ sleeps
       (run_loop default_config sample_settings sample_strftime
          [open_fails_turn; read_fails_turn; read_raises_turn] started_worker)
     = [PInt 5; PInt 5; PInt 10].
Proof.
  split; [reflexivity|].
  destruct (failing_source_retries_forever default_config sample_settings
              sample_strftime
              [open_fails_turn; read_fails_turn; read_raises_turn]
              started_worker eq_refl eq_refl eq_refl)
    as (Hrun & _ & Heff & _).
  split; [exact Hrun|].
  unfold sleeps. rewrite Heff. reflexivity.
Defined.

(** ** Detections of one cycle: snapshots and the queue *)

Lemma snapshot_step_ref cfg st strftime now annotated raises d s :
  fst (snapshot_step cfg st strftime now annotated raises d s)
    = snapshot_ref cfg st strftime now raises d.
Proof.
  unfold snapshot_step, snapshot_ref.
  destruct (is_interesting cfg d); [|done]. by destruct raises.
Qed.

Lemma snapshot_step_worker cfg st strftime now annotated raises d s :
  let s' := snd (snapshot_step cfg st strftime now annotated raises d s) in
  cap s' = cap s /\ running s' = running s /\ frame_count s' = frame_count s
  /\ frame_dict s' = frame_dict s
  /\ CameraProcessor.alert_queue s' = CameraProcessor.alert_queue s
  /\ detections_run s' = detections_run s
  /\ snapshot_attempts s' =
       snapshot_attempts s ++
       (if is_interesting cfg d
        then [Imwrite (path_join (snapshot_dir st)
                         (snapshot_name (camera_id st)
                            (strftime "%Y%m%d_%H%M%S" now) (d_class d)))
                      annotated]
        else []).
Proof.
  unfold snapshot_step, detections_run, snapshot_attempts.
  destruct (is_interesting cfg d); [|by rewrite app_nil_r].
  destruct raises; simpl; rewrite ?List.filter_app; simpl;
    rewrite ?List.filter_app; simpl; by rewrite ?app_nil_r.
Qed.

Lemma offer_worker d s :
  let s' := CameraProcessor.offer d s in
  cap s' = cap s /\ running s' = running s /\ frame_count s' = frame_count s
  /\ frame_dict s' = frame_dict s
  /\ CameraProcessor.effects s' = CameraProcessor.effects s
  /\ CameraProcessor.alert_queue s' = Main.offer d (CameraProcessor.alert_queue s).
Proof.
  unfold CameraProcessor.offer, Main.offer.
  by destruct (PyQueue.put_nowait d (CameraProcessor.alert_queue s)).
Qed.


Lemma process_detection_worker cfg st strftime now annotated raises d s :
  let s' := CameraProcessor.process_detection cfg st strftime now annotated raises d s in
  cap s' = cap s /\ running s' = running s /\ frame_count s' = frame_count s
  /\ frame_dict s' = frame_dict s
  /\ detections_run s' = detections_run s
  /\ CameraProcessor.alert_queue s' =
       Main.offer
         (make_detection_data st now (snapshot_ref cfg st strftime now raises d) d)
         (CameraProcessor.alert_queue s)
  /\ snapshot_attempts s' =
       snapshot_attempts s ++
       (if is_interesting cfg d
        then [Imwrite (path_join (snapshot_dir st)
                         (snapshot_name (camera_id st)
                            (strftime "%Y%m%d_%H%M%S" now) (d_class d)))
                      annotated]
        else []).
Proof.
  unfold CameraProcessor.process_detection.
  pose proof (snapshot_step_ref cfg st strftime now annotated raises d s) as Href.
  pose proof (snapshot_step_worker cfg st strftime now annotated raises d s) as Hw.
  destruct (snapshot_step cfg st strftime now annotated raises d s) as [ref s1].
  simpl in Href, Hw. subst ref.
  destruct Hw as (H1 & H2 & H3 & H4 & H5 & H6 & H7).
  destruct (offer_worker
              (make_detection_data st now
                 (snapshot_ref cfg st strftime now raises d) d) s1)
    as (G1 & G2 & G3 & G4 & G5 & G6).
  simpl. unfold detections_run, snapshot_attempts in *.
  rewrite G1, G2, G3, G4, G5, G6, H1, H2, H3, H4, H5, H7.
  repeat split; try done.
Qed.

Lemma process_detections_worker cfg st strftime now annotated raises ds :
  forall i s,
  let s' := process_detections cfg st strftime now annotated raises i ds s in
  cap s' = cap s /\ running s' = running s /\ frame_count s' = frame_count s
  /\ frame_dict s' = frame_dict s
  /\ detections_run s' = detections_run s
  /\ CameraProcessor.alert_queue s' =
       foldl (fun q d => Main.offer d q) (CameraProcessor.alert_queue s)
         (events_offered cfg st strftime now raises i ds).
Proof.
  induction ds as [|d ds IH]; intros i s; simpl; [done|].
  destruct (IH (S i)
              (CameraProcessor.process_detection cfg st strftime now annotated
                 (raises i) d s)) as (H1 & H2 & H3 & H4 & H5 & H6).
  destruct (process_detection_worker cfg st strftime now annotated (raises i) d s)
    as (G1 & G2 & G3 & G4 & G5 & G6 & _).
  rewrite H1, H2, H3, H4, H5, H6, G1, G2, G3, G4, G5, G6. done.
Qed.

Lemma events_offered_length cfg st strftime now raises ds :
  forall i, length (events_offered cfg st strftime now raises i ds) = length ds.
Proof. induction ds as [|d ds IH]; intros i; simpl; [done|]. by rewrite IH. Qed.







(** ** Frame skipping *)

Lemma detections_run_emit e s :
  detections_run (CameraProcessor.emit e s)
    = (detections_run s + if is_run_detection e then 1 else 0)%nat.
Proof.
  unfold detections_run. simpl. rewrite List.filter_app, length_app. simpl.
  by destruct (is_run_detection e).
Qed.

Lemma resize_step_frame st o s :
  fst (resize_step st o (captured_frame o) s) = frame_to_detect st o.
Proof.
  unfold resize_step, frame_to_detect.
  destruct (enable_resizing st); [|done]. by destruct (o_resize_raises o).
Qed.

Lemma resize_step_worker st o frame s :
  let s' := snd (resize_step st o frame s) in
  cap s' = cap s /\ running s' = running s /\ frame_count s' = frame_count s
  /\ frame_dict s' = frame_dict s /\ detections_run s' = detections_run s.
Proof.
  unfold resize_step. destruct (enable_resizing st); [|done].
  destruct (o_resize_raises o); [|done]. simpl.
  rewrite detections_run_emit. simpl. repeat split; lia.
Qed.

(** A detection cycle: the detector runs once, and the frame for the stream
    is the one it returns. *)
Lemma detection_step_worker cfg st strftime o s :
  let r := detection_step cfg st strftime o (captured_frame o) s in
  fst r = annotated_frame st o
  /\ cap (snd r) = cap s /\ running (snd r) = running s
  /\ frame_count (snd r) = frame_count s /\ frame_dict (snd r) = frame_dict s
  /\ detections_run (snd r) = S (detections_run s).
Proof.
  unfold detection_step, annotated_frame.
  pose proof (resize_step_frame st o s) as Hf.
  pose proof (resize_step_worker st o (captured_frame o) s) as Hw.
  destruct (resize_step st o (captured_frame o) s) as [f s1].
  simpl in Hf, Hw. subst f. destruct Hw as (H1 & H2 & H3 & H4 & H5).
  destruct (detect (detector st) (o_yolo o) (frame_to_detect st o))
    as [detections annotated] eqn:Hd. simpl.
  destruct (process_detections_worker cfg st strftime (o_time o) annotated
              (o_imwrite_raises o) detections 0%nat
              (CameraProcessor.emit (RunDetection (frame_to_detect st o)) s1))
    as (G1 & G2 & G3 & G4 & G5 & _).
  rewrite G1, G2, G3, G4, G5, detections_run_emit. simpl.
  rewrite H1, H2, H3, H4, H5. repeat split; lia.
Qed.

Lemma good_frame_capture cfg st strftime o s :
  enable_frame_skipping st = true ->
  0 < detect_every_n_frames st ->
  good_capture o = true ->
  exists s',
    frame_capture cfg st strftime o s = Completed s'
    /\ cap s' = cap s /\ running s' = running s
    /\ frame_count s' = frame_count s + 1
    /\ detections_run s' =
         (detections_run s +
          if runs_detection st (frame_count s + 1) then 1 else 0)%nat
    /\ frame_dict s' =
         <[camera_id st := stream_frame st o (frame_count s + 1)]> (frame_dict s).
Proof.
  intros Hskip HK Hgood. unfold good_capture in Hgood.
  apply andb_true_iff in Hgood as [_ Hgood].
  unfold frame_capture, stream_frame, runs_detection.
  pose proof (detection_step_worker cfg st strftime o
                (set_frame_count (frame_count s + 1) s)) as Hd.
  unfold captured_frame in *.
  destruct (o_open o); try done.
  destruct (o_read o) as [| |frame]; try done.
  destruct (o_copy_raises o) eqn:Hcopy; try done.
  unfold frame_processing, run_detection_this_frame. rewrite Hskip, Hcopy. simpl.
  destruct (detect_every_n_frames st =? 0) eqn:HK0; [apply Z.eqb_eq in HK0; lia|].
  destruct ((frame_count s + 1) `mod` detect_every_n_frames st =? 0).
  - destruct (detection_step cfg st strftime o frame
                (set_frame_count (frame_count s + 1) s)) as [f s1].
    simpl in Hd. destruct Hd as (-> & H1 & H2 & H3 & H4 & H5).
    eexists. split; [reflexivity|]. simpl.
    unfold detections_run in *. simpl in *.
    rewrite !List.filter_app, !length_app. simpl.
    rewrite H1, H2, H3, H4, H5. repeat split; lia.
  - eexists. split; [reflexivity|]. simpl.
    unfold detections_run. simpl.
    rewrite !List.filter_app, !length_app. simpl.
    repeat split; lia.
Qed.

Lemma good_iteration cfg st strftime o s :
  enable_frame_skipping st = true ->
  0 < detect_every_n_frames st ->
  good_capture o = true ->
  let s' := iteration cfg st strftime o s in
  running s' = running s
  /\ frame_count s' = frame_count s + 1
  /\ detections_run s' =
       (detections_run s +
        if runs_detection st (frame_count s + 1) then 1 else 0)%nat
  /\ frame_dict s' =
       <[camera_id st := stream_frame st o (frame_count s + 1)]> (frame_dict s).
Proof.
  intros Hskip HK Hgood. unfold iteration, loop_body.
  pose proof Hgood as Hopen. unfold good_capture in Hopen.
  apply andb_true_iff in Hopen as [_ Hopen].
  destruct (needs_open s).
  - destruct (o_open o); try done.
    destruct (good_frame_capture cfg st strftime o
                (CameraProcessor.emit (Print LogCameraOpened)
                   (set_cap (Some {| isOpened := true |})
                      (CameraProcessor.emit OpenCapture s))) Hskip HK Hgood)
      as (s' & -> & _ & H2 & H3 & H4 & H5).
    simpl in *. rewrite H2, H3, H4, H5.
    unfold detections_run. simpl.
    rewrite !List.filter_app, !length_app. simpl.
    repeat split; lia.
  - destruct (good_frame_capture cfg st strftime o s Hskip HK Hgood)
      as (s' & -> & _ & H2 & H3 & H4 & H5).
    simpl. by rewrite H2, H3, H4, H5.
Qed.

Lemma div_step c k :
  0 < k -> (c + 1) / k = c / k + (if (c + 1) `mod` k =? 0 then 1 else 0).
Proof.
  intros Hk. destruct ((c + 1) `mod` k =? 0) eqn:Hm.
  - apply Z.eqb_eq in Hm. Z.div_mod_to_equations. nia.
  - apply Z.eqb_neq in Hm. Z.div_mod_to_equations. nia.
Qed.

Lemma good_run cfg st strftime os :
  enable_frame_skipping st = true ->
  0 < detect_every_n_frames st ->
  forall s,
  running s = true ->
  forallb good_capture os = true ->
  let s' := run_loop cfg st strftime os s in
  running s' = true
  /\ frame_count s' = frame_count s + Z.of_nat (length os)
  /\ Z.of_nat (detections_run s') =
       Z.of_nat (detections_run s)
       + (frame_count s + Z.of_nat (length os)) / detect_every_n_frames st
       - frame_count s / detect_every_n_frames st.
Proof.
  intros Hskip HK. induction os as [|o os IH]; intros s Hrun Hall.
  - simpl. rewrite Z.add_0_r. split; [done|]. split; lia.
  - cbn [forallb] in Hall. apply andb_true_iff in Hall as [Ho Hos].
    pose proof Ho as Hstop. unfold good_capture in Hstop.
    apply andb_true_iff in Hstop as [Hstop _]. apply negb_true_iff in Hstop.
    cbn [run_loop length]. rewrite Hstop, Hrun, Nat2Z.inj_succ.
    destruct (good_iteration cfg st strftime o s Hskip HK Ho)
      as (H1 & H2 & H3 & _).
    destruct (IH (iteration cfg st strftime o s)) as (G1 & G2 & G3);
      [by rewrite H1|done|].
    cbv zeta in G1, G2, G3. rewrite G1, G2, G3, H2, H3.
    pose proof (div_step (frame_count s) (detect_every_n_frames st) HK) as Hd.
    split; [done|]. split; [lia|].
    replace (frame_count s + Z.succ (Z.of_nat (length os)))
      with (frame_count s + 1 + Z.of_nat (length os)) by lia.
    unfold runs_detection.
    destruct ((frame_count s + 1) `mod` detect_every_n_frames st =? 0); lia.
Qed.

(** Claim C4.  With frame skipping on and a factor K > 0, the capture
    counter of a fresh worker is 1 on its first captured frame, and after M
    turns that each capture a frame it is M.  Detection has then run M / K
    times (integer division), and it ran in turn M exactly when K divides M.
    The frame written under the worker's camera id in turn M, replacing what
    was there, is the frame the detector returned when K divides M and the
    captured frame otherwise. *)
Theorem detection_every_kth_frame cfg st strftime os o s :
  enable_frame_skipping st = true ->
  0 < detect_every_n_frames st ->
  running s = true ->
  frame_count s = 0 ->
  forallb good_capture (os ++ [o]) = true ->
  let K := detect_every_n_frames st in
  let M := Z.of_nat (length (os ++ [o])) in
  let before := run_loop cfg st strftime os s in
  let s' := run_loop cfg st strftime (os ++ [o]) s in
  frame_count s' = M
  /\ Z.of_nat (detections_run s') = Z.of_nat (detections_run s) + M / K
  /\ detections_run s'
       = (detections_run before + if (M `mod` K =? 0)%Z then 1 else 0)%nat
  /\ frame_dict s'
       = <[camera_id st :=
             if M `mod` K =? 0 then annotated_frame st o else captured_frame o]>
           (frame_dict before).
Proof.
  intros Hskip HK Hrun Hzero Hall K M before s'.
  destruct (good_run cfg st strftime (os ++ [o]) Hskip HK s Hrun Hall)
    as (_ & Hcount & Hdet).
  fold s' in Hcount, Hdet. rewrite Hzero in Hcount, Hdet.
  rewrite Z.add_0_l in Hcount, Hdet. fold M K in Hcount, Hdet.
  rewrite Z.div_0_l in Hdet by lia.
  rewrite forallb_app in Hall. apply andb_true_iff in Hall as [Hos Ho].
  cbn [forallb] in Ho. rewrite andb_true_r in Ho.
  destruct (good_run cfg st strftime os Hskip HK s Hrun Hos)
    as (Hrunb & Hcountb & _).
  fold before in Hrunb, Hcountb. rewrite Hzero, Z.add_0_l in Hcountb.
  assert (Hlast : s' = iteration cfg st strftime o before).
  { subst s' before. rewrite run_loop_app. cbn [run_loop].
    pose proof Ho as Hstop. unfold good_capture in Hstop.
    apply andb_true_iff in Hstop as [Hstop _]. apply negb_true_iff in Hstop.
    by rewrite Hstop, Hrunb. }
  destruct (good_iteration cfg st strftime o before Hskip HK Ho)
    as (_ & _ & Hd & Hf).
  rewrite <- Hlast in Hd, Hf.
  assert (HM : frame_count before + 1 = M).
  { rewrite Hcountb. subst M. rewrite length_app. simpl. lia. }
  rewrite HM in Hd, Hf. unfold stream_frame, runs_detection in Hd, Hf.
  fold K in Hd, Hf.
  split; [exact Hcount|]. split; [lia|]. split; [exact Hd|exact Hf].
Qed.

Lemma detection_every_kth_frame_witness :
  forallb good_capture [capture_turn 1; capture_turn 2; capture_turn 3] = true
  /\ detections_run
       (run_loop default_config sample_settings sample_strftime
          [capture_turn 1; capture_turn 2; capture_turn 3] started_worker)
     = 1%nat
  /\ frame_dict
       (run_loop default_config sample_settings sample_strftime
          [capture_turn 1; capture_turn 2; capture_turn 3] started_worker)
       !! 0
     = Some (Plotted (Captured 3))
  /\ frame_dict
       (run_loop default_config sample_settings sample_strftime
          [capture_turn 1; capture_turn 2] started_worker)
       !! 0
     = Some (Captured 2).
Proof.
  split; [reflexivity|].
  destruct (detection_every_kth_frame default_config sample_settings
              sample_strftime [capture_turn 1; capture_turn 2] (capture_turn 3)
              started_worker eq_refl eq_refl eq_refl eq_refl eq_refl)
    as (_ & _ & Hd & Hf).
  destruct (detection_every_kth_frame default_config sample_settings
              sample_strftime [capture_turn 1] (capture_turn 2)
              started_worker eq_refl eq_refl eq_refl eq_refl eq_refl)
    as (_ & _ & _ & Hf2).
  split; [|split].
  - simpl app in Hd. rewrite Hd. reflexivity.
  - simpl app in Hf. rewrite Hf. apply lookup_insert_eq.
  - simpl app in Hf2. rewrite Hf2. apply lookup_insert_eq.
Defined.

(** * More properties of the dispatcher *)

Lemma process_detection_set_alert_queue cfg strftime d q s :
  Main.process_detection cfg strftime d (Main.set_alert_queue q s)
    = Main.set_alert_queue q (Main.process_detection cfg strftime d s).
Proof.
  unfold Main.process_detection. simpl.
  destruct (alert_condition cfg (is_full_security_mode s) d); [|done].
  destruct (PrimFloat.ltb _ _); [done|].
  unfold email_step, mqtt_publish_step. simpl.
  destruct (mqtt_client s) as [c|]; simpl.
  - destruct (is_connected c); simpl.
    + destruct (publish_raises c); simpl; by destruct (PrimFloat.leb _ _).
    + by destruct (PrimFloat.leb _ _).
  - by destruct (PrimFloat.leb _ _).
Qed.

Lemma process_detection_alert_queue cfg strftime d s :
  Main.alert_queue (Main.process_detection cfg strftime d s) = Main.alert_queue s.
Proof.
  unfold Main.process_detection.
  destruct (alert_condition cfg (is_full_security_mode s) d); [|done].
  destruct (PrimFloat.ltb _ _); [done|].
  unfold email_step, mqtt_publish_step. simpl.
  by repeat (case_match; simpl).
Qed.

Lemma process_detection_mode cfg strftime d s :
  is_full_security_mode (Main.process_detection cfg strftime d s)
    = is_full_security_mode s.
Proof.
  unfold Main.process_detection.
  destruct (alert_condition cfg (is_full_security_mode s) d); [|done].
  destruct (PrimFloat.ltb _ _); [done|]. simpl.
  by rewrite mode_email_step, mode_mqtt_publish_step.
Qed.

Lemma count_effects_emit p e s :
  count_effects p (Main.emit e s)
    = (count_effects p s + if p e then 1 else 0)%nat.
Proof.
  unfold count_effects. simpl. rewrite List.filter_app, length_app. simpl.
  by destruct (p e).
Qed.

Lemma count_effects_mqtt_publish_step p a s :
  count_effects p (mqtt_publish_step a s) =
    (count_effects p s +
     match mqtt_client s with
     | Some c =>
         if is_connected c
         then if publish_raises c
              then (if p (Main.Print LogMqttPublishError) then 1 else 0)
              else (if p (MqttPublish "iot/alerts" (delete "timestamp" a))
                    then 1 else 0)
         else 0
     | None => 0
     end)%nat.
Proof.
  unfold mqtt_publish_step. destruct (mqtt_client s) as [c|]; [|lia].
  destruct (is_connected c); [|lia].
  destruct (publish_raises c); by rewrite count_effects_emit.
Qed.

Lemma count_effects_email_step p cfg k t a s :
  count_effects p (email_step cfg k t a s) =
    (count_effects p s +
     if PrimFloat.leb (MAIL_ALERT_INTERVAL_SECONDS cfg)
          (PrimFloat.sub t (get_or_zero (last_email_sent_time s) k))
     then (if p (StartEmailThread a) then 1 else 0) else 0)%nat.
Proof.
  unfold email_step. destruct (PrimFloat.leb _ _); [|lia].
  by rewrite count_effects_emit.
Qed.

(** The counts of an event's effects, path by path. *)
Lemma count_effects_process_detection cfg strftime d s :
  let s' := Main.process_detection cfg strftime d s in
  count_effects is_task_done s' = S (count_effects is_task_done s)
  /\ count_effects is_processing_alert s'
       = (count_effects is_processing_alert s + if fires cfg d s then 1 else 0)%nat
  /\ (count_effects is_email_start s'
        <= count_effects is_email_start s + if fires cfg d s then 1 else 0)%nat
  /\ (count_effects is_publish s'
        <= count_effects is_publish s + if fires cfg d s then 1 else 0)%nat.
Proof.
  unfold fires. simpl.
  destruct (alert_condition cfg (is_full_security_mode s) d) as [ty|] eqn:Hty.
  - destruct (PrimFloat.ltb _ _) eqn:Hlt; simpl.
    + rewrite (process_detection_throttled _ _ _ _ _ Hty Hlt).
      rewrite !count_effects_emit. simpl. repeat split; lia.
    + rewrite (process_detection_fires _ _ _ _ _ Hty Hlt).
      rewrite !count_effects_emit, !count_effects_email_step,
        !count_effects_mqtt_publish_step. simpl.
      assert (Hpre : forall p h m l,
                count_effects p
                  (set_alert_history h
                     (set_last_alert_time_local m (Main.emit (Main.Print l) s)))
                = (count_effects p s + if p (Main.Print l) then 1 else 0)%nat).
      { intros p h m l. unfold count_effects. simpl.
        rewrite List.filter_app, length_app. simpl.
        by destruct (p (Main.Print l)). }
      rewrite !Hpre. simpl.
      repeat split; repeat case_match; lia.
  - rewrite (process_detection_no_alert _ _ _ _ Hty).
    rewrite !count_effects_emit. simpl. repeat split; lia.
Qed.

(** What one dispatcher turn does to the queue and the acknowledgements. *)
Lemma alert_processor_iteration_spec cfg strftime s :
  match PyQueue.items (Main.alert_queue s) with
  | [] => alert_processor_iteration cfg strftime s = s
  | d :: rest =>
      let s' := alert_processor_iteration cfg strftime s in
      PyQueue.items (Main.alert_queue s') = rest
      /\ PyQueue.maxsize (Main.alert_queue s') = PyQueue.maxsize (Main.alert_queue s)
      /\ count_effects is_task_done s' = S (count_effects is_task_done s)
      /\ s' = Main.set_alert_queue
                (PyQueue.mk (PyQueue.maxsize (Main.alert_queue s)) rest)
                (Main.process_detection cfg strftime d s)
  end.
Proof.
  unfold alert_processor_iteration, PyQueue.get.
  destruct (PyQueue.items (Main.alert_queue s)) as [|d rest]; [done|].
  simpl. rewrite process_detection_set_alert_queue. simpl.
  repeat split.
  destruct (count_effects_process_detection cfg strftime d s) as [H _].
  unfold count_effects in *. simpl in *. exact H.
Qed.

(** X1.  A dispatcher turn on an empty queue changes nothing.  On a queue
    that is not empty it takes the head event off, leaves the rest in order,
    and calls [task_done()] exactly once, whether the event is no alert, is
    throttled, or fires, and whether or not the publish raises. *)
Theorem dispatcher_turn_acknowledges_once cfg strftime s :
  match PyQueue.items (Main.alert_queue s) with
  | [] => alert_processor_iteration cfg strftime s = s
  | d :: rest =>
      let s' := alert_processor_iteration cfg strftime s in
      PyQueue.items (Main.alert_queue s') = rest
      /\ PyQueue.maxsize (Main.alert_queue s') = PyQueue.maxsize (Main.alert_queue s)
      /\ count_effects is_task_done s' = S (count_effects is_task_done s)
      /\ s' = Main.set_alert_queue
                (PyQueue.mk (PyQueue.maxsize (Main.alert_queue s)) rest)
                (Main.process_detection cfg strftime d s)
  end.
Proof. exact (alert_processor_iteration_spec cfg strftime s). Qed.

(** The dispatcher turned [n] times. *)
Lemma dispatcher_turns_fifo cfg strftime ds :
  forall s,
  PyQueue.items (Main.alert_queue s) = ds ->
  Main.run cfg strftime (replicate (length ds) DispatcherTurn) s
    = dispatch_all cfg strftime ds
        (Main.set_alert_queue
           (PyQueue.mk (PyQueue.maxsize (Main.alert_queue s)) []) s).
Proof.
  unfold Main.run, dispatch_all.
  induction ds as [|d ds IH]; intros s Hitems; simpl.
  - destruct s as [[m items] h f e r c l t]. simpl in *. by subst.
  - pose proof (alert_processor_iteration_spec cfg strftime s) as Hturn.
    rewrite Hitems in Hturn. destruct Hturn as (_ & _ & _ & ->).
    rewrite IH by done. simpl.
    by rewrite process_detection_set_alert_queue.
Qed.

(** X2.  The dispatcher takes queued events in the order they were put: as
    many turns as there are queued events process exactly these events, in
    queue order, and leave the queue empty; a camera's put on a queue with
    room is the last to be processed. *)
Theorem dispatcher_processes_in_fifo_order cfg strftime s d :
  PyQueue.full (Main.alert_queue s) = false ->
  let ds := PyQueue.items (Main.alert_queue s) in
  let empty := PyQueue.mk (PyQueue.maxsize (Main.alert_queue s)) [] in
  Main.run cfg strftime (replicate (length ds) DispatcherTurn) s
    = dispatch_all cfg strftime ds (Main.set_alert_queue empty s)
  /\ Main.run cfg strftime
       (CameraPut d :: replicate (S (length ds)) DispatcherTurn) s
     = dispatch_all cfg strftime (ds ++ [d]) (Main.set_alert_queue empty s).
Proof.
  intros Hfull ds empty. split.
  - by apply dispatcher_turns_fifo.
  - change (Main.run cfg strftime (CameraPut d :: ?l) s)
      with (Main.run cfg strftime l
              (Main.set_alert_queue (Main.offer d (Main.alert_queue s)) s)).
    unfold Main.offer, PyQueue.put_nowait. rewrite Hfull.
    replace (S (length ds)) with (length (ds ++ [d]))
      by (rewrite length_app; simpl; lia).
    by rewrite (dispatcher_turns_fifo cfg strftime (ds ++ [d])).
Qed.

Lemma dispatcher_processes_in_fifo_order_witness :
  (fun a : AlertData => a !! "camera_id") <$>
    alert_history
      (Main.run default_config sample_strftime
         [CameraPut (knife_on 1 100%float); CameraPut (knife_on 2 100%float);
          DispatcherTurn; DispatcherTurn]
         (Main.initial_state None))
  = [Some (PInt 2); Some (PInt 1)].
Proof.
  destruct (dispatcher_processes_in_fifo_order default_config sample_strftime
              (Main.run default_config sample_strftime
                 [CameraPut (knife_on 1 100%float)] (Main.initial_state None))
              (knife_on 2 100%float) eq_refl) as [_ H].
  change (Main.run default_config sample_strftime
            [CameraPut (knife_on 1 100%float); CameraPut (knife_on 2 100%float);
             DispatcherTurn; DispatcherTurn] (Main.initial_state None))
    with (Main.run default_config sample_strftime
            (CameraPut (knife_on 2 100%float) :: replicate 2 DispatcherTurn)
            (Main.run default_config sample_strftime
               [CameraPut (knife_on 1 100%float)] (Main.initial_state None))).
  simpl length in H. rewrite H. vm_compute. reflexivity.
Defined.

Lemma step_queue_bounded cfg strftime a s :
  0 < PyQueue.maxsize (Main.alert_queue s) ->
  PyQueue.qsize (Main.alert_queue s) <= PyQueue.maxsize (Main.alert_queue s) ->
  let s' := Main.step cfg strftime a s in
  PyQueue.maxsize (Main.alert_queue s') = PyQueue.maxsize (Main.alert_queue s)
  /\ PyQueue.qsize (Main.alert_queue s') <= PyQueue.maxsize (Main.alert_queue s).
Proof.
  intros Hpos Hsize. destruct a; simpl; try done.
  - pose proof (alert_processor_iteration_spec cfg strftime s) as Hturn.
    unfold PyQueue.qsize in *.
    destruct (PyQueue.items (Main.alert_queue s)) as [|d rest] eqn:Hitems.
    + rewrite Hturn, Hitems. done.
    + destruct Hturn as (-> & -> & _). simpl in Hsize. split; [done|lia].
  - unfold Main.offer, PyQueue.put_nowait, PyQueue.full.
    rewrite (proj2 (Z.ltb_lt _ _) Hpos). simpl.
    destruct (PyQueue.maxsize (Main.alert_queue s)
                <=? PyQueue.qsize (Main.alert_queue s)) eqn:Hfull; [done|].
    apply Z.leb_gt in Hfull. simpl. split; [done|].
    unfold PyQueue.qsize in *. simpl. rewrite length_app. simpl. lia.
  - unfold send_alert_email. by repeat (case_match; simpl).
Qed.

(** X3.  The alert queue of main.py holds at most 100 events, whatever the
    interleaving of camera puts, dispatcher turns, mode and recipient
    changes and delivery threads: a put on the full queue is dropped. *)
Theorem alert_queue_never_exceeds_100 cfg strftime acts mqtt :
  let s' := Main.run cfg strftime acts (Main.initial_state mqtt) in
  PyQueue.maxsize (Main.alert_queue s') = 100
  /\ PyQueue.qsize (Main.alert_queue s') <= 100.
Proof.
  simpl.
  assert (H : forall s,
            PyQueue.maxsize (Main.alert_queue s) = 100 ->
            PyQueue.qsize (Main.alert_queue s) <= 100 ->
            PyQueue.maxsize (Main.alert_queue (Main.run cfg strftime acts s)) = 100
            /\ PyQueue.qsize (Main.alert_queue (Main.run cfg strftime acts s)) <= 100).
  { unfold Main.run. induction acts as [|a acts IH]; intros s Hm Hs; simpl.
    - done.
    - destruct (step_queue_bounded cfg strftime a s) as [H1 H2]; [lia|lia|].
      apply IH; simpl in *; lia. }
  by apply H.
Qed.

(** Events of other keys leave the times stored for a key alone. *)
Lemma process_detection_other_key cfg strftime d s k :
  (dd_camera_id d, dd_class d) <> k ->
  last_alert_time_local (Main.process_detection cfg strftime d s) !! k
    = last_alert_time_local s !! k
  /\ last_email_sent_time (Main.process_detection cfg strftime d s) !! k
    = last_email_sent_time s !! k.
Proof.
  intros Hk. unfold Main.process_detection.
  destruct (alert_condition cfg (is_full_security_mode s) d); [|done].
  destruct (PrimFloat.ltb _ _); [done|]. simpl.
  rewrite local_email_step, local_mqtt_publish_step. simpl.
  rewrite email_step_map, email_map_mqtt_publish_step. simpl.
  split.
  - by rewrite lookup_insert_ne.
  - destruct (PrimFloat.leb _ _); [|done]. by rewrite lookup_insert_ne.
Qed.

(** X4.  Throttling is per (camera, class): after any events of other keys,
    an event fires, and passes the email test, exactly as it would have
    before them. *)
Theorem throttle_is_per_key cfg strftime ds d s :
  Forall (fun d' => (dd_camera_id d', dd_class d') <> (dd_camera_id d, dd_class d)) ds ->
  let s' := dispatch_all cfg strftime ds s in
  let key := (dd_camera_id d, dd_class d) in
  fires cfg d s' = fires cfg d s
  /\ get_or_zero (last_alert_time_local s') key
       = get_or_zero (last_alert_time_local s) key
  /\ get_or_zero (last_email_sent_time s') key
       = get_or_zero (last_email_sent_time s) key
  /\ (exists started,
        emails_started (Main.process_detection cfg strftime d s')
          = emails_started s' ++ started
        /\ emails_started (Main.process_detection cfg strftime d s)
          = emails_started s ++ started).
Proof.
  intros Hds. simpl.
  assert (H : last_alert_time_local (dispatch_all cfg strftime ds s)
                !! (dd_camera_id d, dd_class d)
              = last_alert_time_local s !! (dd_camera_id d, dd_class d)
              /\ last_email_sent_time (dispatch_all cfg strftime ds s)
                   !! (dd_camera_id d, dd_class d)
                 = last_email_sent_time s !! (dd_camera_id d, dd_class d)
              /\ is_full_security_mode (dispatch_all cfg strftime ds s)
                 = is_full_security_mode s).
  { unfold dispatch_all. revert s.
    induction Hds as [|d' ds Hd' Hds IH]; intros s; simpl; [done|].
    destruct (IH (Main.process_detection cfg strftime d' s)) as (-> & -> & ->).
    destruct (process_detection_other_key cfg strftime d' s _ Hd') as [-> ->].
    by rewrite process_detection_mode. }
  destruct H as (Hl & He & Hm).
  assert (Hf : fires cfg d (dispatch_all cfg strftime ds s) = fires cfg d s).
  { unfold fires, get_or_zero. by rewrite Hm, Hl. }
  split; [exact Hf|]. split; [by unfold get_or_zero; rewrite Hl|].
  split; [by unfold get_or_zero; rewrite He|].
  rewrite !emails_started_process_detection.
  unfold record_of, get_or_zero. rewrite Hf, He, Hm.
  eexists. split; reflexivity.
Qed.

Lemma throttle_is_per_key_witness :
  fires default_config (knife_on 0 101%float)
    (dispatch_all default_config sample_strftime
       [knife_on 1 100%float; person_on 0 100%float] (Main.initial_state None))
  = true
  /\ fires default_config (knife_on 0 101%float)
       (dispatch_all default_config sample_strftime
          [knife_on 0 100%float] (Main.initial_state None))
     = false.
Proof.
  split; [|reflexivity].
  assert (H : Forall (fun d' => (dd_camera_id d', dd_class d')
                                <> (dd_camera_id (knife_on 0 101%float),
                                    dd_class (knife_on 0 101%float)))
                [knife_on 1 100%float; person_on 0 100%float]).
  { repeat constructor; simpl; congruence. }
  destruct (throttle_is_per_key default_config sample_strftime
              [knife_on 1 100%float; person_on 0 100%float]
              (knife_on 0 101%float) (Main.initial_state None) H) as [-> _].
  reflexivity.
Defined.

Lemma count_effects_send_alert_email p cfg smtp a s :
  (forall l, is_processing_alert (Main.Print l) = false -> p (Main.Print l) = false) ->
  (forall r x, p (SmtpSend r x) = false) ->
  count_effects p (fst (send_alert_email cfg smtp a s)) = count_effects p s.
Proof.
  intros Hp Hs. unfold send_alert_email.
  repeat (case_match; simpl);
    try match goal with e : SmtpError |- _ => destruct e; simpl end;
    rewrite ?count_effects_emit, ?Hs, ?Hp by done; lia.
Qed.

(** X5.  Over any interleaving, the dispatcher starts at most one delivery
    thread and publishes at most once per alert it processed, and it
    processed at most as many alerts as it acknowledged events: nothing is
    published or mailed that was not recorded. *)
Theorem no_delivery_without_alert cfg strftime acts s :
  let s' := Main.run cfg strftime acts s in
  (count_effects is_email_start s' + count_effects is_processing_alert s
     <= count_effects is_processing_alert s' + count_effects is_email_start s)%nat
  /\ (count_effects is_publish s' + count_effects is_processing_alert s
        <= count_effects is_processing_alert s' + count_effects is_publish s)%nat
  /\ (count_effects is_processing_alert s' + count_effects is_task_done s
        <= count_effects is_task_done s' + count_effects is_processing_alert s)%nat.
Proof.
  simpl. unfold Main.run. revert s.
  induction acts as [|a acts IH]; intros s; simpl; [lia|].
  specialize (IH (Main.step cfg strftime a s)).
  assert (Hstep :
    (count_effects is_email_start (Main.step cfg strftime a s)
       + count_effects is_processing_alert s
     <= count_effects is_processing_alert (Main.step cfg strftime a s)
          + count_effects is_email_start s)%nat
    /\ (count_effects is_publish (Main.step cfg strftime a s)
          + count_effects is_processing_alert s
        <= count_effects is_processing_alert (Main.step cfg strftime a s)
             + count_effects is_publish s)%nat
    /\ (count_effects is_processing_alert (Main.step cfg strftime a s)
          + count_effects is_task_done s
        <= count_effects is_task_done (Main.step cfg strftime a s)
             + count_effects is_processing_alert s)%nat).
  { destruct a; cbn [Main.step]; try (unfold count_effects; simpl; lia).
    - pose proof (alert_processor_iteration_spec cfg strftime s) as Hturn.
      destruct (PyQueue.items (Main.alert_queue s)) as [|d rest].
      + rewrite Hturn. lia.
      + destruct Hturn as (_ & _ & _ & ->).
        destruct (count_effects_process_detection cfg strftime d s)
          as (H1 & H2 & H3 & H4).
        unfold count_effects in *. simpl in *.
        destruct (fires cfg d s); lia.
    - rewrite !count_effects_send_alert_email by (done || by intros []). lia. }
  lia.
Qed.


(** The result of [send_alert_email] and what it leaves alone. *)
Lemma send_alert_email_spec cfg smtp a s :
  let r := send_alert_email cfg smtp a s in
  (snd r = Some true <->
     mail_ready cfg s = true /\ message_formats a = true
     /\ smtp = SmtpDelivered)
  /\ (snd r = None <-> mail_ready cfg s = true /\ message_formats a = false)
  /\ List.filter is_smtp_send (Main.effects (fst r))
       = List.filter is_smtp_send (Main.effects s)
         ++ (if mail_ready cfg s && message_formats a && message_handed_over smtp
             then [SmtpSend (default "" (alert_recipient_email s)) a]
             else [])
  /\ alert_history (fst r) = alert_history s
  /\ Main.alert_queue (fst r) = Main.alert_queue s
  /\ is_full_security_mode (fst r) = is_full_security_mode s
  /\ last_email_sent_time (fst r) = last_email_sent_time s
  /\ last_alert_time_local (fst r) = last_alert_time_local s
  /\ alert_recipient_email (fst r) = alert_recipient_email s
  /\ mqtt_client (fst r) = mqtt_client s.
Proof.
  unfold send_alert_email, mail_ready. simpl.
  destruct (MAIL_ENABLED cfg); simpl.
  2:{ rewrite app_nil_r. repeat split; try done; by intros [? _]. }
  destruct (truthy_opt_str (alert_recipient_email s)); simpl.
  2:{ rewrite app_nil_r. repeat split; try done; by intros [? _]. }
  destruct (truthy_opt_str (MAIL_USERNAME cfg)); simpl.
  2:{ rewrite List.filter_app, !app_nil_r.
      repeat split; try done; by intros [? _]. }
  destruct (truthy_opt_str (MAIL_PASSWORD cfg)); simpl.
  2:{ rewrite List.filter_app, !app_nil_r.
      repeat split; try done; by intros [? _]. }
  destruct (message_formats a); simpl.
  2:{ rewrite List.filter_app, !app_nil_r.
      repeat split; try done; by intros (_ & ? & _). }
  destruct smtp as [| | | | |e]; simpl; rewrite ?List.filter_app; simpl;
    rewrite ?List.filter_app; simpl; rewrite ?List.filter_app; simpl;
    rewrite ?app_nil_r; repeat split; try done;
    try (by intros (_ & _ & ?)); try (by intros [_ ?]);
    by destruct e.
Qed.




Lemma published_send_alert_email cfg smtp a s :
  published (fst (send_alert_email cfg smtp a s)) = published s.
Proof.
  unfold send_alert_email.
  repeat (case_match; simpl); rewrite ?published_emit; simpl;
    rewrite ?published_emit; simpl; rewrite ?published_emit; simpl;
    by rewrite ?app_nil_r.
Qed.

Lemma process_detection_without_client cfg strftime d s :
  mqtt_client s = None ->
  mqtt_client (Main.process_detection cfg strftime d s) = None
  /\ published (Main.process_detection cfg strftime d s) = published s.
Proof.
  intros Hc.
  destruct (alert_condition cfg (is_full_security_mode s) d) as [ty|] eqn:Hty.
  - destruct (PrimFloat.ltb
                (PrimFloat.sub (dd_timestamp d)
                   (get_or_zero (last_alert_time_local s)
                                (dd_camera_id d, dd_class d)))
                (ALERT_INTERVAL_SECONDS cfg)) eqn:Hlt.
    + rewrite (process_detection_throttled _ _ _ _ _ Hty Hlt).
      by rewrite published_emit, app_nil_r.
    + rewrite (process_detection_fires _ _ _ _ _ Hty Hlt).
      rewrite published_emit, published_email_step. simpl. rewrite app_nil_r.
      unfold mqtt_publish_step, email_step. simpl. rewrite Hc. simpl.
      split; [by destruct (PrimFloat.leb _ _)|apply published_recorded].
  - rewrite (process_detection_no_alert _ _ _ _ Hty).
    by rewrite published_emit, app_nil_r.
Qed.

Lemma step_without_client cfg strftime a s :
  mqtt_client s = None ->
  not_set_mqtt a = true ->
  mqtt_client (Main.step cfg strftime a s) = None
  /\ published (Main.step cfg strftime a s) = published s.
Proof.
  intros Hc Ha. destruct a; cbn [Main.step]; try done.
  - unfold alert_processor_iteration.
    destruct (PyQueue.get (Main.alert_queue s)) as [[d q]|]; [|done].
    rewrite process_detection_set_alert_queue.
    by destruct (process_detection_without_client cfg strftime d s Hc).
  - destruct (send_alert_email_spec cfg smtp alert_data s)
      as (_ & _ & _ & _ & _ & _ & _ & _ & _ & ->).
    split; [done|apply published_send_alert_email].
Qed.

(** X8.  [setup_mqtt] yields no client when no broker is configured or the
    connection attempt raises; started without a client, the system
    publishes nothing, whatever is detected. *)
Theorem no_client_no_publish cfg strftime connect acts :
  truthy_opt_str (MQTT_BROKER cfg) = false \/ connect = ConnectRaises ->
  forallb not_set_mqtt acts = true ->
  setup_mqtt cfg connect = None
  /\ published
       (Main.run cfg strftime acts (Main.initial_state (setup_mqtt cfg connect)))
     = [].
Proof.
  intros Hno Hacts.
  assert (Hsetup : setup_mqtt cfg connect = None).
  { unfold setup_mqtt. destruct Hno as [->| ->]; simpl; [done|].
    by destruct (truthy_opt_str (MQTT_BROKER cfg)). }
  split; [done|]. rewrite Hsetup.
  assert (H : forall s, mqtt_client s = None ->
                published (Main.run cfg strftime acts s) = published s).
  { unfold Main.run. induction acts as [|a acts IH]; intros s Hc; simpl; [done|].
    simpl in Hacts. apply andb_true_iff in Hacts as [Ha Hacts].
    destruct (step_without_client cfg strftime a s Hc Ha) as [Hc' Hp'].
    rewrite IH by done. exact Hp'. }
  by rewrite H.
Qed.

Lemma no_client_no_publish_witness :
  setup_mqtt default_config (ConnectReturns connected_client) = None
  /\ published
       (Main.run default_config sample_strftime
          [CameraPut (knife_on 0 100%float); DispatcherTurn]
          (Main.initial_state
             (setup_mqtt default_config (ConnectReturns connected_client))))
     = [].
Proof.
  exact (no_client_no_publish default_config sample_strftime
           (ConnectReturns connected_client)
           [CameraPut (knife_on 0 100%float); DispatcherTurn]
           (or_introl eq_refl) eq_refl).
Defined.

Lemma processed_dispatch_all cfg strftime ds :
  forall s,
  count_effects is_processing_alert (dispatch_all cfg strftime ds s)
    = (count_effects is_processing_alert s
       + length (fired_records cfg strftime ds s))%nat.
Proof.
  unfold dispatch_all. induction ds as [|d ds IH]; intros s; simpl; [lia|].
  rewrite IH, length_app.
  destruct (count_effects_process_detection cfg strftime d s) as (_ & -> & _).
  destruct (fires cfg d s); simpl; lia.
Qed.

(** X9.  With a history capacity of zero or less, a history that is empty
    stays empty: every alert that fires is still processed (and so offered to
    MQTT and to the email throttle), but none is kept. *)
Theorem nonpositive_capacity_keeps_nothing cfg strftime ds s :
  MAX_ALERT_HISTORY cfg <= 0 ->
  alert_history s = [] ->
  alert_history (dispatch_all cfg strftime ds s) = []
  /\ count_effects is_processing_alert (dispatch_all cfg strftime ds s)
     = (count_effects is_processing_alert s
        + length (fired_records cfg strftime ds s))%nat.
Proof.
  intros Hcap Hempty. split; [|apply processed_dispatch_all].
  unfold dispatch_all. revert s Hempty.
  induction ds as [|d ds IH]; intros s Hempty; simpl; [done|].
  apply IH. rewrite history_process_detection, Hempty.
  destruct (fires cfg d s); [|done].
  unfold py_slice_to. destruct (0 <=? MAX_ALERT_HISTORY cfg) eqn:Hz.
  - apply Z.leb_le in Hz. replace (MAX_ALERT_HISTORY cfg) with 0 by lia. done.
  - apply Z.leb_gt in Hz. simpl.
    replace (1 - Z.to_nat (- MAX_ALERT_HISTORY cfg))%nat with 0%nat by lia.
    done.
Qed.

Lemma nonpositive_capacity_keeps_nothing_witness :
  alert_history
    (dispatch_all no_history_config sample_strftime [knife_on 0 100%float]
       (Main.initial_state None))
  = [].
Proof.
  apply (nonpositive_capacity_keeps_nothing no_history_config sample_strftime
           [knife_on 0 100%float] (Main.initial_state None));
    [simpl; lia|reflexivity].
Defined.

(** * The web routes of main.py *)

(** X10.  The security mode changes only through an authenticated POST whose
    body decodes to an object with an ['enable'] key, and then it becomes
    the truth value of what is stored under the key; every other request
    (not logged in, GET, a body that is no JSON, [null], a list, a string, a
    number, an object without the key) leaves the whole state as it was. *)
Theorem security_mode_changes_only_by_valid_post authenticated method body s :
  let '(s', response, _) := security_mode_api authenticated method body s in
  s' = s
  \/ (authenticated = true /\ method = POST
      /\ exists items v,
           body = GetJsonReturns (Some (JObj items))
           /\ dict_get "enable" items = Some v
           /\ s' = Main.set_is_full_security_mode (py_bool v) s
           /\ response = ModeSuccess (py_bool v)).
Proof.
  unfold security_mode_api.
  destruct authenticated; simpl; [|by left].
  destruct method; [by left|].
  destruct body as [|[data|]]; [by left| |by left].
  destruct data as [|b|z|f|str|l|items]; simpl; try (by left).
  - by destruct (String.index 0 "enable" str); left.
  - by destruct (existsb _ l); left.
  - destruct (dict_get "enable" items) as [v|] eqn:Hv; [|by left].
    right. repeat split. by exists items, v.
Qed.

(** X11.  After an authenticated POST with an ['enable'] key, a GET reports
    the truth value that was posted, whatever non-boolean value stood for it:
    any number but zero, any string but the empty one (the string "false"
    too), any list or object that is not empty enables Full mode.  A request
    that is not logged in gets the login redirect and reads nothing. *)
Theorem security_mode_post_then_get items v s :
  dict_get "enable" items = Some v ->
  let '(s1, r1, log1) :=
    security_mode_api true POST (GetJsonReturns (Some (JObj items))) s in
  r1 = ModeSuccess (py_bool v)
  /\ log1 = [LogModeChanged (py_bool v)]
  /\ (forall body, security_mode_api true GET body s1
                   = (s1, ModeSuccess (py_bool v), []))
  /\ (forall method body, security_mode_api false method body s1
                          = (s1, ModeLoginRequired, []))
  /\ (forall str, v = JStr str -> str <> "" -> py_bool v = true)
  /\ (forall z, v = JInt z -> z <> 0 -> py_bool v = true).
Proof.
  intros Hv. unfold security_mode_api. simpl. rewrite Hv. simpl.
  repeat split.
  - intros str -> Hstr. simpl. apply negb_true_iff. by apply String.eqb_neq.
  - intros z -> Hz. simpl. apply negb_true_iff. by apply Z.eqb_neq.
Qed.

Lemma security_mode_post_then_get_witness :
  security_mode_api true GET GetJsonRaises
    (security_mode_api true POST
       (GetJsonReturns (Some (JObj [("enable", JStr "false")])))
       (Main.initial_state None)).1.1
  = (Main.set_is_full_security_mode true (Main.initial_state None),
     ModeSuccess true, []).
Proof.
  pose proof (security_mode_post_then_get [("enable", JStr "false")]
                (JStr "false") (Main.initial_state None) eq_refl) as H.
  simpl in H. destruct H as (_ & _ & Hget & _).
  exact (Hget GetJsonRaises).
Defined.

(** The loop of [video_feed] finds the index that prints as the request. *)
Lemma find_camera_spec req sources :
  forall idx z,
  find_camera req idx sources = Some z <->
  exists k, (k < length sources)%nat
            /\ z = Z.of_nat (idx + k) /\ req = pretty z.
Proof.
  induction sources as [|src sources IH]; intros idx z; simpl.
  - split; [done|]. intros (k & Hk & _). lia.
  - destruct (String.eqb (pretty (Z.of_nat idx)) req) eqn:Heq.
    + apply String.eqb_eq in Heq. split.
      * intros [= <-]. exists 0%nat. rewrite Nat.add_0_r. split; [lia|done].
      * intros (k & Hk & -> & Hreq). f_equal.
        rewrite Hreq in Heq. by apply (inj pretty) in Heq.
    + apply String.eqb_neq in Heq. rewrite IH. split.
      * intros (k & Hk & Hz & Hreq). exists (S k).
        split; [lia|]. split; [lia|done].
      * intros (k & Hk & Hz & Hreq). destruct k as [|k].
        -- rewrite Nat.add_0_r in Hz. subst z. by rewrite Hreq in Heq.
        -- exists k. split; [lia|]. split; [lia|done].
Qed.

(** The ids [video_feed] accepts. *)
Lemma video_feed_spec sources camera_id :
  (forall i, video_feed true sources camera_id = FeedStream i <->
             0 <= i < Z.of_nat (length sources) /\ camera_id = pretty i)
  /\ (video_feed true sources camera_id = FeedNotFound <->
      forall i, 0 <= i < Z.of_nat (length sources) -> camera_id <> pretty i)
  /\ video_feed false sources camera_id = FeedLoginRequired.
Proof.
  unfold video_feed. simpl. split; [|split; [|done]].
  - intros i. destruct (find_camera camera_id 0 sources) as [z|] eqn:Hf.
    + apply find_camera_spec in Hf as (k & Hk & -> & Hreq). simpl. split.
      * intros [= <-]. split; [lia|done].
      * intros [Hi Hp]. rewrite Hp in Hreq.
        apply (inj pretty) in Hreq. by rewrite Hreq.
    + split; [done|]. intros [Hi Hp].
      assert (Hsome : find_camera camera_id 0 sources = Some i).
      { apply find_camera_spec. exists (Z.to_nat i). simpl.
        split; [lia|]. split; [lia|done]. }
      congruence.
  - destruct (find_camera camera_id 0 sources) as [z|] eqn:Hf.
    + apply find_camera_spec in Hf as (k & Hk & -> & Hreq). simpl.
      split; [done|]. intros Hno. exfalso.
      apply (Hno (Z.of_nat k)); [lia|done].
    + split; [|done]. intros _ i Hi Hp.
      assert (Hsome : find_camera camera_id 0 sources = Some i).
      { apply find_camera_spec. exists (Z.to_nat i). simpl.
        split; [lia|]. split; [lia|done]. }
      congruence.
Qed.

(** X12.  [video_feed] streams camera [i] exactly when [i] is the position
    of a configured source and the requested id is the decimal numeral of
    [i] as Python prints it; any other request of a logged-in user, also one
    with a leading zero or a source's own locator, is answered "Camera not
    found". *)
Theorem video_feed_resolves_positions sources camera_id :
  (forall i, video_feed true sources camera_id = FeedStream i <->
             0 <= i < Z.of_nat (length sources) /\ camera_id = pretty i)
  /\ (video_feed true sources camera_id = FeedNotFound <->
      forall i, 0 <= i < Z.of_nat (length sources) -> camera_id <> pretty i)
  /\ video_feed false sources camera_id = FeedLoginRequired.
Proof. exact (video_feed_spec sources camera_id). Qed.

Lemma video_feed_resolves_positions_witness :
  video_feed true [SourceIndex 0; SourceUrl "rtsp://gate/stream"] "1"
    = FeedStream 1
  /\ video_feed true [SourceIndex 0; SourceUrl "rtsp://gate/stream"] "01"
    = FeedNotFound
  /\ video_feed true [SourceIndex 0; SourceUrl "rtsp://gate/stream"]
       "rtsp://gate/stream"
    = FeedNotFound.
Proof.
  destruct (video_feed_resolves_positions
              [SourceIndex 0; SourceUrl "rtsp://gate/stream"] "1") as [H _].
  split; [|split; reflexivity].
  apply H. split; [simpl; lia|reflexivity].
Defined.

(** The threads after the loop of [start_camera_processors], when the first
    [k] constructors succeed and the loop ends there. *)
Lemma start_from_spec cfg dir q frames init names sources :
  forall i k acc,
  (k <= length sources)%nat ->
  (forall j, (j < k)%nat -> init (i + j)%nat = ModelLoaded (names (i + j)%nat)) ->
  (k = length sources \/ init (i + k)%nat = ModelLoadFails) ->
  let r := start_from cfg dir q frames init i sources acc in
  snd r = negb (k =? length sources)%nat
  /\ forall z,
       fst r !! z =
         if bool_decide (Z.of_nat i <= z < Z.of_nat (i + k))
         then Some (CameraProcessor.make_settings cfg z dir CONFIDENCE_THRESHOLD
                      (names (Z.to_nat z)),
                    CameraProcessor.initial_state q frames)
         else acc !! z.
Proof.
  induction sources as [|src sources IH]; intros i k acc Hk Hok Hend; simpl.
  - assert (k = 0)%nat as -> by (simpl in Hk; lia). split; [done|].
    intros z. rewrite bool_decide_eq_false_2; [done|lia].
  - destruct k as [|k].
    + destruct Hend as [Hend|Hend]; [done|].
      rewrite Nat.add_0_r in Hend. rewrite Hend. simpl. split; [done|].
      intros z. rewrite bool_decide_eq_false_2; [done|lia].
    + pose proof (Hok 0%nat ltac:(lia)) as H0. rewrite Nat.add_0_r in H0.
      rewrite H0.
      destruct (IH (S i) k
                  (<[Z.of_nat i :=
                       (CameraProcessor.make_settings cfg (Z.of_nat i) dir
                          CONFIDENCE_THRESHOLD (names i),
                        CameraProcessor.initial_state q frames)]> acc))
        as [Hr Hl].
      * simpl in Hk. lia.
      * intros j Hj. replace (S i + j)%nat with (i + S j)%nat by lia.
        apply Hok. lia.
      * destruct Hend as [Hend|Hend].
        -- left. simpl in Hend. lia.
        -- right. by replace (S i + k)%nat with (i + S k)%nat by lia.
      * split; [by rewrite Hr|].
        intros z. rewrite Hl.
        destruct (decide (z = Z.of_nat i)) as [->|Hz].
        -- rewrite bool_decide_eq_false_2 by lia.
           rewrite bool_decide_eq_true_2 by lia.
           rewrite lookup_insert_eq. by rewrite Nat2Z.id.
        -- rewrite lookup_insert_ne by done.
           destruct (bool_decide (Z.of_nat (S i) <= z < Z.of_nat (S i + k)))
             eqn:Hb.
           ++ apply bool_decide_eq_true in Hb.
              rewrite bool_decide_eq_true_2 by lia. done.
           ++ apply bool_decide_eq_false in Hb.
              rewrite bool_decide_eq_false_2 by lia. done.
Qed.

(** X13.  When every worker can be built, [start_camera_processors] creates
    one worker per configured source: the worker stored under key [i] has
    camera id [i], for [i] from 0 to the number of sources less one, so no
    two workers share an id, and these ids are the ones [video_feed]
    resolves.  When the model fails to load for source [k], the call raises
    with exactly the workers of the sources before [k] created. *)
Theorem start_camera_processors_ids cfg dir q frames init names sources k :
  (k <= length sources)%nat ->
  (forall j, (j < k)%nat -> init j = ModelLoaded (names j)) ->
  (k = length sources \/ init k = ModelLoadFails) ->
  let r := start_camera_processors cfg dir q frames init sources in
  (snd r = true <-> (k < length sources)%nat)
  /\ (forall z thread,
        fst r !! z = Some thread <->
        0 <= z < Z.of_nat k
        /\ thread = (CameraProcessor.make_settings cfg z dir CONFIDENCE_THRESHOLD
                       (names (Z.to_nat z)),
                     CameraProcessor.initial_state q frames))
  /\ (forall z thread,
        fst r !! z = Some thread -> camera_id (fst thread) = z)
  /\ (forall z thread,
        fst r !! z = Some thread ->
        video_feed true sources (pretty z) = FeedStream z).
Proof.
  intros Hk Hok Hend.
  destruct (start_from_spec cfg dir q frames init names sources 0 k ∅ Hk Hok Hend)
    as [Hr Hl].
  unfold start_camera_processors. simpl in *.
  assert (Hlookup : forall z thread,
            (start_from cfg dir q frames init 0 sources ∅).1 !! z = Some thread <->
            0 <= z < Z.of_nat k
            /\ thread = (CameraProcessor.make_settings cfg z dir CONFIDENCE_THRESHOLD
                           (names (Z.to_nat z)),
                         CameraProcessor.initial_state q frames)).
  { intros z thread. rewrite Hl. change (Z.of_nat 0) with 0.
    destruct (bool_decide (0 <= z < Z.of_nat k)) eqn:Hb.
    - apply bool_decide_eq_true in Hb. split.
      + by intros [= <-].
      + by intros [_ ->].
    - apply bool_decide_eq_false in Hb. rewrite lookup_empty. split; [done|].
      by intros [? _]. }
  split; [|split; [exact Hlookup|split]].
  - rewrite Hr, negb_true_iff, Nat.eqb_neq. lia.
  - intros z thread Hz. apply Hlookup in Hz as [_ ->]. done.
  - intros z thread Hz. apply Hlookup in Hz as [Hz _].
    apply video_feed_spec. split; [lia|done].
Qed.

Lemma start_camera_processors_ids_witness :
  snd (start_camera_processors default_config "static/snapshots"
         (PyQueue.mk 100 []) ∅ (fun _ => ModelLoaded sample_names)
         [SourceIndex 0; SourceUrl "rtsp://gate/stream"]) = false
  /\ camera_id <$>
       (fst <$>
          (fst (start_camera_processors default_config "static/snapshots"
                  (PyQueue.mk 100 []) ∅ (fun _ => ModelLoaded sample_names)
                  [SourceIndex 0; SourceUrl "rtsp://gate/stream"]) !! 1))
     = Some 1.
Proof.
  destruct (start_camera_processors_ids default_config "static/snapshots"
              (PyQueue.mk 100 []) ∅ (fun _ => ModelLoaded sample_names)
              (fun _ => sample_names)
              [SourceIndex 0; SourceUrl "rtsp://gate/stream"] 2
              ltac:(simpl; lia) ltac:(done) (or_introl eq_refl))
    as (_ & Hlookup & _).
  split; [reflexivity|].
  assert (Hin : 0 <= 1 < Z.of_nat 2) by (simpl; lia).
  rewrite (proj2 (Hlookup 1 _) (conj Hin eq_refl)). reflexivity.
Defined.

(** X14.  A turn of the frame generator for a camera whose key is not in the
    frame table yields the waiting chunk and sleeps half a second.  It
    yields a JPEG only of the frame stored under the requested camera's key,
    and only when the encoding succeeds; when the encoding fails or raises it
    yields nothing in that turn.  It leaves the table as it is. *)
Theorem generate_frames_serves_own_key latest_frames camera_id encode :
  let r := generate_frames_turn latest_frames camera_id encode in
  (latest_frames !! camera_id = None ->
     r = (Some WaitingChunk, [half_second]))
  /\ (forall frame,
        fst r = Some (JpegChunk frame) <->
        latest_frames !! camera_id = Some frame /\ encode = EncodeOk)
  /\ (fst r = None <->
      is_Some (latest_frames !! camera_id) /\ encode <> EncodeOk)
  /\ (forall frame, latest_frames !! camera_id = Some frame ->
        snd r = match encode with
                | EncodeOk => [stream_delay]
                | EncodeFails => [tenth_second]
                | EncodeRaises => [half_second; stream_delay]
                end).
Proof.
  unfold generate_frames_turn. simpl.
  destruct (latest_frames !! camera_id) as [f|]; destruct encode; simpl;
    (split; [done|]); (split; [|split]);
    try (intros frame; split; [intros [= <-]|intros [[= <-] ?]]; done);
    try (intros frame; split; [by intros [=]|intros [[=] ?]; done]);
    try (split; [by intros [=]|intros [[? ?] ?]; done]);
    try (split; [by intros [=]|intros [? ?]; done]);
    try (split; [intros _; split; [by eexists|done]|done]);
    try done.
Qed.

(** * More properties of the camera worker *)

(** The detections of a cycle add image writes and prints about them, and
    nothing else, to the effects. *)
Lemma process_detections_filter (p : CameraProcessor.Effect -> bool)
    cfg st strftime now annotated raises ds :
  (forall path image, p (Imwrite path image) = false) ->
  (forall name, p (Print (LogSnapshotError name)) = false) ->
  forall i s,
  List.filter p
    (CameraProcessor.effects
       (process_detections cfg st strftime now annotated raises i ds s))
  = List.filter p (CameraProcessor.effects s).
Proof.
  intros Hw Hp. induction ds as [|d ds IH]; intros i s; simpl; [done|].
  rewrite IH. unfold CameraProcessor.process_detection, snapshot_step.
  unfold CameraProcessor.offer.
  destruct (is_interesting cfg d); [destruct (raises i)|];
    destruct (PyQueue.put_nowait _ _); simpl;
    rewrite ?List.filter_app; simpl; rewrite ?Hw, ?Hp;
    rewrite ?List.filter_app; simpl; rewrite ?Hw, ?Hp;
    by rewrite ?app_nil_r.
Qed.

(** What the body does from the frame on: the capture count goes up by one
    whether or not the body completes, the handle and the counts of opened
    and released handles stay, and the frame table gets one write under the
    worker's own key exactly when the body completes. *)
Lemma frame_processing_fields cfg st strftime o frame s :
  exists s' written,
    (frame_processing cfg st strftime o frame s = Completed s'
     \/ exists e, frame_processing cfg st strftime o frame s = Raised e s')
    /\ (written = true <->
        frame_processing cfg st strftime o frame s = Completed s')
    /\ cap s' = cap s
    /\ running s' = running s
    /\ frame_count s' = frame_count s + 1
    /\ opened_count s' = opened_count s
    /\ released_count s' = released_count s
    /\ (if written
        then exists f, frame_dict s' = <[camera_id st := f]> (frame_dict s)
        else frame_dict s' = frame_dict s).
Proof.
  unfold frame_processing.
  destruct (run_detection_this_frame st (frame_count s + 1)) as [run|] eqn:Hrun;
    simpl; rewrite Hrun.
  2:{ exists (set_frame_count (frame_count s + 1) s), false.
      split; [right; by eexists|]. repeat split; try done. }
  destruct (o_copy_raises o) as [e|].
  { exists (set_frame_count (frame_count s + 1) s), false.
    split; [right; by eexists|]. repeat split; try done. }
  destruct run.
  - unfold detection_step, resize_step.
    set (s0 := set_frame_count (frame_count s + 1) s).
    set (x := if enable_resizing st
              then if o_resize_raises o
                   then (frame, CameraProcessor.emit (Print LogResizeError) s0)
                   else (Resized (detect_w st) (detect_h st) frame, s0)
              else (frame, s0)).
    assert (Hx : cap x.2 = cap s /\ running x.2 = running s
                 /\ frame_count x.2 = frame_count s + 1
                 /\ frame_dict x.2 = frame_dict s
                 /\ opened_count x.2 = opened_count s
                 /\ released_count x.2 = released_count s).
    { subst x. destruct (enable_resizing st); [destruct (o_resize_raises o)|];
        simpl; unfold opened_count, released_count; simpl;
        rewrite ?List.filter_app; simpl; by rewrite ?app_nil_r. }
    destruct x as [f0 s1]. simpl in Hx.
    destruct Hx as (H1 & H2 & H3 & H4 & H5 & H6).
    destruct (detect (detector st) (o_yolo o) f0) as [detections annotated].
    set (s2 := process_detections cfg st strftime (o_time o) annotated
                 (o_imwrite_raises o) 0 detections
                 (CameraProcessor.emit (RunDetection f0) s1)).
    destruct (process_detections_worker cfg st strftime (o_time o) annotated
                (o_imwrite_raises o) detections 0%nat
                (CameraProcessor.emit (RunDetection f0) s1))
      as (G1 & G2 & G3 & G4 & _ & _).
    fold s2 in G1, G2, G3, G4.
    assert (Go : opened_count s2 = opened_count s1
                 /\ released_count s2 = released_count s1).
    { unfold opened_count, released_count. subst s2.
      rewrite !process_detections_filter by done. simpl.
      rewrite !List.filter_app. simpl. by rewrite !app_nil_r. }
    destruct Go as [Go Gr].
    eexists _, true. split; [left; reflexivity|].
    simpl. split; [done|].
    unfold opened_count, released_count in *. simpl in *.
    rewrite !List.filter_app, !length_app. simpl.
    rewrite G1, G2, G3, G4. simpl. rewrite H1, H2, H3, H4.
    repeat split; try lia. by eexists.
  - eexists _, true. split; [left; reflexivity|].
    simpl. split; [done|].
    unfold opened_count, released_count. simpl.
    rewrite !List.filter_app, !length_app. simpl.
    repeat split; try lia. by eexists.
Qed.

(** The try body of a turn, however it ends: the capture count goes up by
    one exactly when a frame was read, and the frame table is left alone, or
    in a turn that read a frame gets one write under the worker's own key. *)
Lemma loop_body_frames cfg st strftime o s :
  let s' := result_state (loop_body cfg st strftime o s) in
  frame_count s' = frame_count s + (if reads_frame o s then 1 else 0)
  /\ running s' = running s
  /\ (frame_dict s' = frame_dict s
      \/ reads_frame o s = true
         /\ exists f, frame_dict s' = <[camera_id st := f]> (frame_dict s)).
Proof.
  unfold loop_body, reads_frame, frame_capture.
  destruct (needs_open s); simpl.
  - destruct (o_open o); simpl; try (repeat split; (lia || by left)).
    destruct (o_read o) as [e| |frame]; simpl;
      try (repeat split; (lia || by left)).
    destruct (frame_processing_fields cfg st strftime o frame
                (CameraProcessor.emit (Print LogCameraOpened)
                   (set_cap (Some {| isOpened := true |})
                      (CameraProcessor.emit OpenCapture s))))
      as (s' & w & Hr & _ & _ & Hrun & Hc & _ & _ & Hd).
    assert (Hs : result_state
                   (frame_processing cfg st strftime o frame
                      (CameraProcessor.emit (Print LogCameraOpened)
                         (set_cap (Some {| isOpened := true |})
                            (CameraProcessor.emit OpenCapture s)))) = s').
    { destruct Hr as [-> | [e ->]]; done. }
    rewrite Hs. simpl in *. repeat split; try done.
    destruct w; [right|left]; done.
  - destruct (o_read o) as [e| |frame]; simpl;
      try (destruct (cap s); simpl; repeat split; (lia || by left)).
    destruct (frame_processing_fields cfg st strftime o frame s)
      as (s' & w & Hr & _ & _ & Hrun & Hc & _ & _ & Hd).
    assert (Hs : result_state (frame_processing cfg st strftime o frame s) = s').
    { destruct Hr as [-> | [e ->]]; done. }
    rewrite Hs. repeat split; try done.
    destruct w; [right|left]; done.
Qed.

(** The same for a whole turn, handlers included. *)
Lemma iteration_frames cfg st strftime o s :
  let s' := iteration cfg st strftime o s in
  frame_count s' = frame_count s + (if reads_frame o s then 1 else 0)
  /\ (frame_dict s' = frame_dict s
      \/ reads_frame o s = true
         /\ exists f, frame_dict s' = <[camera_id st := f]> (frame_dict s)).
Proof.
  destruct (loop_body_frames cfg st strftime o s) as (Hc & _ & Hd).
  unfold iteration.
  destruct (loop_body cfg st strftime o s) as [s'|[] s']; simpl in *;
    try done.
  destruct (cap s'); simpl; done.
Qed.

Lemma frames_read_bounds cfg st strftime os :
  forall s, 0 <= frames_read cfg st strftime os s <= Z.of_nat (length os).
Proof.
  induction os as [|o os IH]; intros s; cbn [frames_read length]; [lia|].
  rewrite Nat2Z.inj_succ.
  set (s0 := if o_stop o then set_running false s else s).
  destruct (running s0); [|lia].
  specialize (IH (iteration cfg st strftime o s0)).
  destruct (reads_frame o s0); lia.
Qed.

(** Over any turns of the loop the capture count grows by the number of
    frames read, and the frame table changes under the worker's own key
    only, where an entry once written stays; turns that read no frame leave
    the table as it is. *)
Lemma run_loop_frames cfg st strftime os :
  forall s,
  frame_count (run_loop cfg st strftime os s)
  = frame_count s + frames_read cfg st strftime os s
  /\ (forall k, k <> camera_id st ->
      frame_dict (run_loop cfg st strftime os s) !! k = frame_dict s !! k)
  /\ (is_Some (frame_dict s !! camera_id st) ->
      is_Some (frame_dict (run_loop cfg st strftime os s) !! camera_id st))
  /\ (frames_read cfg st strftime os s = 0 ->
      frame_dict (run_loop cfg st strftime os s) = frame_dict s).
Proof.
  induction os as [|o os IH]; intros s; simpl.
  { split; [lia|split; [done|split; done]]. }
  set (s0 := if o_stop o then set_running false s else s).
  assert (H0 : frame_count s0 = frame_count s /\ frame_dict s0 = frame_dict s).
  { subst s0. destruct (o_stop o); done. }
  destruct H0 as [H0c H0d].
  destruct (running s0).
  2:{ rewrite H0c, H0d. split; [lia|split; [done|split; done]]. }
  destruct (IH (iteration cfg st strftime o s0)) as (Ic & Ik & Is & Iz).
  destruct (iteration_frames cfg st strftime o s0) as (Hc & Hd).
  pose proof (frames_read_bounds cfg st strftime os
                (iteration cfg st strftime o s0)) as Hb.
  simpl in Hc, Hd. rewrite Ic, Hc, H0c.
  split; [lia|]. split; [|split].
  - intros k Hk. rewrite Ik by done.
    destruct Hd as [-> | [_ [f ->]]]; rewrite <- ?H0d; [done|].
    by rewrite lookup_insert_ne.
  - intros Hsome. apply Is.
    destruct Hd as [-> | [_ [f ->]]]; rewrite ?H0d; [done|].
    rewrite lookup_insert_eq. by eexists.
  - intros Hz. destruct (reads_frame o s0) eqn:Hread; [lia|].
    rewrite Iz by lia. destruct Hd as [-> | [? _]]; [done|congruence].
Qed.

(** The cleanup and the start of [run()] leave the capture count and the
    frame table alone. *)
Lemma cleanup_frames s :
  frame_count (cleanup s) = frame_count s
  /\ frame_dict (cleanup s) = frame_dict s
  /\ CameraProcessor.alert_queue (cleanup s) = CameraProcessor.alert_queue s.
Proof.
  unfold cleanup. destruct (cap s) as [c|]; [destruct (isOpened c)|]; done.
Qed.

(** X15.  The capture count after [run()] is the count before it plus the
    number of frames read in its turns: a turn counts when the open, if one
    was needed, succeeded and the read returned a frame, also when the rest
    of the turn raised; [run()] itself, a reconnect and the cleanup never
    reset the count.  At most one frame is read per turn. *)
Theorem frame_count_counts_frames_read cfg st strftime os s :
  let entered :=
    set_running true (CameraProcessor.emit (Print LogStarting) s) in
  let s' := CameraProcessor.run cfg st strftime os s in
  frame_count s' = frame_count s + frames_read cfg st strftime os entered
  /\ 0 <= frames_read cfg st strftime os entered <= Z.of_nat (length os).
Proof.
  simpl. split; [|apply frames_read_bounds].
  unfold CameraProcessor.run.
  set (entered := set_running true (CameraProcessor.emit (Print LogStarting) s)).
  destruct (run_loop_frames cfg st strftime os entered) as (Hc & _).
  destruct (running (run_loop cfg st strftime os entered)).
  - by rewrite Hc.
  - destruct (cleanup_frames (run_loop cfg st strftime os entered)) as [-> _].
    by rewrite Hc.
Qed.

(** X16.  A worker writes the frame table under its own camera id only:
    whatever happens in its turns, the entries of the other cameras are what
    they were.  Once a frame is stored under its id, one stays stored, so
    the frame generator of that camera never goes back to the waiting chunk;
    and over turns in which no frame is read (the source is down) the table
    is unchanged, so the generator keeps serving the last frame stored. *)
Theorem worker_writes_only_own_entry cfg st strftime os s :
  let s' := CameraProcessor.run cfg st strftime os s in
  let entered :=
    set_running true (CameraProcessor.emit (Print LogStarting) s) in
  (forall k, k <> camera_id st -> frame_dict s' !! k = frame_dict s !! k)
  /\ (forall encode,
        is_Some (frame_dict s !! camera_id st) ->
        fst (generate_frames_turn (frame_dict s') (camera_id st) encode)
          <> Some WaitingChunk)
  /\ (frames_read cfg st strftime os entered = 0 ->
      forall k encode,
        generate_frames_turn (frame_dict s') k encode
          = generate_frames_turn (frame_dict s) k encode).
Proof.
  simpl. unfold CameraProcessor.run.
  set (entered := set_running true (CameraProcessor.emit (Print LogStarting) s)).
  destruct (run_loop_frames cfg st strftime os entered) as (_ & Hk & Hs & Hz).
  assert (Hd : frame_dict
                 (if running (run_loop cfg st strftime os entered)
                  then run_loop cfg st strftime os entered
                  else cleanup (run_loop cfg st strftime os entered))
               = frame_dict (run_loop cfg st strftime os entered)).
  { destruct (running _); [done|].
    by destruct (cleanup_frames (run_loop cfg st strftime os entered))
      as (_ & -> & _). }
  rewrite Hd. split; [|split].
  - intros k Hne. by rewrite Hk.
  - intros encode Hsome. apply Hs in Hsome as [f Hf].
    unfold generate_frames_turn. rewrite Hf. by destruct encode.
  - intros Hzero k encode. by rewrite Hz.
Qed.

(** ** The capture handle *)

Lemma frame_processing_balanced cfg st strftime o frame s :
  handle_balanced s ->
  handle_balanced (result_state (frame_processing cfg st strftime o frame s)).
Proof.
  intros H.
  destruct (frame_processing_fields cfg st strftime o frame s)
    as (s' & w & Hr & _ & Hcap & _ & _ & Ho & Hrel & _).
  assert (Hs : result_state (frame_processing cfg st strftime o frame s) = s').
  { destruct Hr as [-> | [e ->]]; done. }
  rewrite Hs. unfold handle_balanced in *. by rewrite Hcap, Ho, Hrel.
Qed.

Lemma frame_capture_balanced cfg st strftime o s :
  handle_balanced s ->
  handle_balanced (result_state (frame_capture cfg st strftime o s)).
Proof.
  intros H. unfold frame_capture.
  destruct (o_read o) as [e| |frame]; simpl; [done| |].
  - unfold handle_balanced, opened_count, released_count in *.
    destruct (cap s) as [c|]; simpl in *;
      rewrite ?List.filter_app, ?length_app; simpl; lia.
  - by apply frame_processing_balanced.
Qed.

Lemma loop_body_balanced cfg st strftime o s :
  handle_balanced s ->
  handle_balanced (result_state (loop_body cfg st strftime o s)).
Proof.
  intros H. unfold loop_body.
  destruct (needs_open s) eqn:Hopen; [|by apply frame_capture_balanced].
  assert (Hnone : cap s = None).
  { unfold needs_open in Hopen. unfold handle_balanced in H.
    destruct (cap s) as [c|]; [|done].
    destruct H as [Hc _]. by rewrite Hc in Hopen. }
  unfold handle_balanced in H. rewrite Hnone in H.
  destruct (o_open o); simpl.
  - unfold handle_balanced. by rewrite Hnone.
  - unfold handle_balanced, opened_count, released_count in *. simpl.
    rewrite !List.filter_app, !length_app. simpl. lia.
  - apply frame_capture_balanced.
    unfold handle_balanced, opened_count, released_count in *. simpl.
    rewrite !List.filter_app, !length_app. simpl. split; [done|lia].
Qed.

Lemma iteration_balanced cfg st strftime o s :
  handle_balanced s -> handle_balanced (iteration cfg st strftime o s).
Proof.
  intros H. apply (loop_body_balanced cfg st strftime o) in H.
  unfold iteration.
  destruct (loop_body cfg st strftime o s) as [s'|[] s']; simpl in *;
    [done| |].
  - unfold handle_balanced, opened_count, released_count in *.
    destruct (cap s') as [c|]; simpl in *;
      rewrite ?List.filter_app, ?length_app; simpl; lia.
  - unfold handle_balanced, opened_count, released_count in *. simpl.
    rewrite !List.filter_app, !length_app. simpl.
    destruct (cap s'); [split|]; lia || tauto.
Qed.

Lemma run_loop_balanced cfg st strftime os :
  forall s, handle_balanced s -> handle_balanced (run_loop cfg st strftime os s).
Proof.
  induction os as [|o os IH]; intros s H; simpl; [done|].
  assert (H0 : handle_balanced (if o_stop o then set_running false s else s)).
  { by destruct (o_stop o). }
  destruct (running _); [|done].
  by apply IH, iteration_balanced.
Qed.

(** X17.  A worker that starts with its handle accounted for never leaks
    or double-releases a capture handle: at the loop test after any turns it
    holds either no handle, with as many releases as successful opens, or
    one open handle, with exactly one successful open more than releases;
    and when [run()] has ended (stop request or keyboard interrupt) the
    cleanup has released the handle still held, so every handle opened was
    released exactly once. *)
Theorem capture_handle_released_once cfg st strftime os s :
  handle_balanced s ->
  let s' := CameraProcessor.run cfg st strftime os s in
  (running s' = true -> handle_balanced s')
  /\ (running s' = false -> opened_count s' = released_count s')
  /\ (released_count s' <= opened_count s' <= S (released_count s'))%nat.
Proof.
  intros H. simpl. unfold CameraProcessor.run.
  set (entered := set_running true (CameraProcessor.emit (Print LogStarting) s)).
  assert (He : handle_balanced entered).
  { unfold handle_balanced, opened_count, released_count in *. simpl.
    rewrite !List.filter_app, !length_app. simpl.
    destruct (cap s); [split|]; lia || tauto. }
  apply (run_loop_balanced cfg st strftime os) in He.
  destruct (running (run_loop cfg st strftime os entered)) eqn:Hrun.
  - rewrite Hrun. split; [done|]. split; [done|].
    unfold handle_balanced in He.
    destruct (cap (run_loop cfg st strftime os entered)); lia.
  - assert (Hc : running (cleanup (run_loop cfg st strftime os entered)) = false).
    { unfold cleanup.
      destruct (cap _) as [c|]; [destruct (isOpened c)|]; done. }
    rewrite Hc. split; [done|].
    assert (Heq : opened_count (cleanup (run_loop cfg st strftime os entered))
                  = released_count (cleanup (run_loop cfg st strftime os entered))).
    { unfold handle_balanced, cleanup, opened_count, released_count in *.
      destruct (cap (run_loop cfg st strftime os entered)) as [c|].
      - destruct He as [-> He]. simpl.
        rewrite !List.filter_app, !length_app. simpl. lia.
      - simpl. rewrite !List.filter_app, !length_app. simpl. lia. }
    split; [done|]. lia.
Qed.

Lemma capture_handle_released_once_witness :
  let s' := CameraProcessor.run default_config sample_settings sample_strftime
              [capture_turn 1; read_raises_turn; capture_turn 2; stop_request]
              (CameraProcessor.initial_state (PyQueue.mk 100 []) ∅) in
  running s' = false /\ opened_count s' = 2%nat /\ released_count s' = 2%nat.
Proof.
  destruct (capture_handle_released_once default_config sample_settings
              sample_strftime
              [capture_turn 1; read_raises_turn; capture_turn 2; stop_request]
              (CameraProcessor.initial_state (PyQueue.mk 100 []) ∅) eq_refl)
    as (_ & Heq & _).
  simpl. split; [reflexivity|]. split; [reflexivity|].
  rewrite <- Heq; reflexivity.
Defined.

(** ** The events a detection cycle queues *)

(** One detection: the event offered, and the effects of the save attempt. *)
Lemma process_detection_events cfg st strftime now annotated r d s :
  let s1 := CameraProcessor.process_detection cfg st strftime now annotated r d s in
  let name :=
    snapshot_name (camera_id st) (strftime "%Y%m%d_%H%M%S" now) (d_class d) in
  (queued s1 = queued s
   \/ queued s1
      = queued s
        ++ [make_detection_data st now (snapshot_ref cfg st strftime now r d) d])
  /\ CameraProcessor.effects s1
     = CameraProcessor.effects s
       ++ (if is_interesting cfg d
           then Imwrite (path_join (snapshot_dir st) name) annotated
                :: (if r then [Print (LogSnapshotError name)] else [])
           else []).
Proof.
  unfold CameraProcessor.process_detection, snapshot_step, snapshot_ref, queued.
  unfold CameraProcessor.offer, PyQueue.put_nowait.
  destruct (is_interesting cfg d); [destruct r|]; simpl;
    destruct (PyQueue.full (CameraProcessor.alert_queue s)); simpl;
    rewrite <- ?app_assoc, ?app_nil_r; auto.
Qed.

(** The detections of a cycle: every event on the queue afterwards was there
    before or stands for one of the detections, and every interesting
    detection has had its save attempt. *)
Lemma process_detections_events cfg st strftime now annotated raises ds :
  forall i s,
  let s' := process_detections cfg st strftime now annotated raises i ds s in
  (forall e, e ∈ queued s' ->
     e ∈ queued s
     \/ exists j d,
          ds !! j = Some d
          /\ e = make_detection_data st now
                   (snapshot_ref cfg st strftime now (raises (i + j)%nat) d) d)
  /\ (forall x, x ∈ CameraProcessor.effects s -> x ∈ CameraProcessor.effects s')
  /\ (forall j d,
        ds !! j = Some d -> is_interesting cfg d = true ->
        let name :=
          snapshot_name (camera_id st) (strftime "%Y%m%d_%H%M%S" now)
            (d_class d) in
        Imwrite (path_join (snapshot_dir st) name) annotated
          ∈ CameraProcessor.effects s'
        /\ (raises (i + j)%nat = true ->
            Print (LogSnapshotError name) ∈ CameraProcessor.effects s')).
Proof.
  induction ds as [|d ds IH]; intros i s; simpl.
  { split; [by left|]. split; [done|]. by intros j d Hj. }
  destruct (IH (S i)
              (CameraProcessor.process_detection cfg st strftime now annotated
                 (raises i) d s)) as (Hq & He & Hw).
  destruct (process_detection_events cfg st strftime now annotated
              (raises i) d s) as (Hq1 & He1).
  simpl in Hq1, He1. split; [|split].
  - intros e Hin. apply Hq in Hin as [Hin | (j & d' & Hj & ->)].
    + destruct Hq1 as [Hq1 | Hq1]; rewrite Hq1 in Hin; [by left|].
      apply elem_of_app in Hin as [Hin | Hin]; [by left|].
      apply list_elem_of_singleton in Hin as ->.
      right. exists 0%nat, d. by rewrite Nat.add_0_r.
    + right. exists (S j), d'. split; [done|].
      by replace (i + S j)%nat with (S i + j)%nat by lia.
  - intros x Hx. apply He. rewrite He1. apply elem_of_app. by left.
  - intros [|j] d' Hj Hint; simpl in Hj.
    + injection Hj as <-. rewrite Nat.add_0_r. rewrite Hint in He1.
      split.
      * apply He. rewrite He1. apply elem_of_app. right. left.
      * intros Hr. apply He. rewrite He1, Hr. apply elem_of_app. right.
        right. left.
    + replace (i + S j)%nat with (S i + j)%nat by lia. by apply Hw.
Qed.

(** The same for the whole detection block of a turn. *)
Lemma detection_step_events cfg st strftime o frame s :
  let r := detection_step cfg st strftime o frame s in
  exists f,
    (forall e, e ∈ queued (snd r) ->
          e ∈ queued s
          \/ exists j d,
               fst (detect (detector st) (o_yolo o) f) !! j = Some d
               /\ e = make_detection_data st (o_time o)
                        (snapshot_ref cfg st strftime (o_time o)
                           (o_imwrite_raises o j) d) d)
    /\ (forall j d,
          fst (detect (detector st) (o_yolo o) f) !! j = Some d ->
          is_interesting cfg d = true ->
          let name :=
            snapshot_name (camera_id st)
              (strftime "%Y%m%d_%H%M%S" (o_time o)) (d_class d) in
          Imwrite (path_join (snapshot_dir st) name) (fst r)
            ∈ CameraProcessor.effects (snd r)
          /\ (o_imwrite_raises o j = true ->
              Print (LogSnapshotError name) ∈ CameraProcessor.effects (snd r))).
Proof.
  unfold detection_step.
  destruct (resize_step st o frame s) as [f s1] eqn:Hres.
  assert (Hq1 : queued s1 = queued s).
  { unfold resize_step in Hres.
    destruct (enable_resizing st); [destruct (o_resize_raises o)|];
      by injection Hres as <- <-. }
  exists f.
  destruct (detect (detector st) (o_yolo o) f) as [ds annotated]. simpl.
  destruct (process_detections_events cfg st strftime (o_time o) annotated
              (o_imwrite_raises o) ds 0%nat
              (CameraProcessor.emit (RunDetection f) s1)) as (Hq & _ & Hw).
  split.
  - intros e Hin. apply Hq in Hin as [Hin|Hin]; [left|by right].
    by rewrite <- Hq1.
  - intros j d Hj Hint. by apply Hw.
Qed.

(** What the detector reports comes from a box of the model's first
    result whose class id the model names. *)
Lemma detect_elem det yolo frame d :
  d ∈ fst (detect det yolo frame) ->
  exists r rest box,
    yolo = YoloReturns (r :: rest)
    /\ box ∈ boxes r
    /\ all_class_names det !! box_cls box = Some (d_class d)
    /\ d_confidence d = box_conf box
    /\ d_bbox d = box_xyxy box
    /\ d_is_primary_threat d
       = bool_decide (d_class d ∈ primary_threat_classes det).
Proof.
  unfold detect. destruct yolo as [|[|r rest]]; simpl;
    try (by intros ?%elem_of_nil).
  destruct (boxes r) as [|b bs] eqn:Hb; [by intros ?%elem_of_nil|].
  intros Hin. apply list_elem_of_omap in Hin as (box & Hbox & Hd).
  exists r, rest, box. split; [done|]. rewrite Hb. split; [done|].
  unfold detection_of_box in Hd.
  destruct (all_class_names det !! box_cls box) as [class_name|]; [|done].
  by injection Hd as <-.
Qed.

(** X18.  How the dispatcher classifies what a worker queues.  Every event
    a detection block adds to the queue carries the worker's camera id and
    the time of the cycle, and stands for a box of the model's first result
    whose class id the model names, with that box's confidence and
    coordinates.  With the worker and the dispatcher on one configuration,
    the event is a "Threat Detected" alert exactly when its class name is in
    PRIMARY_THREAT_CLASSES, whatever the mode; a "Motion Detected (Person)"
    alert exactly when it is not, the mode is Full and the class is
    PERSON_CLASS_NAME; and no alert otherwise. *)
Theorem worker_events_classified_by_class
    cfg id dir threshold names strftime o frame s e mode :
  let st := make_settings cfg id dir threshold names in
  let s' := snd (detection_step cfg st strftime o frame s) in
  e ∈ queued s' ->
  e ∉ queued s ->
  dd_camera_id e = id
  /\ dd_timestamp e = o_time o
  /\ (exists r rest box,
        o_yolo o = YoloReturns (r :: rest)
        /\ box ∈ boxes r
        /\ names !! box_cls box = Some (dd_class e)
        /\ dd_confidence e = box_conf box
        /\ dd_bbox e = box_xyxy box)
  /\ (alert_condition cfg mode e = Some "Threat Detected"
      <-> dd_class e ∈ PRIMARY_THREAT_CLASSES cfg)
  /\ (alert_condition cfg mode e = Some "Motion Detected (Person)"
      <-> (dd_class e ∉ PRIMARY_THREAT_CLASSES cfg)
          /\ mode = true /\ dd_class e = PERSON_CLASS_NAME cfg)
  /\ (alert_condition cfg mode e = None
      <-> (dd_class e ∉ PRIMARY_THREAT_CLASSES cfg)
          /\ (mode = false \/ dd_class e <> PERSON_CLASS_NAME cfg)).
Proof.
  simpl. intros Hin Hnew.
  destruct (detection_step_events cfg (make_settings cfg id dir threshold names)
              strftime o frame s) as (f & Hq & _).
  apply Hq in Hin as [Hin | (j & d & Hj & ->)]; [done|].
  apply list_elem_of_lookup_2 in Hj.
  apply detect_elem in Hj as (r & rest & box & Hy & Hbox & Hname & Hc & Hb & Hp).
  simpl in Hname, Hp.
  split; [done|]. split; [done|]. split.
  { exists r, rest, box. done. }
  unfold alert_condition. simpl. rewrite Hp.
  destruct (bool_decide (d_class d ∈ (list_to_set (PRIMARY_THREAT_CLASSES cfg)
                                        : gset string))) eqn:Hdec.
  - apply bool_decide_eq_true in Hdec. apply elem_of_list_to_set in Hdec.
    clear - Hdec. intuition congruence.
  - apply bool_decide_eq_false in Hdec. rewrite elem_of_list_to_set in Hdec.
    clear - Hdec.
    destruct mode; simpl;
      [destruct (String.eqb_spec (d_class d) (PERSON_CLASS_NAME cfg))|];
      intuition congruence.
Qed.

Lemma worker_events_classified_by_class_witness :
  let e :=
    make_detection_data sample_settings 100%float
      (Some (snapshot_name 0 "%Y%m%d_%H%M%S" "person")) sample_person in
  alert_condition default_config true e = Some "Motion Detected (Person)"
  /\ alert_condition default_config false e = None.
Proof.
  simpl.
  assert (Hin : forall e,
            e = make_detection_data sample_settings 100%float
                  (Some (snapshot_name 0 "%Y%m%d_%H%M%S" "person")) sample_person ->
            e ∈ queued (snd (detection_step default_config
                               (make_settings default_config 0 "static/snapshots"
                                  0.5%float sample_names)
                               sample_strftime (capture_turn 3)
                               (Captured 3) started_worker))).
  { intros e ->. apply list_elem_of_In. vm_compute. left. reflexivity. }
  assert (Hnew : forall e : DetectionData, e ∉ queued started_worker).
  { intros e H. by apply elem_of_nil in H. }
  assert (Hno : "person" ∉ PRIMARY_THREAT_CLASSES default_config).
  { intros H. apply list_elem_of_In in H. simpl in H. intuition discriminate. }
  destruct (worker_events_classified_by_class default_config 0 "static/snapshots"
              0.5%float sample_names sample_strftime (capture_turn 3)
              (Captured 3) started_worker _ true (Hin _ eq_refl) (Hnew _))
    as (_ & _ & _ & _ & Hfull & _).
  destruct (worker_events_classified_by_class default_config 0 "static/snapshots"
              0.5%float sample_names sample_strftime (capture_turn 3)
              (Captured 3) started_worker _ false (Hin _ eq_refl) (Hnew _))
    as (_ & _ & _ & _ & _ & Hstd).
  split.
  - apply Hfull. split; [exact Hno|]. split; reflexivity.
  - apply Hstd. split; [exact Hno|]. left. reflexivity.
Defined.

(** X19.  Every alert has had its snapshot attempt.  An event that a
    detection block adds to the queue and that the dispatcher treats as an
    alert, in either mode, is one the worker found interesting: the block
    has tried to write the frame it hands to the stream to the file named
    after the camera, the second of the cycle and the class.  The event, and
    the alert record built from it, refer to that file, or to none, and to
    none only when the write raised and the error was printed. *)
Theorem alert_event_snapshot_reference cfg st strftime o frame s e mode :
  let r := detection_step cfg st strftime o frame s in
  let name :=
    snapshot_name (camera_id st) (strftime "%Y%m%d_%H%M%S" (o_time o))
      (dd_class e) in
  e ∈ queued (snd r) ->
  e ∉ queued s ->
  is_Some (alert_condition cfg mode e) ->
  Imwrite (path_join (snapshot_dir st) name) (fst r)
    ∈ CameraProcessor.effects (snd r)
  /\ (dd_snapshot_file e = Some name
      \/ dd_snapshot_file e = None
         /\ Print (LogSnapshotError name) ∈ CameraProcessor.effects (snd r))
  /\ (forall alert_type timestamp_str,
        make_alert_data alert_type timestamp_str e !! "snapshot_file"
        = Some (match dd_snapshot_file e with
                | Some _ => PStr name
                | None => PNone
                end)).
Proof.
  simpl. intros Hin Hnew Halert.
  destruct (detection_step_events cfg st strftime o frame s) as (f & Hq & Hw).
  simpl in Hq, Hw.
  apply Hq in Hin as [Hin | (j & d & Hj & ->)]; [done|].
  assert (Hint : is_interesting cfg d = true).
  { unfold alert_condition in Halert. unfold is_interesting. simpl in Halert.
    destruct (d_is_primary_threat d); [done|]. simpl.
    destruct mode; simpl in Halert.
    - destruct (String.eqb (d_class d) (PERSON_CLASS_NAME cfg)); [done|].
      by destruct Halert.
    - by destruct Halert. }
  destruct (Hw j d Hj Hint) as [Hwrite Hraise]. simpl.
  split; [done|].
  unfold snapshot_ref. rewrite Hint. simpl.
  destruct (o_imwrite_raises o j); simpl.
  - split; [right; split; [done|by apply Hraise]|].
    intros alert_type timestamp_str. unfold make_alert_data.
    apply (lookup_insert_eq (M := gmap string)).
  - split; [by left|].
    intros alert_type timestamp_str. unfold make_alert_data.
    apply (lookup_insert_eq (M := gmap string)).
Qed.

Lemma alert_event_snapshot_reference_witness :
  let e :=
    make_detection_data sample_settings 100%float
      (Some (snapshot_name 0 "%Y%m%d_%H%M%S" "person")) sample_person in
  let r := detection_step default_config sample_settings sample_strftime
             (capture_turn 3) (Captured 3) started_worker in
  Imwrite "static/snapshots/cam0_%Y%m%d_%H%M%S_person.jpg" (Plotted (Captured 3))
    ∈ CameraProcessor.effects (snd r)
  /\ make_alert_data "Motion Detected (Person)" "2024-01-01 00:00:00" e
       !! "snapshot_file"
     = Some (PStr "cam0_%Y%m%d_%H%M%S_person.jpg").
Proof.
  simpl.
  assert (Hin :
            make_detection_data sample_settings 100%float
              (Some (snapshot_name 0 "%Y%m%d_%H%M%S" "person")) sample_person
            ∈ queued (snd (detection_step default_config sample_settings
                             sample_strftime (capture_turn 3) (Captured 3)
                             started_worker))).
  { apply list_elem_of_In. vm_compute. left. reflexivity. }
  assert (Hnew : forall e : DetectionData, e ∉ queued started_worker).
  { intros e H. by apply elem_of_nil in H. }
  assert (Halert :
            is_Some (alert_condition default_config true
                       (make_detection_data sample_settings 100%float
                          (Some (snapshot_name 0 "%Y%m%d_%H%M%S" "person"))
                          sample_person))).
  { by eexists. }
  destruct (alert_event_snapshot_reference default_config sample_settings
              sample_strftime (capture_turn 3) (Captured 3) started_worker
              _ true Hin (Hnew _) Halert) as (Hw & _ & Hrec).
  split; [exact Hw|].
  exact (Hrec "Motion Detected (Person)" "2024-01-01 00:00:00").
Defined.

(** ** Stopping a worker *)

(** X20.  [stop()] takes effect at the next loop test: once it has been
    called the worker takes no further turn, whatever the later turns would
    have been; [run()] ends with the cleanup, which releases the handle if
    an open one is held and prints the stop line, and leaves the queue, the
    frame table and the capture count as the last turn left them.  A
    [stop()] that comes before [run()] has set the flag is lost: [run()]
    sets the flag again and goes on as if it had not been called. *)
Theorem stop_takes_effect_at_loop_test cfg st strftime os1 o os2 s :
  o_stop o = true ->
  let entered :=
    set_running true (CameraProcessor.emit (Print LogStarting) s) in
  let before := run_loop cfg st strftime os1 entered in
  let s' := CameraProcessor.run cfg st strftime (os1 ++ o :: os2) s in
  run_loop cfg st strftime (o :: os2) before = snd (stop st before)
  /\ run_loop cfg st strftime os2 (snd (stop st before)) = snd (stop st before)
  /\ running s' = false
  /\ CameraProcessor.effects s'
     = CameraProcessor.effects before
       ++ match cap before with
          | Some c => if isOpened c then [Release] else []
          | None => []
          end
       ++ [Print LogStopped]
  /\ CameraProcessor.alert_queue s' = CameraProcessor.alert_queue before
  /\ frame_dict s' = frame_dict before
  /\ frame_count s' = frame_count before
  /\ (forall os,
        CameraProcessor.run cfg st strftime os (snd (stop st s))
        = CameraProcessor.run cfg st strftime os s).
Proof.
  intros Ho. simpl.
  set (entered := set_running true (CameraProcessor.emit (Print LogStarting) s)).
  set (before := run_loop cfg st strftime os1 entered).
  assert (Hone : run_loop cfg st strftime (o :: os2) before
                 = set_running false before).
  { cbn [run_loop]. by rewrite Ho. }
  split; [done|]. split; [by apply run_loop_stopped|].
  unfold CameraProcessor.run. fold entered. rewrite run_loop_app.
  fold before. rewrite Hone. cbn [running set_running].
  unfold cleanup. cbn [cap set_running].
  repeat split;
    try (destruct (cap before) as [c|]; [destruct (isOpened c)|];
         simpl; by rewrite <- ?app_assoc).
Qed.

Lemma stop_takes_effect_at_loop_test_witness :
  let s' := CameraProcessor.run default_config sample_settings sample_strftime
              ([capture_turn 1] ++ stop_request :: [capture_turn 2])
              (CameraProcessor.initial_state (PyQueue.mk 100 []) ∅) in
  running s' = false
  /\ frame_count s' = 1
  /\ frame_dict s' !! 0 = Some (Captured 1).
Proof.
  destruct (stop_takes_effect_at_loop_test default_config sample_settings
              sample_strftime [capture_turn 1] stop_request [capture_turn 2]
              (CameraProcessor.initial_state (PyQueue.mk 100 []) ∅) eq_refl)
    as (_ & _ & Hrun & _ & _ & Hd & Hc & _).
  cbv zeta. split; [exact Hrun|]. split.
  - rewrite Hc. reflexivity.
  - rewrite Hd. reflexivity.
Defined.

(** ** A worker only appends to the queue *)

Lemma appends_own_same id now s s' :
  CameraProcessor.alert_queue s' = CameraProcessor.alert_queue s ->
  appends_own id now s s'.
Proof.
  intros H. unfold appends_own, queued. rewrite H. split; [done|].
  exists []. by rewrite app_nil_r.
Qed.

Lemma appends_own_trans id now s1 s2 s3 :
  appends_own id now s1 s2 -> appends_own id now s2 s3 ->
  appends_own id now s1 s3.
Proof.
  intros [Hm1 (evs1 & Hq1 & Hf1)] [Hm2 (evs2 & Hq2 & Hf2)].
  split; [congruence|]. exists (evs1 ++ evs2).
  rewrite Hq2, Hq1, app_assoc. split; [done|]. by apply Forall_app.
Qed.

Lemma process_detection_appends cfg st strftime now annotated r d s :
  appends_own (camera_id st) now s
    (CameraProcessor.process_detection cfg st strftime now annotated r d s).
Proof.
  unfold CameraProcessor.process_detection, snapshot_step, appends_own, queued.
  unfold CameraProcessor.offer, PyQueue.put_nowait.
  destruct (is_interesting cfg d); [destruct r|]; simpl;
    destruct (PyQueue.full (CameraProcessor.alert_queue s)); simpl;
    (split; [done|]);
    try (exists []; by rewrite app_nil_r);
    (eexists [_]; split; [reflexivity|]; by repeat constructor).
Qed.

Lemma process_detections_appends cfg st strftime now annotated raises ds :
  forall i s,
  appends_own (camera_id st) now s
    (process_detections cfg st strftime now annotated raises i ds s).
Proof.
  induction ds as [|d ds IH]; intros i s; simpl.
  - by apply appends_own_same.
  - eapply appends_own_trans; [apply process_detection_appends|apply IH].
Qed.

Lemma frame_processing_appends cfg st strftime o frame s :
  appends_own (camera_id st) (o_time o) s
    (result_state (frame_processing cfg st strftime o frame s)).
Proof.
  unfold frame_processing.
  destruct (run_detection_this_frame st _) as [[]|]; simpl;
    [|destruct (o_copy_raises o); by apply appends_own_same
     |by apply appends_own_same].
  destruct (o_copy_raises o); [by apply appends_own_same|].
  unfold detection_step, resize_step.
  set (s0 := set_frame_count (frame_count s + 1) s).
  set (x := if enable_resizing st
            then if o_resize_raises o
                 then (frame, CameraProcessor.emit (Print LogResizeError) s0)
                 else (Resized (detect_w st) (detect_h st) frame, s0)
            else (frame, s0)).
  assert (Hx : CameraProcessor.alert_queue x.2 = CameraProcessor.alert_queue s).
  { subst x. by destruct (enable_resizing st); [destruct (o_resize_raises o)|]. }
  destruct x as [f0 s1]. simpl in Hx.
  destruct (detect (detector st) (o_yolo o) f0) as [detections annotated].
  simpl.
  pose proof (process_detections_appends cfg st strftime (o_time o) annotated
                (o_imwrite_raises o) detections 0%nat
                (CameraProcessor.emit (RunDetection f0) s1)) as Ha.
  eapply appends_own_trans;
    [eapply appends_own_trans; [|exact Ha]|]; by apply appends_own_same.
Qed.

Lemma iteration_appends cfg st strftime o s :
  appends_own (camera_id st) (o_time o) s (iteration cfg st strftime o s).
Proof.
  assert (Hbody : appends_own (camera_id st) (o_time o) s
                    (result_state (loop_body cfg st strftime o s))).
  { unfold loop_body, frame_capture.
    destruct (needs_open s).
    - destruct (o_open o); simpl; try by apply appends_own_same.
      destruct (o_read o) as [e| |frame]; simpl; try by apply appends_own_same.
      eapply appends_own_trans; [|apply frame_processing_appends].
      by apply appends_own_same.
    - destruct (o_read o) as [e| |frame]; simpl.
      + by apply appends_own_same.
      + apply appends_own_same. by destruct (cap s).
      + apply frame_processing_appends. }
  unfold iteration.
  destruct (loop_body cfg st strftime o s) as [s'|[] s']; simpl in *;
    [done| |];
    (eapply appends_own_trans; [exact Hbody|]); apply appends_own_same;
    [by destruct (cap s')|done].
Qed.

Lemma run_loop_appends cfg st strftime os :
  forall s,
  PyQueue.maxsize (CameraProcessor.alert_queue (run_loop cfg st strftime os s))
  = PyQueue.maxsize (CameraProcessor.alert_queue s)
  /\ exists evs,
       queued (run_loop cfg st strftime os s) = queued s ++ evs
       /\ Forall (fun e => dd_camera_id e = camera_id st
                           /\ exists o, o ∈ os /\ dd_timestamp e = o_time o)
            evs.
Proof.
  induction os as [|o os IH]; intros s; simpl.
  { split; [done|]. exists []. by rewrite app_nil_r. }
  set (s0 := if o_stop o then set_running false s else s).
  assert (H0 : CameraProcessor.alert_queue s0 = CameraProcessor.alert_queue s).
  { subst s0. by destruct (o_stop o). }
  destruct (running s0).
  2:{ rewrite H0. split; [done|]. exists []. unfold queued.
      by rewrite H0, app_nil_r. }
  destruct (IH (iteration cfg st strftime o s0)) as [Hm (evs2 & Hq2 & Hf2)].
  destruct (iteration_appends cfg st strftime o s0) as [Hm1 (evs1 & Hq1 & Hf1)].
  split; [by rewrite Hm, Hm1, H0|]. exists (evs1 ++ evs2).
  assert (Hq0 : queued s0 = queued s) by (unfold queued; by rewrite H0).
  rewrite Hq2, Hq1, Hq0, app_assoc. split; [done|]. apply Forall_app. split.
  - eapply Forall_impl; [exact Hf1|]. intros e [Hid Ht]. split; [done|].
    exists o. split; [left|done].
  - eapply Forall_impl; [exact Hf2|]. intros e [Hid (o' & Ho' & Ht)].
    split; [done|]. exists o'. split; [by right|done].
Qed.

(** X21.  A worker only ever appends to the alert queue: after [run()] has
    taken any turns, the events that were queued are still there, in their
    order and at the front, the capacity is the same, and every event
    behind them carries this worker's camera id and the time of one of its
    turns.  A worker never removes, reorders or rewrites an event, its own
    or another camera's. *)
Theorem worker_only_appends_own_events cfg st strftime os s :
  let s' := CameraProcessor.run cfg st strftime os s in
  PyQueue.maxsize (CameraProcessor.alert_queue s')
  = PyQueue.maxsize (CameraProcessor.alert_queue s)
  /\ exists evs,
       queued s' = queued s ++ evs
       /\ Forall (fun e => dd_camera_id e = camera_id st
                           /\ exists o, o ∈ os /\ dd_timestamp e = o_time o)
            evs.
Proof.
  simpl. unfold CameraProcessor.run.
  set (entered := set_running true (CameraProcessor.emit (Print LogStarting) s)).
  destruct (run_loop_appends cfg st strftime os entered) as [Hm (evs & Hq & Hf)].
  assert (Hc : CameraProcessor.alert_queue
                 (if running (run_loop cfg st strftime os entered)
                  then run_loop cfg st strftime os entered
                  else cleanup (run_loop cfg st strftime os entered))
               = CameraProcessor.alert_queue (run_loop cfg st strftime os entered)).
  { destruct (running _); [done|].
    by destruct (cleanup_frames (run_loop cfg st strftime os entered))
      as (_ & _ & ->). }
  unfold queued in *. rewrite Hc. split; [done|]. by exists evs.
Qed.

(** X22.  From the camera to the dispatcher.  A turn of a worker on the
    shared queue leaves the events already waiting where they are and puts
    its own behind them, each with its camera id and the time of the cycle;
    the module's other state is untouched.  As many dispatcher turns as
    events are then waiting process exactly the waiting events followed by
    the new ones, in that order, and leave the queue empty. *)
Theorem camera_turn_feeds_dispatcher cfg st strftime o sys :
  let sys' := System.camera_turn cfg st strftime o sys in
  let q := Main.alert_queue (System.main sys) in
  exists evs,
    PyQueue.items (Main.alert_queue (System.main sys')) = PyQueue.items q ++ evs
    /\ Forall (fun e => dd_camera_id e = camera_id st
                        /\ dd_timestamp e = o_time o) evs
    /\ System.main sys'
       = Main.set_alert_queue (Main.alert_queue (System.main sys'))
           (System.main sys)
    /\ Main.run cfg strftime
         (replicate (length (PyQueue.items q ++ evs)) DispatcherTurn)
         (System.main sys')
       = dispatch_all cfg strftime (PyQueue.items q ++ evs)
           (Main.set_alert_queue (PyQueue.mk (PyQueue.maxsize q) [])
              (System.main sys)).
Proof.
  simpl. unfold System.camera_turn. simpl.
  set (w := CameraProcessor.set_alert_queue (Main.alert_queue (System.main sys))
              (System.worker sys)).
  destruct (iteration_appends cfg st strftime o w) as [Hm (evs & Hq & Hf)].
  unfold queued in Hq. simpl in Hm, Hq.
  exists evs. split; [done|]. split; [done|]. split; [done|].
  rewrite <- Hq.
  rewrite (dispatcher_turns_fifo cfg strftime
             (PyQueue.items (CameraProcessor.alert_queue
                               (iteration cfg st strftime o w)))); [|done].
  simpl. by rewrite Hm.
Qed.

(** X23.  Alerts exist only for classes the model names.  The class of
    every event a detection block queues is one of the model's class names.
    So with a model that does not name PERSON_CLASS_NAME, the case the
    detector's constructor warns about, Full mode changes nothing: the
    dispatcher classifies every event of that worker as it does in Standard
    mode.  And with a model that names no primary threat class, no event of
    that worker is an alert in Standard mode. *)
Theorem alerts_only_for_named_classes
    cfg id dir threshold names strftime o frame s e :
  let st := make_settings cfg id dir threshold names in
  e ∈ queued (snd (detection_step cfg st strftime o frame s)) ->
  e ∉ queued s ->
  (exists class_id, names !! class_id = Some (dd_class e))
  /\ ((forall class_id, names !! class_id <> Some (PERSON_CLASS_NAME cfg)) ->
      forall mode, alert_condition cfg mode e = alert_condition cfg false e)
  /\ ((forall class_id c,
         names !! class_id = Some c -> c ∉ PRIMARY_THREAT_CLASSES cfg) ->
      alert_condition cfg false e = None).
Proof.
  simpl. intros Hin Hnew.
  destruct (detection_step_events cfg (make_settings cfg id dir threshold names)
              strftime o frame s) as (f & Hq & _).
  apply Hq in Hin as [Hin | (j & d & Hj & ->)]; [done|].
  apply list_elem_of_lookup_2 in Hj.
  apply detect_elem in Hj as (r & rest & box & _ & _ & Hname & _ & _ & Hp).
  simpl in Hname, Hp.
  split; [by exists (box_cls box)|]. split.
  - intros Hperson mode. unfold alert_condition. simpl.
    destruct (d_is_primary_threat d); [done|].
    destruct (String.eqb_spec (d_class d) (PERSON_CLASS_NAME cfg)) as [Heq|Hne].
    + exfalso. apply (Hperson (box_cls box)). by rewrite Hname, Heq.
    + by rewrite andb_false_r.
  - intros Hnone. unfold alert_condition. simpl. rewrite Hp.
    rewrite bool_decide_eq_false_2; [done|].
    rewrite elem_of_list_to_set. by apply (Hnone (box_cls box)).
Qed.

Lemma alerts_only_for_named_classes_witness :
  let e :=
    make_detection_data
      (make_settings default_config 0 "static/snapshots" 0.5%float
         knife_only_names)
      100%float (Some (snapshot_name 0 "%Y%m%d_%H%M%S" "knife"))
      {| d_class := "knife"; d_confidence := 0.875%float;
         d_is_primary_threat := true;
         d_bbox := [10%float; 20%float; 110%float; 220%float] |} in
  alert_condition default_config true e = alert_condition default_config false e.
Proof.
  cbv zeta.
  assert (Hin :
            make_detection_data
              (make_settings default_config 0 "static/snapshots" 0.5%float
                 knife_only_names)
              100%float (Some (snapshot_name 0 "%Y%m%d_%H%M%S" "knife"))
              {| d_class := "knife"; d_confidence := 0.875%float;
                 d_is_primary_threat := true;
                 d_bbox := [10%float; 20%float; 110%float; 220%float] |}
            ∈ queued (snd (detection_step default_config
                             (make_settings default_config 0 "static/snapshots"
                                0.5%float knife_only_names)
                             sample_strftime knife_turn (Captured 3)
                             started_worker))).
  { apply list_elem_of_In. vm_compute. left. reflexivity. }
  assert (Hnew : forall e : DetectionData, e ∉ queued started_worker).
  { intros e H. by apply elem_of_nil in H. }
  destruct (alerts_only_for_named_classes default_config 0 "static/snapshots"
              0.5%float knife_only_names sample_strftime knife_turn (Captured 3)
              started_worker _ Hin (Hnew _)) as (_ & Hmode & _).
  apply Hmode. intros class_id. unfold knife_only_names.
  destruct (decide (class_id = 43)) as [->|Hne].
  - by rewrite lookup_insert_eq.
  - by rewrite lookup_insert_ne, lookup_empty.
Defined.

(** ** The email dict over any interleaving *)

(** What one dequeued event does to the email dict. *)
Lemma email_map_process_detection cfg strftime d s :
  last_email_sent_time (Main.process_detection cfg strftime d s)
  = if fires cfg d s
       && PrimFloat.leb (MAIL_ALERT_INTERVAL_SECONDS cfg)
            (PrimFloat.sub (dd_timestamp d)
               (get_or_zero (last_email_sent_time s)
                  (dd_camera_id d, dd_class d)))
    then <[(dd_camera_id d, dd_class d) := dd_timestamp d]>
           (last_email_sent_time s)
    else last_email_sent_time s.
Proof.
  unfold fires.
  destruct (alert_condition cfg (is_full_security_mode s) d) as [ty|] eqn:Hty.
  - destruct (PrimFloat.ltb _ _) eqn:Hlt; simpl.
    + by rewrite (process_detection_throttled _ _ _ _ _ Hty Hlt).
    + rewrite (process_detection_fires _ _ _ _ _ Hty Hlt). simpl.
      by rewrite email_step_map, email_map_mqtt_publish_step.
  - by rewrite (process_detection_no_alert _ _ _ _ Hty).
Qed.

(** The delivery threads one dequeued event starts for the key of [d1]. *)
Lemma starts_email_for_process_detection cfg strftime d1 d s :
  count_effects (starts_email_for d1) (Main.process_detection cfg strftime d s)
  = (count_effects (starts_email_for d1) s
     + if fires cfg d s
          && PrimFloat.leb (MAIL_ALERT_INTERVAL_SECONDS cfg)
               (PrimFloat.sub (dd_timestamp d)
                  (get_or_zero (last_email_sent_time s)
                     (dd_camera_id d, dd_class d)))
          && same_key d1 d
       then 1 else 0)%nat.
Proof.
  unfold fires.
  destruct (alert_condition cfg (is_full_security_mode s) d) as [ty|] eqn:Hty.
  - destruct (PrimFloat.ltb _ _) eqn:Hlt; simpl.
    + rewrite (process_detection_throttled _ _ _ _ _ Hty Hlt).
      rewrite count_effects_emit. simpl. lia.
    + rewrite (process_detection_fires _ _ _ _ _ Hty Hlt).
      rewrite count_effects_emit, count_effects_email_step. simpl.
      rewrite email_map_mqtt_publish_step. simpl.
      rewrite count_effects_mqtt_publish_step. simpl.
      assert (Hrec : count_effects (starts_email_for d1)
                (set_alert_history
                   (py_slice_to (MAX_ALERT_HISTORY cfg)
                      (make_alert_data ty
                         (strftime "%Y-%m-%d %H:%M:%S" (dd_timestamp d)) d
                       :: alert_history s))
                   (set_last_alert_time_local
                      (<[(dd_camera_id d, dd_class d) := dd_timestamp d]>
                         (last_alert_time_local s))
                      (Main.emit
                         (Main.Print
                            (LogProcessingAlert ty (dd_class d)
                               (dd_camera_id d) (dd_confidence d))) s)))
              = count_effects (starts_email_for d1) s).
      { unfold count_effects. simpl. rewrite List.filter_app. simpl.
        by rewrite app_nil_r. }
      rewrite Hrec.
      assert (Hkey : starts_email_for d1
                (StartEmailThread
                   (make_alert_data ty
                      (strftime "%Y-%m-%d %H:%M:%S" (dd_timestamp d)) d))
              = same_key d1 d).
      { unfold starts_email_for, make_alert_data, same_key.
        by simplify_map_eq. }
      unfold starts_email_for in Hkey. rewrite Hkey.
      destruct (mqtt_client s) as [c|];
        [destruct (is_connected c); [destruct (publish_raises c)|]|];
        simpl; destruct (PrimFloat.leb _ _); destruct (same_key d1 d);
        simpl; lia.
  - rewrite (process_detection_no_alert _ _ _ _ Hty).
    rewrite count_effects_emit. simpl. lia.
Qed.

(** A dequeued event that is of another key than [d1], or inside the email
    interval after it, leaves the entry of [d1] in the email dict and starts
    no delivery thread for its key. *)
Lemma suppressed_process_detection cfg strftime d1 e s :
  last_email_sent_time s !! (dd_camera_id d1, dd_class d1)
    = Some (dd_timestamp d1) ->
  email_suppressed cfg d1 e = true ->
  last_email_sent_time (Main.process_detection cfg strftime e s)
    !! (dd_camera_id d1, dd_class d1) = Some (dd_timestamp d1)
  /\ count_effects (starts_email_for d1) (Main.process_detection cfg strftime e s)
     = count_effects (starts_email_for d1) s.
Proof.
  intros Hentry Hsup. unfold email_suppressed in Hsup.
  rewrite starts_email_for_process_detection.
  destruct (same_key d1 e) eqn:Hkey; simpl in Hsup.
  - unfold same_key in Hkey. apply andb_true_iff in Hkey as [Hcam Hcls].
    apply Z.eqb_eq in Hcam. apply String.eqb_eq in Hcls.
    apply negb_true_iff in Hsup.
    rewrite email_map_process_detection.
    rewrite <- Hcam, <- Hcls. unfold get_or_zero. rewrite Hentry. simpl.
    rewrite Hsup, !andb_false_r. split; [done|simpl; lia].
  - rewrite andb_false_r. split; [|simpl; lia].
    destruct (process_detection_other_key cfg strftime e s
                (dd_camera_id d1, dd_class d1)) as [_ ->]; [|done].
    intros [= Hcam Hcls]. unfold same_key in Hkey.
    by rewrite Hcam, Hcls, Z.eqb_refl, String.eqb_refl in Hkey.
Qed.

(** Over any interleaving in which every event the dispatcher handles is of
    another key than [d1] or inside the email interval after it, the entry
    of [d1] stays and no delivery thread is started for its key. *)
Lemma suppressed_run cfg strftime d1 acts :
  forall s,
  last_email_sent_time s !! (dd_camera_id d1, dd_class d1)
    = Some (dd_timestamp d1) ->
  forallb (email_suppressed cfg d1) (handled acts (Main.alert_queue s)) = true ->
  last_email_sent_time (Main.run cfg strftime acts s)
    !! (dd_camera_id d1, dd_class d1) = Some (dd_timestamp d1)
  /\ count_effects (starts_email_for d1) (Main.run cfg strftime acts s)
     = count_effects (starts_email_for d1) s.
Proof.
  unfold Main.run.
  induction acts as [|a acts IH]; intros s Hentry Hall; [done|].
  cbn [foldl]. destruct a; cbn [handled Main.step] in *.
  - unfold alert_processor_iteration.
    destruct (PyQueue.get (Main.alert_queue s)) as [[e q]|] eqn:Hget.
    + cbn [forallb] in Hall. apply andb_true_iff in Hall as [He Hrest].
      rewrite process_detection_set_alert_queue.
      destruct (suppressed_process_detection cfg strftime d1 e s Hentry He)
        as [Hentry' Hcount'].
      destruct (IH (Main.set_alert_queue q
                      (Main.process_detection cfg strftime e s)))
        as [IH1 IH2]; [exact Hentry'|exact Hrest|].
      split; [exact IH1|]. rewrite IH2. exact Hcount'.
    + by apply IH.
  - destruct (IH (Main.set_alert_queue
                    (Main.offer detection_data (Main.alert_queue s)) s))
      as [IH1 IH2]; [exact Hentry|exact Hall|]. by split.
  - destruct (IH (set_is_full_security_mode enable s)) as [IH1 IH2];
      [exact Hentry|exact Hall|]. by split.
  - destruct (IH (set_alert_recipient_email r s)) as [IH1 IH2];
      [exact Hentry|exact Hall|]. by split.
  - destruct (IH (set_mqtt_client c s)) as [IH1 IH2];
      [exact Hentry|exact Hall|]. by split.
  - destruct (send_alert_email_spec cfg smtp alert_data s)
      as (_ & _ & _ & _ & Hq & _ & Hmap & _).
    cbv zeta in Hq, Hmap.
    destruct (IH (fst (send_alert_email cfg smtp alert_data s))) as [IH1 IH2].
    + by rewrite Hmap.
    + by rewrite Hq.
    + split; [exact IH1|]. rewrite IH2.
      apply count_effects_send_alert_email; done.
Qed.

(** Claim C10.  When an event passes the email-throttle test, the email
    dict's last-fired time of its key is the event's timestamp once the
    dispatcher is done with it, and the start of the delivery thread is the
    last thing before [task_done()].  The entry is never rolled back: over
    any interleaving of dispatcher turns, camera puts, mode and recipient
    changes and delivery threads, whatever their outcome, in which every
    event of the same key that the dispatcher handles lies inside the email
    interval after it, the entry stays the event's timestamp and no delivery
    thread is started for the key; events of other keys may be handled and
    may fire in between.  A delivery thread that sends nothing (mail
    disabled, no recipient, or an SMTP failure before the message is handed
    over) leaves the dict alone like any other. *)
Theorem email_throttle_update_is_final cfg strftime d1 s :
  fires cfg d1 s = true ->
  let key := (dd_camera_id d1, dd_class d1) in
  PrimFloat.leb (MAIL_ALERT_INTERVAL_SECONDS cfg)
    (PrimFloat.sub (dd_timestamp d1) (get_or_zero (last_email_sent_time s) key))
    = true ->
  let s1 := Main.process_detection cfg strftime d1 s in
  last_email_sent_time s1 = <[key := dd_timestamp d1]> (last_email_sent_time s)
  /\ (exists before,
        Main.effects s1
          = before ++ [StartEmailThread (record_of cfg strftime d1 s); TaskDone]
        /\ List.filter is_smtp_send before
           = List.filter is_smtp_send (Main.effects s))
  /\ (forall acts,
        forallb (email_suppressed cfg d1) (handled acts (Main.alert_queue s1))
          = true ->
        let s2 := Main.run cfg strftime acts s1 in
        last_email_sent_time s2 !! key = Some (dd_timestamp d1)
        /\ count_effects (starts_email_for d1) s2
           = count_effects (starts_email_for d1) s1)
  /\ (forall acts d2,
        forallb (email_suppressed cfg d1) (handled acts (Main.alert_queue s1))
          = true ->
        dd_camera_id d2 = dd_camera_id d1 ->
        dd_class d2 = dd_class d1 ->
        PrimFloat.leb (MAIL_ALERT_INTERVAL_SECONDS cfg)
          (PrimFloat.sub (dd_timestamp d2) (dd_timestamp d1)) = false ->
        let s2 := Main.run cfg strftime acts s1 in
        emails_started (Main.process_detection cfg strftime d2 s2)
          = emails_started s2)
  /\ (forall smtp a x,
        let r := send_alert_email cfg smtp a x in
        last_email_sent_time (fst r) = last_email_sent_time x
        /\ (MAIL_ENABLED cfg = false \/ alert_recipient_email x = None
            \/ message_handed_over smtp = false ->
            snd r <> Some true
            /\ List.filter is_smtp_send (Main.effects (fst r))
               = List.filter is_smtp_send (Main.effects x))).
Proof.
  intros Hf key Hle s1.
  assert (Hmap : last_email_sent_time s1
                 = <[key := dd_timestamp d1]> (last_email_sent_time s)).
  { subst s1. rewrite email_map_process_detection. fold key.
    by rewrite Hf, Hle. }
  assert (Hentry : last_email_sent_time s1 !! key = Some (dd_timestamp d1)).
  { rewrite Hmap. apply lookup_insert_eq. }
  split; [exact Hmap|]. split; [|split; [|split]].
  - subst s1. unfold fires, record_of in *.
    destruct (alert_condition cfg (is_full_security_mode s) d1) as [ty|] eqn:Hty;
      [|done].
    apply negb_true_iff in Hf.
    rewrite (process_detection_fires _ _ _ _ _ Hty Hf). simpl.
    rewrite email_step_pass
      by (rewrite email_map_mqtt_publish_step; simpl; exact Hle).
    simpl. eexists. split.
    + rewrite <- app_assoc. simpl. reflexivity.
    + unfold mqtt_publish_step. simpl.
      repeat case_match; simpl; rewrite ?List.filter_app; simpl;
        rewrite ?List.filter_app; simpl; by rewrite ?app_nil_r.
  - intros acts Hacts. cbv zeta.
    exact (suppressed_run cfg strftime d1 acts s1 Hentry Hacts).
  - intros acts d2 Hacts Hcam Hcls Hle2 s2.
    destruct (suppressed_run cfg strftime d1 acts s1 Hentry Hacts) as [He2 _].
    rewrite emails_started_process_detection.
    assert (Hlast : get_or_zero (last_email_sent_time s2)
                      (dd_camera_id d2, dd_class d2) = dd_timestamp d1).
    { subst s2. rewrite Hcam, Hcls. unfold get_or_zero. by rewrite He2. }
    rewrite Hlast, Hle2, andb_false_r. by rewrite app_nil_r.
  - intros smtp a x.
    destruct (send_alert_email_spec cfg smtp a x)
      as (Htrue & _ & Hsend & _ & _ & _ & Hm & _).
    cbv zeta in *. split; [exact Hm|].
    intros Hno.
    assert (Hoff : mail_ready cfg x && message_formats a
                   && message_handed_over smtp = false).
    { unfold mail_ready. destruct Hno as [-> | [-> | ->]]; simpl; [done| |].
      - by rewrite andb_false_r.
      - by rewrite andb_false_r. }
    split.
    + intros Hr. apply Htrue in Hr as (Hready & Hfmt & ->).
      by rewrite Hready, Hfmt in Hoff.
    + by rewrite Hsend, Hoff, app_nil_r.
Qed.

Lemma email_throttle_update_is_final_witness :
  let d1 := knife_on 0 100%float in
  let a := record_of mail_config sample_strftime d1 (Main.initial_state None) in
  let s1 := Main.process_detection mail_config sample_strftime d1
              (Main.initial_state None) in
  let acts :=
    [SetRecipient (Some "guard@example.org");
     EmailThreadRuns SmtpAuthenticationError a;
     CameraPut (knife_on 0 101%float);
     CameraPut (person_on 0 101.5%float);
     CameraPut (knife_on 0 103%float);
     DispatcherTurn; DispatcherTurn; DispatcherTurn] in
  fires mail_config d1 (Main.initial_state None) = true
  /\ last_email_sent_time (Main.run mail_config sample_strftime acts s1)
       !! (0, "knife") = Some 100%float
  /\ count_effects (starts_email_for d1)
       (Main.run mail_config sample_strftime acts s1) = 1%nat
  /\ length (alert_history (Main.run mail_config sample_strftime acts s1))
     = 2%nat.
Proof.
  cbv zeta. split; [reflexivity|].
  destruct (email_throttle_update_is_final mail_config sample_strftime
              (knife_on 0 100%float) (Main.initial_state None)
              eq_refl eq_refl)
    as (_ & _ & Hlater & _).
  destruct (Hlater
              [SetRecipient (Some "guard@example.org");
               EmailThreadRuns SmtpAuthenticationError
                 (record_of mail_config sample_strftime (knife_on 0 100%float)
                    (Main.initial_state None));
               CameraPut (knife_on 0 101%float);
               CameraPut (person_on 0 101.5%float);
               CameraPut (knife_on 0 103%float);
               DispatcherTurn; DispatcherTurn; DispatcherTurn]
              eq_refl) as [Hentry Hcount].
  split; [exact Hentry|]. split; [|reflexivity].
  rewrite Hcount. reflexivity.
Defined.

(** ** The snapshot reference and the result of the save *)

(** Claim C7, as the code has it.  A detection is interesting exactly
    when it is flagged a primary threat or its class is the configured
    person class; the worker never looks at the security mode, so a person
    that is no alert in Standard mode gets its save attempt all the same.
    For an interesting detection one save of the annotated frame is
    attempted, under [snapshot_dir] and the name made of camera id, formatted
    time and class, and the event is offered to the queue whatever the
    outcome.  The reference the event carries depends only on whether
    [cv2.imwrite] raised: none when it raised, and then the error is
    printed; the file name when it returned, also when it returned False and
    no file was written, and then nothing is printed. *)
Theorem snapshot_reference_ignores_save_result
    cfg st strftime now annotated out d s :
  is_interesting cfg d = true ->
  let s' := CameraProcessor.process_detection cfg st strftime now annotated
              (outcome_raises out) d s in
  let name :=
    snapshot_name (camera_id st) (strftime "%Y%m%d_%H%M%S" now) (d_class d) in
  let reference := if outcome_raises out then None else Some name in
  let event := make_detection_data st now reference d in
  (d_is_primary_threat d = true \/ d_class d = PERSON_CLASS_NAME cfg)
  /\ CameraProcessor.effects s'
     = CameraProcessor.effects s
       ++ Imwrite (path_join (snapshot_dir st) name) annotated
          :: (if outcome_raises out then [Print (LogSnapshotError name)] else [])
  /\ CameraProcessor.alert_queue s'
     = Main.offer event (CameraProcessor.alert_queue s)
  /\ (PyQueue.full (CameraProcessor.alert_queue s) = false ->
      queued s' = queued s ++ [event])
  /\ (out = ImwriteReturns false ->
      file_saved out = false /\ dd_snapshot_file event = Some name)
  /\ (dd_snapshot_file event = None <-> out = ImwriteRaises)
  /\ (d_is_primary_threat d = false ->
      alert_condition cfg false event = None
      /\ alert_condition cfg true event = Some "Motion Detected (Person)").
Proof.
  intros Hint s' name reference event.
  destruct (process_detection_worker cfg st strftime now annotated
              (outcome_raises out) d s) as (_ & _ & _ & _ & _ & Hq & _).
  destruct (process_detection_events cfg st strftime now annotated
              (outcome_raises out) d s) as (_ & He).
  fold s' in Hq, He. cbv zeta in He. fold name in He.
  unfold snapshot_ref in Hq. rewrite Hint in Hq, He. simpl in Hq.
  fold name in Hq.
  assert (Href : (if negb (outcome_raises out) then Some name else None)
                 = reference).
  { subst reference. by destruct (outcome_raises out). }
  rewrite Href in Hq. fold event in Hq.
  assert (Hcls : d_is_primary_threat d = true
                 \/ d_class d = PERSON_CLASS_NAME cfg).
  { unfold is_interesting in Hint.
    apply orb_true_iff in Hint as [?|Hp]; [by left|right].
    by apply String.eqb_eq. }
  split; [exact Hcls|]. split; [exact He|]. split; [exact Hq|].
  split; [|split; [|split]].
  - intros Hfull. unfold queued. rewrite Hq.
    unfold Main.offer, PyQueue.put_nowait. by rewrite Hfull.
  - by intros ->.
  - subst event reference. simpl. by destruct out.
  - intros Hnp. destruct Hcls as [Hp|Hp]; [congruence|].
    unfold alert_condition. subst event. simpl. rewrite Hnp.
    apply String.eqb_eq in Hp. by rewrite Hp.
Qed.

Lemma snapshot_reference_ignores_save_result_witness :
  let s' := CameraProcessor.process_detection default_config sample_settings
              sample_strftime 100%float (Plotted (Captured 3))
              (outcome_raises (ImwriteReturns false)) sample_person
              started_worker in
  file_saved (ImwriteReturns false) = false
  /\ dd_snapshot_file <$> queued s' = [Some "cam0_%Y%m%d_%H%M%S_person.jpg"]
  /\ CameraProcessor.effects s'
     = [Imwrite "static/snapshots/cam0_%Y%m%d_%H%M%S_person.jpg"
          (Plotted (Captured 3))].
Proof.
  cbv zeta.
  destruct (snapshot_reference_ignores_save_result default_config
              sample_settings sample_strftime 100%float (Plotted (Captured 3))
              (ImwriteReturns false) sample_person started_worker eq_refl)
    as (_ & Heff & _ & Hqueued & Hfalse & _).
  destruct (Hfalse eq_refl) as [Hsaved _].
  split; [exact Hsaved|]. split.
  - rewrite (Hqueued eq_refl). reflexivity.
  - rewrite Heff. reflexivity.
Defined.
